(** * SDBlockDevice: an SD card driven over SPI

    A shallow embedding of [SDBlockDevice.cpp] / [SDBlockDevice.h].

    Machine integers are [Z] with their wrap-around written out ([u8],
    [u32], [u64]).  The driver object and the hardware it talks to form
    one record, [SD], which every member function threads through a
    small state monad.  Member functions keep their C++ names; a loop
    of a member function is a [Fixpoint] of its own, named after what
    it does.

    The card is a finite script of byte exchanges, each with the time
    it takes; the stopwatch [_spi_timer] runs on the clock these
    exchanges advance.  Debug output, the mutex and the bus lock have
    no place in the state and are left out. *)

From Stdlib Require Import ZArith List Bool Lia.
Import ListNotations.
Open Scope Z_scope.

(** ** Machine integers *)

Definition u8 (x : Z) : Z := x mod 2 ^ 8.
Definition u32 (x : Z) : Z := x mod 2 ^ 32.
Definition u64 (x : Z) : Z := x mod 2 ^ 64.

(** ** Constants of SDBlockDevice.cpp *)

Definition SD_COMMAND_TIMEOUT : Z := 5000.
Definition SD_CMD0_GO_IDLE_STATE_RETRIES : nat := 5.
Definition SD_DBG : Z := 0.
Definition SD_CMD_TRACE : Z := 0.

Definition SD_BLOCK_DEVICE_ERROR_WOULD_BLOCK : Z := -5001.
Definition SD_BLOCK_DEVICE_ERROR_UNSUPPORTED : Z := -5002.
Definition SD_BLOCK_DEVICE_ERROR_PARAMETER : Z := -5003.
Definition SD_BLOCK_DEVICE_ERROR_NO_INIT : Z := -5004.
Definition SD_BLOCK_DEVICE_ERROR_NO_DEVICE : Z := -5005.
Definition SD_BLOCK_DEVICE_ERROR_WRITE_PROTECTED : Z := -5006.
Definition SD_BLOCK_DEVICE_ERROR_UNUSABLE : Z := -5007.
Definition SD_BLOCK_DEVICE_ERROR_NO_RESPONSE : Z := -5008.
Definition SD_BLOCK_DEVICE_ERROR_CRC : Z := -5009.
Definition SD_BLOCK_DEVICE_ERROR_ERASE : Z := -5010.
Definition SD_BLOCK_DEVICE_ERROR_WRITE : Z := -5011.

Definition BLOCK_SIZE_HC : Z := 512.
Definition SPI_CMD (x : Z) : Z := Z.lor 0x40 (Z.land x 0x3f).

Definition R1_NO_RESPONSE : Z := 0xFF.
Definition R1_RESPONSE_RECV : Z := 0x80.
Definition R1_IDLE_STATE : Z := Z.shiftl 1 0.
Definition R1_ERASE_RESET : Z := Z.shiftl 1 1.
Definition R1_ILLEGAL_COMMAND : Z := Z.shiftl 1 2.
Definition R1_COM_CRC_ERROR : Z := Z.shiftl 1 3.
Definition R1_ERASE_SEQUENCE_ERROR : Z := Z.shiftl 1 4.
Definition R1_ADDRESS_ERROR : Z := Z.shiftl 1 5.
Definition R1_PARAMETER_ERROR : Z := Z.shiftl 1 6.

Definition SDCARD_NONE : Z := 0.
Definition SDCARD_V1 : Z := 1.
Definition SDCARD_V2 : Z := 2.
Definition SDCARD_V2HC : Z := 3.
Definition CARD_UNKNOWN : Z := 4.

Definition PACKET_SIZE : nat := 6.

Definition OCR_HCS_CCS : Z := Z.shiftl 0x1 30.
Definition OCR_LOW_VOLTAGE : Z := Z.shiftl 0x01 24.
Definition OCR_3_3V : Z := Z.shiftl 0x1 20.

Definition CMD8_PATTERN : Z := 0xAA.

Definition SPI_DATA_RESPONSE_MASK : Z := 0x1F.
Definition SPI_DATA_ACCEPTED : Z := 0x05.
Definition SPI_DATA_CRC_ERROR : Z := 0x0B.
Definition SPI_DATA_WRITE_ERROR : Z := 0x0D.
Definition SPI_START_BLOCK : Z := 0xFE.
Definition SPI_START_BLK_MUL_WRITE : Z := 0xFC.
Definition SPI_STOP_TRAN : Z := 0xFD.

(** The [cmdSupported] enumeration of SDBlockDevice.h.  The enumerators
    are plain integers in the source too: [ACMD13_SD_STATUS] and
    [CMD13_SEND_STATUS] are the same value, and so a [case] on one also
    catches the other. *)

Definition CMD0_GO_IDLE_STATE : Z := 0.
Definition CMD8_SEND_IF_COND : Z := 8.
Definition CMD9_SEND_CSD : Z := 9.
Definition CMD12_STOP_TRANSMISSION : Z := 12.
Definition CMD13_SEND_STATUS : Z := 13.
Definition CMD16_SET_BLOCKLEN : Z := 16.
Definition CMD17_READ_SINGLE_BLOCK : Z := 17.
Definition CMD18_READ_MULTIPLE_BLOCK : Z := 18.
Definition CMD24_WRITE_BLOCK : Z := 24.
Definition CMD25_WRITE_MULTIPLE_BLOCK : Z := 25.
Definition CMD32_ERASE_WR_BLK_START_ADDR : Z := 32.
Definition CMD33_ERASE_WR_BLK_END_ADDR : Z := 33.
Definition CMD38_ERASE : Z := 38.
Definition CMD55_APP_CMD : Z := 55.
Definition CMD58_READ_OCR : Z := 58.
Definition CMD59_CRC_ON_OFF : Z := 59.
Definition ACMD13_SD_STATUS : Z := 13.
Definition ACMD22_SEND_NUM_WR_BLOCKS : Z := 22.
Definition ACMD23_SET_WR_BLK_ERASE_COUNT : Z := 23.
Definition ACMD41_SD_SEND_OP_COND : Z := 41.

(** ** Constants of the platform headers

    These come from headers outside the repository (the block-device
    base class, the SPI class and errno.h); the values are the ones
    those headers give. *)

Definition BD_ERROR_OK : Z := 0.
Definition BD_ERROR_DEVICE_ERROR : Z := -4001.
Definition SPI_FILL_CHAR : Z := 0xFF.
Definition EINVAL : Z := 22.

(** ** The driver and its hardware

    [Timer] is the platform stopwatch behind [_spi_timer]: it
    accumulates the time during which it runs, [reset] clears what it
    has accumulated and restarts the current slice, [read_ms] gives the
    accumulated time plus the running slice. *)

Record Timer := mkTimer {
  t_running : bool;
  t_start : Z;
  t_time : Z
}.

(** [SPI] is the transceiver behind [_spi].  The card is a script: one
    entry per byte exchange, giving the byte the card shifts out and
    the milliseconds the exchange takes.  When the script is used up
    the data line idles high: every exchange reads 0xFF and takes one
    millisecond.  [mosi] records the bytes shifted out by the host,
    oldest first; [spi_hz] is the clock last applied. *)

Record SPI := mkSPI {
  miso : list (Z * N);
  mosi : list Z;
  spi_hz : Z;
  spi_fill : Z
}.

(** The members of [SDBlockDevice], and [ticker], the platform's
    millisecond clock.  The mutex [_lock] and the bus lock of [_spi]
    are left out: the model is single-threaded. *)

Record SD := mkSD {
  _card_type : Z;
  _sectors : Z;
  _spi_timer : Timer;
  _init_sck : Z;
  _transfer_sck : Z;
  _spi : SPI;
  _cs : Z;
  _block_size : Z;
  _erase_size : Z;
  _is_initialized : bool;
  _dbg : bool;
  ticker : Z
}.

Definition set_card_type (v : Z) (d : SD) : SD :=
  mkSD v (_sectors d) (_spi_timer d) (_init_sck d) (_transfer_sck d) (_spi d)
       (_cs d) (_block_size d) (_erase_size d) (_is_initialized d) (_dbg d)
       (ticker d).
Definition set_sectors (v : Z) (d : SD) : SD :=
  mkSD (_card_type d) v (_spi_timer d) (_init_sck d) (_transfer_sck d) (_spi d)
       (_cs d) (_block_size d) (_erase_size d) (_is_initialized d) (_dbg d)
       (ticker d).
Definition set_spi_timer (v : Timer) (d : SD) : SD :=
  mkSD (_card_type d) (_sectors d) v (_init_sck d) (_transfer_sck d) (_spi d)
       (_cs d) (_block_size d) (_erase_size d) (_is_initialized d) (_dbg d)
       (ticker d).
Definition set_transfer_sck (v : Z) (d : SD) : SD :=
  mkSD (_card_type d) (_sectors d) (_spi_timer d) (_init_sck d) v (_spi d)
       (_cs d) (_block_size d) (_erase_size d) (_is_initialized d) (_dbg d)
       (ticker d).
Definition set_spi (v : SPI) (d : SD) : SD :=
  mkSD (_card_type d) (_sectors d) (_spi_timer d) (_init_sck d)
       (_transfer_sck d) v (_cs d) (_block_size d) (_erase_size d)
       (_is_initialized d) (_dbg d) (ticker d).
Definition set_cs (v : Z) (d : SD) : SD :=
  mkSD (_card_type d) (_sectors d) (_spi_timer d) (_init_sck d)
       (_transfer_sck d) (_spi d) v (_block_size d) (_erase_size d)
       (_is_initialized d) (_dbg d) (ticker d).
Definition set_erase_size (v : Z) (d : SD) : SD :=
  mkSD (_card_type d) (_sectors d) (_spi_timer d) (_init_sck d)
       (_transfer_sck d) (_spi d) (_cs d) (_block_size d) v
       (_is_initialized d) (_dbg d) (ticker d).
Definition set_is_initialized (v : bool) (d : SD) : SD :=
  mkSD (_card_type d) (_sectors d) (_spi_timer d) (_init_sck d)
       (_transfer_sck d) (_spi d) (_cs d) (_block_size d) (_erase_size d)
       v (_dbg d) (ticker d).
Definition set_dbg (v : bool) (d : SD) : SD :=
  mkSD (_card_type d) (_sectors d) (_spi_timer d) (_init_sck d)
       (_transfer_sck d) (_spi d) (_cs d) (_block_size d) (_erase_size d)
       (_is_initialized d) v (ticker d).
Definition set_ticker (v : Z) (d : SD) : SD :=
  mkSD (_card_type d) (_sectors d) (_spi_timer d) (_init_sck d)
       (_transfer_sck d) (_spi d) (_cs d) (_block_size d) (_erase_size d)
       (_is_initialized d) (_dbg d) v.

(** ** The state monad of member functions *)

Definition M (A : Type) : Type := SD -> A * SD.

Definition ret {A} (a : A) : M A := fun d => (a, d).
Definition bind {A B} (m : M A) (k : A -> M B) : M B :=
  fun d => let (a, d') := m d in k a d'.
Definition get {A} (f : SD -> A) : M A := fun d => (f d, d).
Definition modify (f : SD -> SD) : M unit := fun d => (tt, f d).

Notation "x <- m ;; k" := (bind m (fun x => k))
  (at level 61, m at next level, right associativity).
Notation "' pat <- m ;; k" := (bind m (fun x => match x with pat => k end))
  (at level 61, pat pattern, m at next level, right associativity).
Notation "m ;;; k" := (bind m (fun _ => k))
  (at level 61, right associativity).

(** ** The platform objects *)

Module Hw.

(** [Timer::slicetime]: the length of the running slice. *)
Definition slicetime (d : SD) : Z :=
  let t := _spi_timer d in
  if t_running t then ticker d - t_start t else 0.

Definition timer_start : M unit := fun d =>
  let t := _spi_timer d in
  if t_running t then (tt, d)
  else (tt, set_spi_timer (mkTimer true (ticker d) (t_time t)) d).

Definition timer_stop : M unit := fun d =>
  let t := _spi_timer d in
  (tt, set_spi_timer (mkTimer false (t_start t) (t_time t + slicetime d)) d).

Definition timer_reset : M unit := fun d =>
  let t := _spi_timer d in
  (tt, set_spi_timer (mkTimer (t_running t) (ticker d) 0) d).

Definition timer_read_ms : M Z := fun d =>
  (t_time (_spi_timer d) + slicetime d, d).

(** [wait_ms]. *)
Definition wait_ms (ms : Z) : M unit := fun d =>
  (tt, set_ticker (ticker d + ms) d).

(** [SPI::write(int)]: one full-duplex exchange of an 8-bit word. *)
Definition spi_write (tx : Z) : M Z := fun d =>
  let s := _spi d in
  match miso s with
  | [] =>
      (0xFF,
       set_ticker (ticker d + 1)
         (set_spi (mkSPI [] (mosi s ++ [u8 tx]) (spi_hz s) (spi_fill s)) d))
  | (b, t) :: rest =>
      (u8 b,
       set_ticker (ticker d + Z.of_N t)
         (set_spi (mkSPI rest (mosi s ++ [u8 tx]) (spi_hz s) (spi_fill s)) d))
  end.

(** [SPI::frequency] and [SPI::set_default_write_value]. *)
Definition spi_frequency (hz : Z) : M unit := fun d =>
  let s := _spi d in
  (tt, set_spi (mkSPI (miso s) (mosi s) hz (spi_fill s)) d).

Definition spi_set_default_write_value (v : Z) : M unit := fun d =>
  let s := _spi d in
  (tt, set_spi (mkSPI (miso s) (mosi s) (spi_hz s) v) d).

(** [SPI::write(tx, tx_len, rx, rx_len)]: a block transfer of
    [max tx_len rx_len] exchanges; past the end of [tx] the default
    write value is shifted out, and the first [rx_len] bytes received
    are stored. *)
Fixpoint spi_exchanges (n : nat) (tx : list Z) : M (list Z) :=
  match n with
  | O => ret []
  | S n' =>
      out <- match tx with
             | [] => get (fun d => spi_fill (_spi d))
             | t :: _ => ret t
             end ;;
      b <- spi_write out ;;
      bs <- spi_exchanges n' (tl tx) ;;
      ret (b :: bs)
  end.

Definition spi_write_block (tx : list Z) (tx_len rx_len : nat) : M (list Z) :=
  bs <- spi_exchanges (Nat.max tx_len rx_len) (firstn tx_len tx) ;;
  ret (firstn rx_len bs).

End Hw.
Import Hw.

(** ** Serial framing *)

Definition _select : M unit := modify (set_cs 0).
Definition _deselect : M unit := modify (set_cs 1).

Fixpoint _spi_wait (count : nat) : M unit :=
  match count with
  | O => ret tt
  | S n => spi_write SPI_FILL_CHAR ;;; _spi_wait n
  end.

(** [_spi.format(8, 0)] is the word size every exchange of the model
    already has. *)
Definition _spi_init : M unit :=
  hz <- get _init_sck ;;
  spi_frequency hz ;;;
  spi_set_default_write_value SPI_FILL_CHAR ;;;
  modify (set_cs 1) ;;;
  _spi_wait 10.

(** The body shared by the two polling loops
    [do { ... } while (_spi_timer.read_ms() < ms)].  [fuel] only makes
    the recursion structural: [poll_line_fuel] below shows that the
    amount [patience] hands over is never used up. *)
Fixpoint poll_line (hit : Z -> bool) (ms : Z) (fuel : nat) : M bool :=
  match fuel with
  | O => ret false
  | S n =>
      r <- spi_write SPI_FILL_CHAR ;;
      if hit r then timer_stop ;;; ret true
      else
        t <- timer_read_ms ;;
        if t <? ms then poll_line hit ms n
        else timer_stop ;;; ret false
  end.

Definition patience (ms : Z) (d : SD) : nat :=
  S (length (miso (_spi d)) + Z.to_nat ms).

Definition _wait_token (token : Z) : M bool :=
  timer_reset ;;;
  timer_start ;;;
  n <- get (patience 300) ;;
  poll_line (Z.eqb token) 300 n.

Definition _wait_ready (ms : Z) : M bool :=
  timer_reset ;;;
  timer_start ;;;
  n <- get (patience ms) ;;
  poll_line (fun response => response =? 0xFF) ms n.

(** ** Command engine *)

Definition cmdPacket (cmd arg : Z) : list Z :=
  [ u8 (SPI_CMD cmd);
    u8 (Z.shiftr arg 24);
    u8 (Z.shiftr arg 16);
    u8 (Z.shiftr arg 8);
    u8 (Z.shiftr arg 0);
    if cmd =? CMD0_GO_IDLE_STATE then 0x95
    else if cmd =? CMD8_SEND_IF_COND then 0x87
    else 0xFF ].

Fixpoint spi_send (bytes : list Z) : M unit :=
  match bytes with
  | [] => ret tt
  | b :: bs => spi_write b ;;; spi_send bs
  end.

(** The response loop of [_cmd_spi]: at most [n] exchanges, left at the
    first byte whose bit 7 is clear; [response] is the byte read last. *)
Fixpoint r1_poll (n : nat) (response : Z) : M Z :=
  match n with
  | O => ret response
  | S n' =>
      response <- spi_write SPI_FILL_CHAR ;;
      if Z.land response R1_RESPONSE_RECV =? 0 then ret response
      else r1_poll n' response
  end.

(** [response] is not initialised in the source; the loop runs at least
    once, so the value it starts from is never returned. *)
Definition _cmd_spi (cmd arg : Z) : M Z :=
  spi_send (cmdPacket cmd arg) ;;;
  (if CMD12_STOP_TRANSMISSION =? cmd
   then spi_write SPI_FILL_CHAR ;;; ret tt
   else ret tt) ;;;
  r1_poll 16 0.

(** The retry loop of [_cmd]. *)
Fixpoint cmd_retry (n : nat) (cmd arg : Z) (isAcmd : bool) (response : Z)
  : M Z :=
  match n with
  | O => ret response
  | S n' =>
      (if isAcmd then _cmd_spi CMD55_APP_CMD 0x0 ;;; ret tt else ret tt) ;;;
      response <- _cmd_spi cmd arg ;;
      if R1_NO_RESPONSE =? response then cmd_retry n' cmd arg isAcmd response
      else ret response
  end.

Definition read_r3_r7 : M Z :=
  b3 <- spi_write SPI_FILL_CHAR ;;
  b2 <- spi_write SPI_FILL_CHAR ;;
  b1 <- spi_write SPI_FILL_CHAR ;;
  b0 <- spi_write SPI_FILL_CHAR ;;
  ret (u32 (Z.lor (Z.lor (Z.lor (Z.shiftl b3 24) (Z.shiftl b2 16))
                         (Z.shiftl b1 8)) b0)).

Definition bit_set (x mask : Z) : bool := negb (Z.land x mask =? 0).

(** [_cmd] returns its status together with the value it leaves in
    [*resp]; a caller that passes no [resp] drops the second part. *)
Definition _cmd (cmd arg : Z) (isAcmd : bool) : M (Z * Z) :=
  _select ;;;
  _wait_ready SD_COMMAND_TIMEOUT ;;;
  response <- cmd_retry 3 cmd arg isAcmd 0 ;;
  if R1_NO_RESPONSE =? response then
    _deselect ;;; ret (SD_BLOCK_DEVICE_ERROR_NO_DEVICE, response)
  else if bit_set response R1_COM_CRC_ERROR then
    _deselect ;;; ret (SD_BLOCK_DEVICE_ERROR_CRC, response)
  else if bit_set response R1_ILLEGAL_COMMAND then
    (if CMD8_SEND_IF_COND =? cmd
     then modify (set_card_type CARD_UNKNOWN) else ret tt) ;;;
    _deselect ;;; ret (SD_BLOCK_DEVICE_ERROR_UNSUPPORTED, response)
  else
    let status :=
      if bit_set response R1_ERASE_RESET
         || bit_set response R1_ERASE_SEQUENCE_ERROR
      then SD_BLOCK_DEVICE_ERROR_ERASE
      else if bit_set response R1_ADDRESS_ERROR
              || bit_set response R1_PARAMETER_ERROR
      then SD_BLOCK_DEVICE_ERROR_PARAMETER
      else BD_ERROR_OK in
    response <-
      (if cmd =? CMD8_SEND_IF_COND then
         modify (set_card_type SDCARD_V2) ;;; read_r3_r7
       else if cmd =? CMD58_READ_OCR then read_r3_r7
       else if (cmd =? CMD12_STOP_TRANSMISSION) || (cmd =? CMD38_ERASE) then
         _wait_ready SD_COMMAND_TIMEOUT ;;; ret response
       else if cmd =? ACMD13_SD_STATUS then spi_write SPI_FILL_CHAR
       else ret response) ;;
    _deselect ;;; ret (status, response).

Definition _cmd8 : M Z :=
  let arg := Z.lor (Z.shiftl CMD8_PATTERN 0) (Z.shiftl 0x1 8) in
  '(status, response) <- _cmd CMD8_SEND_IF_COND arg false ;;
  ct <- get _card_type ;;
  if (BD_ERROR_OK =? status) && (SDCARD_V2 =? ct) then
    if negb (Z.land response 0xFFF =? arg) then
      modify (set_card_type CARD_UNKNOWN) ;;;
      ret SD_BLOCK_DEVICE_ERROR_UNUSABLE
    else ret status
  else ret status.

Fixpoint go_idle_loop (n : nat) (response : Z) : M Z :=
  match n with
  | O => ret response
  | S n' =>
      '(_, response) <- _cmd CMD0_GO_IDLE_STATE 0x0 false ;;
      if R1_IDLE_STATE =? response then ret response
      else wait_ms 1 ;;; go_idle_loop n' response
  end.

Definition _go_idle_state : M Z :=
  go_idle_loop SD_CMD0_GO_IDLE_STATE_RETRIES 0.

(** ** Data packets

    A buffer the driver fills is returned as the list of bytes stored
    into it; a buffer it sends is a list of bytes, expected to hold at
    least [length] of them. *)

Fixpoint read_loop (length : nat) : M (list Z) :=
  match length with
  | O => ret []
  | S n =>
      b <- spi_write SPI_FILL_CHAR ;;
      bs <- read_loop n ;;
      ret (b :: bs)
  end.

Definition _read_bytes (length : nat) : M (Z * list Z) :=
  _select ;;;
  ok <- _wait_token SPI_START_BLOCK ;;
  if negb ok then
    _deselect ;;; ret (SD_BLOCK_DEVICE_ERROR_NO_RESPONSE, [])
  else
    buffer <- read_loop length ;;
    spi_write SPI_FILL_CHAR ;;;
    spi_write SPI_FILL_CHAR ;;;
    _deselect ;;; ret (0, buffer).

Definition _read (length : nat) : M (Z * list Z) :=
  _select ;;;
  ok <- _wait_token SPI_START_BLOCK ;;
  if negb ok then
    _deselect ;;; ret (SD_BLOCK_DEVICE_ERROR_NO_RESPONSE, [])
  else
    buffer <- spi_write_block [] 0 length ;;
    spi_write SPI_FILL_CHAR ;;;
    spi_write SPI_FILL_CHAR ;;;
    _deselect ;;; ret (0, buffer).

Definition _write (buffer : list Z) (token : Z) (length : nat) : M Z :=
  let crc := 0xFFFF in
  _select ;;;
  _wait_ready SD_COMMAND_TIMEOUT ;;;
  spi_write token ;;;
  spi_write_block buffer length 0 ;;;
  spi_write (Z.shiftr crc 8) ;;;
  spi_write crc ;;;
  response <- spi_write SPI_FILL_CHAR ;;
  _deselect ;;; ret (Z.land response SPI_DATA_RESPONSE_MASK).

(** ** Capacity decoder *)

Definition ext_bits (data : list Z) (msb lsb : Z) : Z :=
  let size := u32 (1 + msb - lsb) in
  fold_left
    (fun bits i =>
       let position := u32 (lsb + i) in
       let byte := u32 (15 - Z.shiftr position 3) in
       let bit := Z.land position 0x7 in
       let value := Z.land (Z.shiftr (nth (Z.to_nat byte) data 0) bit) 1 in
       Z.lor bits (u32 (Z.shiftl value i)))
    (map Z.of_nat (seq 0 (Z.to_nat size))) 0.

Definition _sd_sectors : M Z :=
  '(status, _) <- _cmd CMD9_SEND_CSD 0x0 false ;;
  if negb (status =? 0x0) then ret 0
  else
    '(r, csd) <- _read_bytes 16 ;;
    if negb (r =? 0) then ret 0
    else
      let csd_structure := ext_bits csd 127 126 in
      if csd_structure =? 0 then
        let c_size := ext_bits csd 73 62 in
        let c_size_mult := ext_bits csd 49 47 in
        let read_bl_len := ext_bits csd 83 80 in
        let block_len := u32 (Z.shiftl 1 read_bl_len) in
        let mult := u32 (Z.shiftl 1 (c_size_mult + 2)) in
        let blocknr := u32 ((c_size + 1) * mult) in
        let capacity := u32 (blocknr * block_len) in
        bs <- get _block_size ;;
        let blocks := capacity / bs in
        (if negb (ext_bits csd 46 46 =? 0) then
           modify (set_erase_size BLOCK_SIZE_HC)
         else
           modify (set_erase_size (ext_bits csd 45 39)) ;;;
           es <- get _erase_size ;;
           if es <? bs then modify (set_erase_size bs) else ret tt) ;;;
        ret (u32 blocks)
      else if csd_structure =? 1 then
        let hc_c_size := ext_bits csd 69 48 in
        let blocks := u32 (Z.shiftl (u32 (hc_c_size + 1)) 10) in
        modify (set_erase_size BLOCK_SIZE_HC) ;;;
        ret (u32 blocks)
      else ret 0.

(** ** Initialization state machine *)

Definition _freq : M Z :=
  sck <- get _transfer_sck ;;
  if sck <=? 25000000 then
    spi_frequency sck ;;; ret 0
  else
    modify (set_transfer_sck 25000000) ;;;
    sck <- get _transfer_sck ;;
    spi_frequency sck ;;; ret (- EINVAL).

(** The ACMD41 loop.  Nothing bounds it in the source but the card and
    the stopwatch, which every [_cmd] resets and stops again; the model
    therefore runs it on [fuel] and answers [None] when the loop is
    still turning once the fuel is spent. *)
Fixpoint acmd41_loop (fuel : nat) (arg : Z) : M (option (Z * Z)) :=
  match fuel with
  | O => ret None
  | S n =>
      '(status, response) <- _cmd ACMD41_SD_SEND_OP_COND arg true ;;
      t <- timer_read_ms ;;
      if bit_set response R1_IDLE_STATE && (t <? SD_COMMAND_TIMEOUT)
      then acmd41_loop n arg
      else ret (Some (status, response))
  end.

Definition _initialise_card (fuel : nat) : M (option Z) :=
  modify (set_dbg (negb ((if SD_DBG =? 0 then 0 else SD_CMD_TRACE) =? 0))) ;;;
  _spi_init ;;;
  idle <- _go_idle_state ;;
  if negb (idle =? R1_IDLE_STATE) then
    ret (Some SD_BLOCK_DEVICE_ERROR_NO_DEVICE)
  else
    status <- _cmd8 ;;
    if negb (BD_ERROR_OK =? status) then ret (Some status)
    else
      _cmd CMD59_CRC_ON_OFF 0 false ;;;
      '(status, response) <- _cmd CMD58_READ_OCR 0x0 false ;;
      if negb (BD_ERROR_OK =? status) then ret (Some status)
      else if negb (bit_set response OCR_3_3V) then
        modify (set_card_type CARD_UNKNOWN) ;;;
        ret (Some SD_BLOCK_DEVICE_ERROR_UNUSABLE)
      else
        ct <- get _card_type ;;
        let arg := if SDCARD_V2 =? ct then Z.lor 0x0 OCR_HCS_CCS else 0x0 in
        timer_start ;;;
        looped <- acmd41_loop fuel arg ;;
        match looped with
        | None => ret None
        | Some (status, response) =>
            timer_stop ;;;
            if negb (BD_ERROR_OK =? status) || negb (0x00 =? response) then
              modify (set_card_type CARD_UNKNOWN) ;;;
              ret (Some status)
            else
              ct <- get _card_type ;;
              if SDCARD_V2 =? ct then
                '(status, response) <- _cmd CMD58_READ_OCR 0x0 false ;;
                (if BD_ERROR_OK =? status then
                   if bit_set response OCR_HCS_CCS
                   then modify (set_card_type SDCARD_V2HC)
                   else ret tt
                 else ret tt) ;;;
                ret (Some status)
              else
                modify (set_card_type SDCARD_V1) ;;;
                ret (Some status)
        end.

Definition init (fuel : nat) : M (option Z) :=
  started <- _initialise_card fuel ;;
  match started with
  | None => ret None
  | Some err =>
      modify (set_is_initialized (err =? BD_ERROR_OK)) ;;;
      ok <- get _is_initialized ;;
      if negb ok then ret (Some err)
      else
        sectors <- _sd_sectors ;;
        modify (set_sectors sectors) ;;;
        if 0 =? sectors then ret (Some BD_ERROR_DEVICE_ERROR)
        else
          bs <- get _block_size ;;
          '(status, _) <- _cmd CMD16_SET_BLOCKLEN bs false ;;
          if negb (status =? 0) then ret (Some BD_ERROR_DEVICE_ERROR)
          else
            err <- _freq ;;
            if negb (err =? 0) then ret (Some err)
            else ret (Some BD_ERROR_OK)
  end.

Definition deinit : M Z :=
  modify (set_is_initialized false) ;;; ret 0.

(** ** Block I/O *)

Definition get_read_size (d : SD) : Z := _block_size d.
Definition get_program_size (d : SD) : Z := _block_size d.
Definition get_erase_size (d : SD) : Z := _erase_size d.

Definition size (d : SD) : Z :=
  let sectors := if _is_initialized d then _sectors d else 0 in
  u64 (_block_size d * sectors).

(** Modelled from the spec: [is_valid_read], [is_valid_program] and
    [is_valid_erase] belong to the block-device base class, which is
    not part of the repository.  The spec asks for an address and a
    size that are multiples of the 512-byte block and for a range that
    lies inside the device. *)
Definition is_valid_read (addr size' : Z) (d : SD) : bool :=
  (addr mod 512 =? 0) && (size' mod 512 =? 0) && (addr + size' <=? size d).
Definition is_valid_program (addr size' : Z) (d : SD) : bool :=
  (addr mod 512 =? 0) && (size' mod 512 =? 0) && (addr + size' <=? size d).
Definition is_valid_erase (addr size' : Z) (d : SD) : bool :=
  (addr mod 512 =? 0) && (size' mod 512 =? 0) && (addr + size' <=? size d).

(** The loop of the multiple block write,
    [do { ... } while (--blockCnt)]; [more] counts the rounds that may
    follow the current one. *)
Fixpoint write_blocks (more : nat) (buffer : list Z) (length : nat) : M Z :=
  response <- _write buffer SPI_START_BLK_MUL_WRITE length ;;
  if negb (response =? SPI_DATA_ACCEPTED) then ret response
  else
    match more with
    | O => ret response
    | S n => write_blocks n (skipn length buffer) length
    end.

Definition program (b : list Z) (addr size' : Z) : M Z :=
  valid <- get (is_valid_program addr size') ;;
  if negb valid then ret SD_BLOCK_DEVICE_ERROR_PARAMETER
  else
    ok <- get _is_initialized ;;
    if negb ok then ret SD_BLOCK_DEVICE_ERROR_NO_INIT
    else
      bs <- get _block_size ;;
      ct <- get _card_type ;;
      let blockCnt := size' / bs in
      let addr := if SDCARD_V2HC =? ct then addr / bs else addr in
      if blockCnt =? 1 then
        '(status, _) <- _cmd CMD24_WRITE_BLOCK (u32 addr) false ;;
        if negb (BD_ERROR_OK =? status) then ret status
        else
          response <- _write b SPI_START_BLOCK (Z.to_nat bs) ;;
          let status :=
            if (response =? SPI_DATA_CRC_ERROR)
               || (response =? SPI_DATA_WRITE_ERROR)
            then SD_BLOCK_DEVICE_ERROR_WRITE else status in
          '(status, _) <- _cmd CMD13_SEND_STATUS 0 false ;;
          ret status
      else
        _cmd ACMD23_SET_WR_BLK_ERASE_COUNT (u32 blockCnt) true ;;;
        '(status, _) <- _cmd CMD25_WRITE_MULTIPLE_BLOCK (u32 addr) false ;;
        if negb (BD_ERROR_OK =? status) then ret status
        else
          response <- write_blocks (Z.to_nat (u64 (blockCnt - 1))) b
                                   (Z.to_nat bs) ;;
          _select ;;;
          spi_write SPI_STOP_TRAN ;;;
          _deselect ;;;
          _wait_ready SD_COMMAND_TIMEOUT ;;;
          (if response =? SPI_DATA_WRITE_ERROR then
             '(acmd22, _) <- _cmd ACMD22_SEND_NUM_WR_BLOCKS 0 true ;;
             if BD_ERROR_OK =? acmd22 then _read_bytes 4 ;;; ret tt
             else ret tt
           else ret tt) ;;;
          ret status.

(** The first loop of [read]: the read command, issued up to three
    times while the first block does not start.  [inl] is the early
    [return status]; [inr] carries [status], [blockCnt] and the bytes
    stored so far on to the rest of the function. *)
Fixpoint read_first (tries : nat) (addr blockCnt : Z) (length : nat)
                    (status : Z) : M (Z + Z * Z * list Z) :=
  match tries with
  | O => ret (inr (status, blockCnt, []))
  | S n =>
      '(status, _) <-
        _cmd (if 1 <? blockCnt then CMD18_READ_MULTIPLE_BLOCK
              else CMD17_READ_SINGLE_BLOCK) (u32 addr) false ;;
      if negb (BD_ERROR_OK =? status) then ret (inl status)
      else
        '(r, data) <- _read length ;;
        if SD_BLOCK_DEVICE_ERROR_NO_RESPONSE =? r
        then read_first n addr blockCnt length status
        else ret (inr (status, u64 (blockCnt - 1), data))
  end.

(** The second loop of [read], [while (blockCnt) { ... }]. *)
Fixpoint read_rest (blockCnt : nat) (length : nat) (status : Z)
  : M (Z * list Z) :=
  match blockCnt with
  | O => ret (status, [])
  | S n =>
      '(r, data) <- _read length ;;
      if negb (0 =? r) then ret (SD_BLOCK_DEVICE_ERROR_NO_RESPONSE, [])
      else
        '(status, more) <- read_rest n length status ;;
        ret (status, data ++ more)
  end.

Definition read (addr size' : Z) : M (Z * list Z) :=
  valid <- get (is_valid_read addr size') ;;
  if negb valid then ret (SD_BLOCK_DEVICE_ERROR_PARAMETER, [])
  else
    ok <- get _is_initialized ;;
    if negb ok then ret (SD_BLOCK_DEVICE_ERROR_PARAMETER, [])
    else
      bs <- get _block_size ;;
      ct <- get _card_type ;;
      let blockCnt := size' / bs in
      let addr := if SDCARD_V2HC =? ct then addr / bs else addr in
      first <- read_first 3 addr blockCnt (Z.to_nat bs) BD_ERROR_OK ;;
      match first with
      | inl status => ret (status, [])
      | inr (status, blockCnt, data) =>
          '(status, more) <- read_rest (Z.to_nat blockCnt) (Z.to_nat bs)
                                       status ;;
          (if bs <? size' then
             '(status, _) <- _cmd CMD12_STOP_TRANSMISSION 0x0 false ;;
             ret (status, data ++ more)
           else ret (status, data ++ more))
      end.

Definition erase (addr size' : Z) : M Z :=
  valid <- get (is_valid_erase addr size') ;;
  if negb valid then ret SD_BLOCK_DEVICE_ERROR_PARAMETER
  else
    ok <- get _is_initialized ;;
    if negb ok then ret SD_BLOCK_DEVICE_ERROR_NO_INIT
    else
      bs <- get _block_size ;;
      ct <- get _card_type ;;
      let size' := u64 (size' - bs) in
      let size' := if SDCARD_V2HC =? ct then size' / bs else size' in
      let addr := if SDCARD_V2HC =? ct then addr / bs else addr in
      '(status, _) <- _cmd CMD32_ERASE_WR_BLK_START_ADDR (u32 addr) false ;;
      if negb (BD_ERROR_OK =? status) then ret status
      else
        '(status, _) <-
          _cmd CMD33_ERASE_WR_BLK_END_ADDR (u32 (addr + size')) false ;;
        if negb (BD_ERROR_OK =? status) then ret status
        else
          '(status, _) <- _cmd CMD38_ERASE 0x0 false ;;
          ret status.

Definition debug (dbg : bool) : M unit := modify (set_dbg dbg).

Definition frequency (freq : Z) : M Z :=
  modify (set_transfer_sck (u32 freq)) ;;;
  _freq.

(** The constructor.  It leaves [_sectors], [_erase_size] and [_dbg]
    as they are found in memory: the three last arguments.  [card] is
    the card on the bus and [now] the time of construction. *)
Definition SDBlockDevice (card : list (Z * N)) (now hz : Z)
    (mem_sectors mem_erase_size : Z) (mem_dbg : bool) : SD :=
  mkSD SDCARD_NONE mem_sectors (mkTimer false 0 0) 100000 (u32 hz)
       (mkSPI card [] 1000000 SPI_FILL_CHAR) 1 BLOCK_SIZE_HC mem_erase_size
       false mem_dbg now.

(** * Observations

    [preserves f m]: running [m] leaves the observation [f] of the
    state as it was.  [post m d Q]: the result and the state that [m]
    leaves when started in [d] satisfy [Q]. *)

Definition preserves {A B} (f : SD -> B) (m : M A) : Prop :=
  forall d, f (snd (m d)) = f d.

Definition post {A} (m : M A) (d : SD) (Q : A -> SD -> Prop) : Prop :=
  Q (fst (m d)) (snd (m d)).

(** The reading of the stopwatch. *)
Definition elapsed (d : SD) : Z := t_time (_spi_timer d) + slicetime d.

(** [incoming d i] is the byte read by the [i]-th exchange to come. *)
Definition incoming (d : SD) (i : nat) : Z :=
  match nth_error (miso (_spi d)) i with
  | Some (b, _) => u8 b
  | None => 0xFF
  end.

(** A card that has nothing more to say. *)
Definition silent (d : SD) : Prop := miso (_spi d) = [].

(** The statuses [_cmd] returns. *)
Definition cmd_statuses : list Z :=
  [ BD_ERROR_OK; SD_BLOCK_DEVICE_ERROR_NO_DEVICE; SD_BLOCK_DEVICE_ERROR_CRC;
    SD_BLOCK_DEVICE_ERROR_UNSUPPORTED; SD_BLOCK_DEVICE_ERROR_ERASE;
    SD_BLOCK_DEVICE_ERROR_PARAMETER ].

(** The card types a successful [_initialise_card] can leave. *)
Definition reachable_type (t : Z) : Prop :=
  t = SDCARD_V2 \/ t = SDCARD_V2HC \/ t = CARD_UNKNOWN.

Definition geometry (d : SD) : Z * Z * bool :=
  (_sectors d, _erase_size d, _is_initialized d).

(** * Scripted cards

    Builders for card scripts: [quick] makes every exchange instant,
    [answers r1 extra] is what a ready card shifts out around one
    command (a 0xFF while the host checks that it is ready, six bytes
    under the packet, then R1 and the rest of the response), and
    [block bytes] is a data packet. *)

Definition quick (bytes : list Z) : list (Z * N) :=
  map (fun b => (b, 0%N)) bytes.

Definition answers (r1 : Z) (extra : list Z) : list Z :=
  0xFF :: repeat 0xFF 6 ++ r1 :: extra.

Definition acmd_answers (r55 r1 : Z) : list Z :=
  0xFF :: repeat 0xFF 6 ++ r55 :: repeat 0xFF 6 ++ [r1].

Definition block (bytes : list Z) : list Z := 0xFE :: bytes ++ [0x00; 0x00].

(** A device just constructed on a card, at time 0 and with the
    default transfer clock. *)
Definition fresh (card : list (Z * N)) : SD :=
  SDBlockDevice card 0 1000000 0 0 false.

(** A version 1 CSD with [c_size = 3913], [c_size_mult = 7] and
    [read_bl_len = 9], and a card that hands it out on CMD9. *)
Definition csd_v1_example : list Z :=
  [ 0x00; 0x26; 0x00; 0x32; 0x5F; 0x59; 0x83; 0xD2;
    0x76; 0xDB; 0xDF; 0xFF; 0x96; 0x40; 0x00; 0x01 ].

Definition csd_v1_card : SD :=
  fresh (quick (answers 0x00 [] ++ block csd_v1_example)).

(** A version 2 CSD with [c_size = 7580], and the two OCR values of a
    high capacity card: while it initializes and once it is ready. *)
Definition csd_v2_example : list Z :=
  [ 0x40; 0x0E; 0x00; 0x32; 0x5B; 0x59; 0x00; 0x00;
    0x1D; 0x9C; 0x7F; 0x80; 0x0A; 0x40; 0x00; 0x01 ].

Definition ocr_busy : list Z := [0x00; 0xFF; 0x80; 0x00].
Definition ocr_ready_hc : list Z := [0xC0; 0xFF; 0x80; 0x00].

(** A version 2 card up to the first CMD58: the ten priming bytes, then
    CMD0, CMD8, CMD59 and CMD58. *)
Definition v2_start : list Z :=
  repeat 0xFF 10 ++ answers 0x01 [] ++ answers 0x01 [0x00; 0x00; 0x01; 0xAA]
  ++ answers 0x01 [] ++ answers 0x01 ocr_busy.

(** The end of a good initialization: CMD9 with the CSD, then CMD16. *)
Definition v2_finish : list Z :=
  answers 0x00 [] ++ block csd_v2_example ++ answers 0x00 [].

(** A high capacity card that is ready at the third ACMD41. *)
Definition v2hc_init : list Z :=
  v2_start ++ acmd_answers 0x01 0x01 ++ acmd_answers 0x01 0x01
  ++ acmd_answers 0x00 0x00 ++ answers 0x00 ocr_ready_hc ++ v2_finish.

(** The same card, taken off the bus after the second CMD58. *)
Definition v2hc_removed_before_cmd9 : list Z :=
  v2_start ++ acmd_answers 0x00 0x00 ++ answers 0x00 ocr_ready_hc.

(** A version 1 card: it answers CMD8 with illegal command and idle
    (0x05), and everything else as a good card does: [v1_rest] is what
    it has to say from CMD59 on. *)
Definition v1_rest : list Z :=
  answers 0x01 [] ++ answers 0x01 ocr_busy ++ acmd_answers 0x01 0x01
  ++ acmd_answers 0x00 0x00 ++ answers 0x00 [] ++ block csd_v1_example
  ++ answers 0x00 [].

Definition v1_init : list Z :=
  repeat 0xFF 10 ++ answers 0x01 [] ++ answers 0x05 [] ++ v1_rest.

(** A version 2 card that never leaves the idle state: two ACMD41
    rounds answered at once with idle, then a round in which the card
    holds the line busy for 5000 ms before the host sends the command,
    answered with idle again.  The card answers the rest of the
    sequence as a good card does. *)
Definition v2_never_ready : list (Z * N) :=
  quick (v2_start ++ acmd_answers 0x01 0x01 ++ acmd_answers 0x01 0x01)
  ++ (0x00, 5000%N)
     :: quick (repeat 0xFF 6 ++ [0x01] ++ repeat 0xFF 6 ++ [0x01])
  ++ quick v2_finish.

(** A version 2 card whose answer to ACMD41 is sixteen bytes with bit 7
    set, the last of them 0x80. *)
Definition v2_acmd41_garbled : list Z :=
  v2_start
  ++ (0xFF :: repeat 0xFF 6 ++ [0x01] ++ repeat 0xFF 6
           ++ repeat 0xFF 15 ++ [0x80])
  ++ v2_finish.

(** The device after a good initialization, with [next] still to come
    from the card. *)
Definition ready (next : list (Z * N)) : SD :=
  snd (init 8 (fresh (quick v2hc_init ++ next))).

(** A single block write: CMD24 accepted, the card ready, 515 bytes
    under the token, the data and the CRC, then a data response token
    that says CRC error (0xEB, 0x0B once masked), then CMD13 answered
    with two zero bytes. *)
Definition write_rejected : list (Z * N) :=
  quick (answers 0x00 [] ++ [0xFF] ++ repeat 0xFF 515 ++ [0xEB]
         ++ answers 0x00 [0x00]).

(** A two block read: CMD18 accepted, one data packet, then a line that
    stays high for 300 ms, then CMD12 (stuff byte, R1, ready). *)
Definition second_block_missing : list (Z * N) :=
  quick (answers 0x00 [] ++ block (repeat 0x5A 512))
  ++ (0xFF, 300%N)
     :: quick (0xFF :: repeat 0xFF 6 ++ [0xFF; 0x00; 0xFF]).

(** * Further observations

    The result codes of the entry points, the driver's own fields, the
    CSD as a number, and what goes over the wire: [sends] and [starts]
    speak of the bytes shifted out, [xfer] of the bytes shifted out
    and read between two states. *)

Definition init_results : list Z :=
  BD_ERROR_DEVICE_ERROR :: - EINVAL :: SD_BLOCK_DEVICE_ERROR_UNUSABLE
    :: cmd_statuses.

Definition io_results : list Z :=
  SD_BLOCK_DEVICE_ERROR_PARAMETER :: SD_BLOCK_DEVICE_ERROR_NO_INIT
    :: cmd_statuses.

Definition config (d : SD) : Z * Z * Z * bool * Z * Z * Z * bool :=
  (_card_type d, _sectors d, _erase_size d, _is_initialized d,
   _block_size d, _transfer_sck d, _init_sck d, _dbg d).

(** Bit [p] of the 128-bit register held in 16 bytes, [csd[127]] being
    the top bit of byte 0. *)
Definition csd_bit (data : list Z) (p : Z) : bool :=
  Z.testbit (nth (Z.to_nat (15 - p / 8)) data 0) (p mod 8).

(** The register as one number, byte 0 first. *)
Definition csd_value (data : list Z) : Z :=
  fold_left (fun acc b => acc * 256 + b) data 0.

Definition is_byte (b : Z) : Prop := 0 <= b < 256.

(** [sends m]: whatever [m] does, the bytes already on the wire stay
    and more may follow. *)
Definition sends {A} (m : M A) : Prop :=
  forall d, exists tx, mosi (_spi (snd (m d))) = mosi (_spi d) ++ tx.

(** The six bytes of a command on the wire. *)
Definition packet (op arg : Z) : list Z :=
  [ Z.lor 0x40 (Z.land op 0x3F);
    Z.land (Z.shiftr arg 24) 0xFF;
    Z.land (Z.shiftr arg 16) 0xFF;
    Z.land (Z.shiftr arg 8) 0xFF;
    Z.land arg 0xFF;
    if op =? 0 then 0x95 else if op =? 8 then 0x87 else 0xFF ].

(** [starts m d pre]: started in [d], [m] sends [pre] before anything
    else. *)
Definition starts {A} (m : M A) (d : SD) (pre : list Z) : Prop :=
  exists rest, mosi (_spi (snd (m d))) = mosi (_spi d) ++ pre ++ rest.

(** [xfer d d' tx]: between [d] and [d'] the host has shifted out
    exactly [tx], and read as many bytes of the card's. *)
Definition xfer (d d' : SD) (tx : list Z) : Prop :=
  mosi (_spi d') = mosi (_spi d) ++ tx /\
  spi_fill (_spi d') = spi_fill (_spi d) /\
  forall i, incoming d' i = incoming d (length tx + i).

(** The payloads of [n] data packets that follow one another from the
    [start]-th exchange to come: each is a start token, 512 bytes and
    two CRC bytes. *)
Definition payloads (d : SD) (start n : nat) : list Z :=
  flat_map (fun j => map (incoming d) (seq (start + 1 + 515 * j) 512))
           (seq 0 n).

(** Two data packets read with CMD18 and closed with CMD12 (stuff
    byte, R1, ready). *)
Definition two_blocks : list (Z * N) :=
  quick (answers 0x00 [] ++ block (repeat 0x5A 512)
         ++ block (repeat 0xA5 512)
         ++ 0xFF :: repeat 0xFF 7 ++ [0x00; 0xFF]).

(** A single block write that the card accepts (data response 0xE5),
    then CMD13 answered with two zero bytes. *)
Definition write_accepted : list (Z * N) :=
  quick (answers 0x00 [] ++ [0xFF] ++ repeat 0xFF 515 ++ [0xE5]
         ++ answers 0x00 [0x00]).

(** An erase: CMD32, CMD33 and CMD38 accepted, the card ready again at
    once. *)
Definition erase_accepted : list (Z * N) :=
  quick (answers 0x00 [] ++ answers 0x00 [] ++ answers 0x00 [0xFF]).

(** * Properties *)

(** ** Frame rules *)

Lemma preserves_ret {A B} (f : SD -> B) (a : A) : preserves f (ret a).
Proof. intro d. reflexivity. Qed.

Lemma preserves_get {A B} (f : SD -> B) (g : SD -> A) : preserves f (get g).
Proof. intro d. reflexivity. Qed.

Lemma preserves_modify {B} (f : SD -> B) (g : SD -> SD) :
  (forall d, f (g d) = f d) -> preserves f (modify g).
Proof. intros H d. apply H. Qed.

Lemma preserves_bind {A A' B} (f : SD -> B) (m : M A) (k : A -> M A') :
  preserves f m -> (forall a, preserves f (k a)) -> preserves f (bind m k).
Proof.
  intros Hm Hk d. unfold bind.
  specialize (Hm d). destruct (m d) as [a d1]. cbn in Hm.
  rewrite Hk. exact Hm.
Qed.

Create HintDb frame discriminated.

Ltac frame_step :=
  lazymatch goal with
  | |- preserves _ (bind _ _) => apply preserves_bind; [ | intros ]
  | |- preserves _ (ret _) => apply preserves_ret
  | |- preserves _ (get _) => apply preserves_get
  | |- preserves _ (modify _) => apply preserves_modify; intros; auto with frame
  | |- preserves _ (if ?c then _ else _) => destruct c
  | |- preserves _ (match ?x with _ => _ end) => destruct x
  | |- preserves _ _ => solve [ auto with frame ]
  end.

Ltac frame := repeat frame_step.

Section Frame.

Context {B : Type} (f : SD -> B).

(** Observations that do not look at the hardware. *)
Hypothesis f_spi : forall v d, f (set_spi v d) = f d.
Hypothesis f_ticker : forall v d, f (set_ticker v d) = f d.
Hypothesis f_timer : forall v d, f (set_spi_timer v d) = f d.
Hypothesis f_cs : forall v d, f (set_cs v d) = f d.

Lemma timer_start_frame : preserves f timer_start.
Proof.
  intro d. unfold timer_start. destruct (t_running (_spi_timer d)); cbn; auto.
Qed.

Lemma timer_stop_frame : preserves f timer_stop.
Proof. intro d. unfold timer_stop. cbn. auto. Qed.

Lemma timer_reset_frame : preserves f timer_reset.
Proof. intro d. unfold timer_reset. cbn. auto. Qed.

Lemma timer_read_ms_frame : preserves f timer_read_ms.
Proof. intro d. reflexivity. Qed.

Lemma wait_ms_frame ms : preserves f (wait_ms ms).
Proof. intro d. unfold wait_ms. cbn. auto. Qed.

Lemma spi_write_frame tx : preserves f (spi_write tx).
Proof.
  intro d. unfold spi_write.
  destruct (miso (_spi d)) as [|[b t] rest]; cbn; rewrite f_ticker; auto.
Qed.

Lemma spi_frequency_frame hz : preserves f (spi_frequency hz).
Proof. intro d. unfold spi_frequency. cbn. auto. Qed.

Lemma spi_set_default_write_value_frame v :
  preserves f (spi_set_default_write_value v).
Proof. intro d. unfold spi_set_default_write_value. cbn. auto. Qed.

Hint Resolve timer_start_frame timer_stop_frame timer_reset_frame
  timer_read_ms_frame wait_ms_frame spi_write_frame spi_frequency_frame
  spi_set_default_write_value_frame : frame.
Hint Resolve f_cs : frame.

Lemma spi_exchanges_frame n : forall tx, preserves f (spi_exchanges n tx).
Proof. induction n; intros tx; cbn [spi_exchanges]; frame. Qed.
Hint Resolve spi_exchanges_frame : frame.

Lemma spi_write_block_frame tx a b : preserves f (spi_write_block tx a b).
Proof. unfold spi_write_block. frame. Qed.

Lemma select_frame : preserves f _select.
Proof. unfold _select. frame. Qed.

Lemma deselect_frame : preserves f _deselect.
Proof. unfold _deselect. frame. Qed.

Lemma spi_wait_frame n : preserves f (_spi_wait n).
Proof. induction n; cbn [_spi_wait]; frame. Qed.

Hint Resolve spi_write_block_frame select_frame deselect_frame
  spi_wait_frame : frame.

Lemma spi_init_frame : preserves f _spi_init.
Proof. unfold _spi_init. frame. Qed.

Lemma poll_line_frame hit ms n : preserves f (poll_line hit ms n).
Proof. induction n; cbn [poll_line]; frame. Qed.
Hint Resolve spi_init_frame poll_line_frame : frame.

Lemma wait_token_frame token : preserves f (_wait_token token).
Proof. unfold _wait_token. frame. Qed.

Lemma wait_ready_frame ms : preserves f (_wait_ready ms).
Proof. unfold _wait_ready. frame. Qed.

Lemma spi_send_frame bytes : preserves f (spi_send bytes).
Proof. induction bytes; cbn [spi_send]; frame. Qed.

Lemma r1_poll_frame n : forall r, preserves f (r1_poll n r).
Proof. induction n; intros r; cbn [r1_poll]; frame. Qed.
Hint Resolve wait_token_frame wait_ready_frame spi_send_frame
  r1_poll_frame : frame.

Lemma cmd_spi_frame cmd arg : preserves f (_cmd_spi cmd arg).
Proof. unfold _cmd_spi. frame. Qed.
Hint Resolve cmd_spi_frame : frame.

Lemma cmd_retry_frame n cmd arg isAcmd :
  forall r, preserves f (cmd_retry n cmd arg isAcmd r).
Proof. induction n; intros r; cbn [cmd_retry]; frame. Qed.

Lemma read_r3_r7_frame : preserves f read_r3_r7.
Proof. unfold read_r3_r7. frame. Qed.

Lemma read_loop_frame n : preserves f (read_loop n).
Proof. induction n; cbn [read_loop]; frame. Qed.
Hint Resolve cmd_retry_frame read_r3_r7_frame read_loop_frame : frame.

Lemma read_bytes_frame n : preserves f (_read_bytes n).
Proof. unfold _read_bytes. frame. Qed.

Lemma read_frame n : preserves f (_read n).
Proof. unfold _read. frame. Qed.

Lemma write_frame buffer token n : preserves f (_write buffer token n).
Proof. unfold _write. frame. Qed.
Hint Resolve read_bytes_frame read_frame write_frame : frame.

(** Observations that do not look at the card type either. *)
Hypothesis f_card_type : forall v d, f (set_card_type v d) = f d.
Hint Resolve f_card_type : frame.

Lemma cmd_frame cmd arg isAcmd : preserves f (_cmd cmd arg isAcmd).
Proof. unfold _cmd. frame. Qed.
Hint Resolve cmd_frame : frame.

Lemma cmd8_frame : preserves f _cmd8.
Proof. unfold _cmd8. frame. Qed.

Lemma go_idle_loop_frame n : forall r, preserves f (go_idle_loop n r).
Proof. induction n; intros r; cbn [go_idle_loop]; frame. Qed.
Hint Resolve cmd8_frame go_idle_loop_frame : frame.

Lemma go_idle_state_frame : preserves f _go_idle_state.
Proof. unfold _go_idle_state. frame. Qed.

Lemma acmd41_loop_frame n arg : preserves f (acmd41_loop n arg).
Proof. induction n; cbn [acmd41_loop]; frame. Qed.

Lemma write_blocks_frame n :
  forall buffer len, preserves f (write_blocks n buffer len).
Proof. induction n; intros buffer len; cbn [write_blocks]; frame. Qed.

Lemma read_rest_frame n len status : preserves f (read_rest n len status).
Proof. induction n; cbn [read_rest]; frame. Qed.

Lemma read_first_frame n addr cnt len :
  forall status, preserves f (read_first n addr cnt len status).
Proof. induction n; intros status; cbn [read_first]; frame. Qed.
Hint Resolve go_idle_state_frame acmd41_loop_frame write_blocks_frame
  read_rest_frame read_first_frame : frame.

Lemma read_op_frame addr sz : preserves f (read addr sz).
Proof. unfold read. frame. Qed.

Lemma program_frame b addr sz : preserves f (program b addr sz).
Proof. unfold program. frame. Qed.

Lemma erase_frame addr sz : preserves f (erase addr sz).
Proof. unfold erase. frame. Qed.

(** Observations that only look at the debug flag or at fields no
    member function assigns. *)
Hypothesis f_erase_size : forall v d, f (set_erase_size v d) = f d.
Hypothesis f_sectors : forall v d, f (set_sectors v d) = f d.
Hypothesis f_transfer_sck : forall v d, f (set_transfer_sck v d) = f d.
Hypothesis f_is_initialized : forall v d, f (set_is_initialized v d) = f d.
Hint Resolve f_erase_size f_sectors f_transfer_sck f_is_initialized : frame.

Lemma sd_sectors_frame : preserves f _sd_sectors.
Proof. unfold _sd_sectors. frame. Qed.

Lemma freq_frame : preserves f _freq.
Proof. unfold _freq. frame. Qed.

Lemma frequency_frame hz : preserves f (frequency hz).
Proof. unfold frequency. pose proof freq_frame. frame. Qed.

Lemma deinit_frame : preserves f deinit.
Proof. unfold deinit. frame. Qed.

(** Observations that look at none of the fields a member function
    assigns. *)
Hypothesis f_dbg : forall v d, f (set_dbg v d) = f d.
Hint Resolve f_dbg sd_sectors_frame freq_frame : frame.

Lemma initialise_card_frame fuel : preserves f (_initialise_card fuel).
Proof. unfold _initialise_card. frame. Qed.
Hint Resolve initialise_card_frame : frame.

Lemma init_frame fuel : preserves f (init fuel).
Proof. unfold init. frame. Qed.

End Frame.

#[global] Hint Resolve timer_start_frame timer_stop_frame timer_reset_frame
  timer_read_ms_frame wait_ms_frame spi_write_frame spi_frequency_frame
  spi_set_default_write_value_frame spi_exchanges_frame spi_write_block_frame
  select_frame deselect_frame spi_wait_frame spi_init_frame poll_line_frame
  wait_token_frame wait_ready_frame spi_send_frame r1_poll_frame
  cmd_spi_frame cmd_retry_frame read_r3_r7_frame read_loop_frame
  read_bytes_frame read_frame write_frame cmd_frame cmd8_frame
  go_idle_loop_frame go_idle_state_frame acmd41_loop_frame write_blocks_frame
  read_rest_frame read_first_frame read_op_frame program_frame erase_frame
  sd_sectors_frame freq_frame frequency_frame deinit_frame
  initialise_card_frame init_frame : frame.
#[global] Hint Extern 2 (_ = _) => reflexivity : frame.

Lemma bind_frame_r {A A' B} (f : SD -> B) (m : M A) (k : A -> M A') d :
  (forall a, preserves f (k a)) -> f (snd (bind m k d)) = f (snd (m d)).
Proof.
  intros Hk. unfold bind. destruct (m d) as [a d1]. cbn. apply Hk.
Qed.

(** ** The polling loops never run out of fuel *)

Lemma bind_unfold {A B} (m : M A) (k : A -> M B) d :
  bind m k d = k (fst (m d)) (snd (m d)).
Proof. unfold bind. destruct (m d). reflexivity. Qed.

Lemma poll_line_fuel hit ms : forall n m d,
  t_running (_spi_timer d) = true ->
  (length (miso (_spi d)) + Z.to_nat (ms - elapsed d) < n)%nat ->
  (length (miso (_spi d)) + Z.to_nat (ms - elapsed d) < m)%nat ->
  poll_line hit ms n d = poll_line hit ms m d.
Proof.
  induction n as [|n IH]; intros m d Hrun Hn Hm; [lia|].
  destruct m as [|m]; [lia|].
  cbn [poll_line]. rewrite !bind_unfold.
  destruct (spi_write SPI_FILL_CHAR d) as [r d1] eqn:E. cbn [fst snd].
  destruct (hit r); [reflexivity|].
  rewrite !bind_unfold. cbn [timer_read_ms fst snd].
  fold (elapsed d1).
  destruct (elapsed d1 <? ms) eqn:Et; [|reflexivity].
  apply Z.ltb_lt in Et.
  assert (Hd1 : t_running (_spi_timer d1) = true
                /\ (length (miso (_spi d1)) + Z.to_nat (ms - elapsed d1)
                    < length (miso (_spi d)) + Z.to_nat (ms - elapsed d))%nat).
  { unfold spi_write in E. unfold elapsed, slicetime in *.
    destruct (miso (_spi d)) as [|[b t] rest] eqn:Em;
      inversion E; subst d1; clear E; cbn in *; rewrite Hrun in *;
      split; auto; lia. }
  destruct Hd1 as [Hrun1 Hlt].
  apply IH; auto; lia.
Qed.

Ltac fresh_stopwatch Hrun :=
  apply poll_line_fuel; unfold patience, elapsed, slicetime;
  cbn [t_running _spi_timer set_spi_timer t_start t_time _spi miso ticker];
  try rewrite Hrun; auto;
  replace (Z.to_nat 300) with 300%nat by reflexivity; lia.

Lemma wait_ready_fuel ms extra d :
  _wait_ready ms d
  = (timer_reset ;;; timer_start ;;;
     n <- get (patience ms) ;;
     poll_line (fun response => response =? 0xFF) ms (n + extra)) d.
Proof.
  unfold _wait_ready, bind, timer_reset, timer_start, get.
  cbn [t_running _spi_timer set_spi_timer].
  destruct (t_running (_spi_timer d)) eqn:Hrun; fresh_stopwatch Hrun.
Qed.

Lemma wait_token_fuel token extra d :
  _wait_token token d
  = (timer_reset ;;; timer_start ;;;
     n <- get (patience 300) ;;
     poll_line (Z.eqb token) 300 (n + extra)) d.
Proof.
  unfold _wait_token, bind, timer_reset, timer_start, get.
  cbn [t_running _spi_timer set_spi_timer].
  destruct (t_running (_spi_timer d)) eqn:Hrun; fresh_stopwatch Hrun.
Qed.

(** ** The wire: what the host sends and what it reads *)

Lemma spi_write_result tx d : fst (spi_write tx d) = incoming d 0.
Proof.
  unfold spi_write, incoming.
  destruct (miso (_spi d)) as [|[b t] rest]; reflexivity.
Qed.

Lemma spi_write_incoming tx d i :
  incoming (snd (spi_write tx d)) i = incoming d (S i).
Proof.
  unfold spi_write, incoming.
  destruct (miso (_spi d)) as [|[b t] rest]; cbn; [|reflexivity].
  destruct i; reflexivity.
Qed.

Lemma spi_write_mosi tx d :
  mosi (_spi (snd (spi_write tx d))) = mosi (_spi d) ++ [u8 tx].
Proof.
  unfold spi_write.
  destruct (miso (_spi d)) as [|[b t] rest]; reflexivity.
Qed.

Lemma spi_send_incoming bytes : forall d i,
  incoming (snd (spi_send bytes d)) i = incoming d (length bytes + i).
Proof.
  induction bytes as [|b bs IH]; intros d i; [reflexivity|].
  cbn [spi_send length]. rewrite bind_unfold, IH, spi_write_incoming.
  reflexivity.
Qed.

Lemma spi_send_mosi bytes : forall d,
  mosi (_spi (snd (spi_send bytes d))) = mosi (_spi d) ++ map u8 bytes.
Proof.
  induction bytes as [|b bs IH]; intros d.
  - cbn. now rewrite app_nil_r.
  - cbn [spi_send map]. rewrite bind_unfold, IH, spi_write_mosi.
    now rewrite <- app_assoc.
Qed.

Lemma msb_clear_testbit b : (Z.land b 0x80 =? 0) = negb (Z.testbit b 7).
Proof.
  change 0x80 with (2 ^ 7).
  destruct (Z.testbit b 7) eqn:Hb; cbn [negb].
  - apply Z.eqb_neq. intro H.
    assert (Hc : Z.testbit (Z.land b (2 ^ 7)) 7 = true).
    { rewrite Z.land_spec, Hb, Z.pow2_bits_true by lia. reflexivity. }
    rewrite H in Hc. discriminate.
  - apply Z.eqb_eq. apply Z.bits_inj'. intros n Hn.
    rewrite Z.land_spec, Z.bits_0, Z.pow2_bits_eqb by lia.
    destruct (Z.eqb_spec 7 n) as [<-|]; [rewrite Hb|]; auto using andb_false_r.
Qed.

(** The response loop: it stops at the first byte whose bit 7 is clear
    and returns the byte of its last exchange. *)
Lemma r1_poll_spec : forall n d r0,
  (1 <= n)%nat ->
  exists polls : nat,
    (1 <= polls <= n)%nat /\
    mosi (_spi (snd (r1_poll n r0 d))) = mosi (_spi d) ++ repeat 0xFF polls /\
    fst (r1_poll n r0 d) = incoming d (polls - 1) /\
    (forall i, (i < polls - 1)%nat -> Z.testbit (incoming d i) 7 = true) /\
    ((polls < n)%nat -> Z.testbit (incoming d (polls - 1)) 7 = false).
Proof.
  induction n as [|n IH]; intros d r0 Hn; [lia|].
  cbn [r1_poll]. rewrite bind_unfold.
  pose proof (spi_write_result SPI_FILL_CHAR d) as Hr.
  pose proof (spi_write_mosi SPI_FILL_CHAR d) as Hm.
  pose proof (spi_write_incoming SPI_FILL_CHAR d) as Hi.
  destruct (spi_write SPI_FILL_CHAR d) as [r d1]. cbn [fst snd] in *.
  unfold R1_RESPONSE_RECV. rewrite msb_clear_testbit.
  destruct (Z.testbit r 7) eqn:Hb; cbn [negb].
  - destruct n as [|n].
    + exists 1%nat. cbn [r1_poll ret fst snd repeat]. subst r.
      repeat split; auto; intros; lia.
    + destruct (IH d1 r ltac:(lia)) as (p & Hp & Hw & Hres & Hset & Hclr).
      exists (S p). repeat split; try lia.
      * rewrite Hw, Hm. cbn [repeat]. now rewrite <- app_assoc.
      * rewrite Hres, Hi. f_equal. lia.
      * intros i Hlt. destruct i as [|i]; [now subst r|].
        rewrite <- Hi. apply Hset. lia.
      * intros Hlt. replace (S p - 1)%nat with (S (p - 1)) by lia.
        rewrite <- Hi. apply Hclr. lia.
  - exists 1%nat. cbn [ret fst snd repeat]. subst r.
    repeat split; auto; intros; lia.
Qed.

Lemma cmdPacket_bytes cmd arg :
  map u8 (cmdPacket cmd arg)
  = [ Z.lor 0x40 (Z.land cmd 0x3F);
      Z.land (Z.shiftr arg 24) 0xFF;
      Z.land (Z.shiftr arg 16) 0xFF;
      Z.land (Z.shiftr arg 8) 0xFF;
      Z.land arg 0xFF;
      if cmd =? 0 then 0x95 else if cmd =? 8 then 0x87 else 0xFF ].
Proof.
  assert (Hu : forall x, u8 x = Z.land x 0xFF).
  { intro x. unfold u8. change 0xFF with (Z.ones 8).
    now rewrite Z.land_ones by lia. }
  assert (Huu : forall x, u8 (u8 x) = u8 x).
  { intro x. unfold u8. apply Z.mod_mod. lia. }
  unfold cmdPacket. cbn [map]. rewrite !Huu, Z.shiftr_0_r, <- !Hu.
  f_equal.
  - unfold SPI_CMD, u8. apply Z.mod_small.
    assert (H : 0 <= Z.land cmd 0x3f < 2 ^ 6).
    { change 0x3f with (Z.ones 6). rewrite Z.land_ones by lia.
      apply Z.mod_pos_bound. lia. }
    assert (Hl : Z.lor 0x40 (Z.land cmd 0x3f) = 0x40 + Z.land cmd 0x3f).
    { rewrite <- Z.add_lor_land.
      replace (Z.land 0x40 (Z.land cmd 0x3f)) with 0; [lia|].
      rewrite (Z.land_comm cmd), Z.land_assoc. reflexivity. }
    lia.
  - repeat f_equal.
    unfold CMD0_GO_IDLE_STATE, CMD8_SEND_IF_COND.
    destruct (cmd =? 0); [reflexivity|]. destruct (cmd =? 8); reflexivity.
Qed.

(** C8, as amended.  On the wire a command is the six bytes
    [0x40 | (op & 0x3F)], the argument from its most significant byte
    down, and the trailer 0x95 (CMD0), 0x87 (CMD8) or 0xFF (any other
    opcode).  The response is looked for in at most 16 exchanges that
    follow the packet -- for CMD12, that follow the packet and one more
    exchange whose byte is dropped: it is the byte of the last of these
    exchanges, every earlier one had bit 7 set, and unless all 16 were
    used it has bit 7 clear. *)
Theorem cmd_spi_packet_and_response : forall cmd arg d,
  let stuff := if cmd =? 12 then 1%nat else 0%nat in
  let trailer := if cmd =? 0 then 0x95 else if cmd =? 8 then 0x87 else 0xFF in
  let packet := [ Z.lor 0x40 (Z.land cmd 0x3F);
                  Z.land (Z.shiftr arg 24) 0xFF;
                  Z.land (Z.shiftr arg 16) 0xFF;
                  Z.land (Z.shiftr arg 8) 0xFF;
                  Z.land arg 0xFF;
                  trailer ] in
  let rx := fun i => incoming d (6 + stuff + i) in
  exists polls : nat,
    (1 <= polls <= 16)%nat /\
    mosi (_spi (snd (_cmd_spi cmd arg d)))
    = mosi (_spi d) ++ packet ++ repeat 0xFF (stuff + polls) /\
    fst (_cmd_spi cmd arg d) = rx (polls - 1)%nat /\
    (forall i, (i < polls - 1)%nat -> Z.testbit (rx i) 7 = true) /\
    ((polls < 16)%nat -> Z.testbit (rx (polls - 1)%nat) 7 = false).
Proof.
  intros cmd arg d stuff trailer packet rx.
  unfold _cmd_spi. rewrite !bind_unfold.
  set (d1 := snd (spi_send (cmdPacket cmd arg) d)).
  set (skip := if CMD12_STOP_TRANSMISSION =? cmd
               then spi_write SPI_FILL_CHAR ;;; ret tt else ret tt).
  set (d2 := snd (skip d1)).
  assert (Hin : forall i, incoming d2 i = rx i).
  { intro i. subst d2 skip rx stuff. unfold CMD12_STOP_TRANSMISSION.
    rewrite (Z.eqb_sym 12 cmd). destruct (cmd =? 12).
    - rewrite bind_unfold. cbn [ret snd]. subst d1.
      rewrite spi_write_incoming, spi_send_incoming. cbn [cmdPacket length].
      reflexivity.
    - cbn [ret snd]. subst d1. rewrite spi_send_incoming. reflexivity. }
  assert (Hout : mosi (_spi d2)
                 = mosi (_spi d) ++ packet ++ repeat 0xFF stuff).
  { subst d2 skip stuff. unfold CMD12_STOP_TRANSMISSION.
    rewrite (Z.eqb_sym 12 cmd). destruct (cmd =? 12).
    - rewrite bind_unfold. cbn [ret snd]. subst d1.
      rewrite spi_write_mosi, spi_send_mosi, cmdPacket_bytes.
      rewrite <- app_assoc. reflexivity.
    - cbn [ret snd repeat]. subst d1.
      rewrite spi_send_mosi, cmdPacket_bytes, app_nil_r. reflexivity. }
  destruct (r1_poll_spec 16 d2 0 ltac:(lia))
    as (polls & Hp & Hw & Hres & Hset & Hclr).
  exists polls. repeat split; try lia.
  - rewrite Hw, Hout, repeat_app, <- !app_assoc. reflexivity.
  - rewrite Hres. apply Hin.
  - intros i Hi. rewrite <- Hin. now apply Hset.
  - intros Hlt. rewrite <- Hin. now apply Hclr.
Qed.

(** C8 as the claim states it, for CMD12: the exchange right after the
    packet reads a byte with bit 7 clear, and the response adopted is
    another byte. *)
Lemma cmd12_response_is_not_first_byte_after_packet :
  let d := SDBlockDevice (quick (repeat 0xFF 6 ++ [0x00; 0x05]))
                         0 1000000 0 0 false in
  ~ (exists polls : nat,
        (1 <= polls <= 16)%nat /\
        fst (_cmd_spi CMD12_STOP_TRANSMISSION 0 d)
        = incoming d (6 + (polls - 1)) /\
        (forall i, (i < polls - 1)%nat ->
                   Z.testbit (incoming d (6 + i)) 7 = true) /\
        Z.testbit (fst (_cmd_spi CMD12_STOP_TRANSMISSION 0 d)) 7 = false).
Proof.
  intros d (polls & Hp & Hres & Hset & _).
  destruct polls as [|[|polls]]; [lia| |].
  - vm_compute in Hres. discriminate.
  - specialize (Hset 0%nat ltac:(lia)). vm_compute in Hset. discriminate.
Qed.

(** ** The capacity decoder on a version 1 CSD *)

(** C7, as amended.  When CMD9 and the read of the CSD succeed and the
    CSD has structure version 1 with [c_size = 3913], [c_size_mult = 7]
    and [read_bl_len = 9], the decoder returns
    [(3913 + 1) * 2^(7 + 2) * 2^9 / 512 = 2003968] sectors. *)
Theorem sd_sectors_csd_v1_example : forall d r d1 csd d2,
  _block_size d = 512 ->
  _cmd CMD9_SEND_CSD 0x0 false d = ((0, r), d1) ->
  _read_bytes 16 d1 = ((0, csd), d2) ->
  ext_bits csd 127 126 = 0 ->
  ext_bits csd 73 62 = 3913 ->
  ext_bits csd 49 47 = 7 ->
  ext_bits csd 83 80 = 9 ->
  fst (_sd_sectors d) = 2003968
  /\ 2003968 = (3913 + 1) * 2 ^ (7 + 2) * 2 ^ 9 / 512.
Proof.
  intros d r d1 csd d2 Hbs Hcmd Hread Hv Hc Hm Hl.
  split; [|reflexivity].
  assert (Hbs2 : _block_size d2 = 512).
  { replace d2 with (snd (_read_bytes 16 d1)) by now rewrite Hread.
    rewrite read_bytes_frame by reflexivity.
    replace d1 with (snd (_cmd CMD9_SEND_CSD 0x0 false d)) by now rewrite Hcmd.
    rewrite cmd_frame by reflexivity. exact Hbs. }
  unfold _sd_sectors. rewrite bind_unfold, Hcmd. cbn [fst snd].
  change (negb (0 =? 0x0)) with false. cbv iota.
  rewrite bind_unfold, Hread. cbn [fst snd].
  change (negb (0 =? 0)) with false. cbv iota.
  rewrite Hv, Hc, Hm, Hl. change (0 =? 0) with true. cbv iota.
  rewrite bind_unfold. cbn [get fst snd]. rewrite Hbs2.
  rewrite bind_unfold. cbn [ret fst]. reflexivity.
Qed.

Lemma sd_sectors_csd_v1_example_witness :
  _block_size csd_v1_card = 512
  /\ fst (_sd_sectors csd_v1_card) = 2003968.
Proof.
  split; [reflexivity|].
  refine (proj1 (sd_sectors_csd_v1_example csd_v1_card
            (snd (fst (_cmd CMD9_SEND_CSD 0x0 false csd_v1_card)))
            (snd (_cmd CMD9_SEND_CSD 0x0 false csd_v1_card))
            csd_v1_example
            (snd (_read_bytes 16
                    (snd (_cmd CMD9_SEND_CSD 0x0 false csd_v1_card))))
            _ _ _ _ _ _ _)); vm_compute; reflexivity.
Defined.

(** C7 as the claim states it: on this card CMD9 succeeds, the CSD has
    the three fields of the claim, and the decoder does not return
    2002944. *)
Lemma sd_sectors_csd_v1_is_not_2002944 :
  let answered := _cmd CMD9_SEND_CSD 0x0 false csd_v1_card in
  let received := _read_bytes 16 (snd answered) in
  let csd := snd (fst received) in
  fst (fst answered) = 0 /\ fst (fst received) = 0 /\
  ext_bits csd 127 126 = 0 /\
  ext_bits csd 73 62 = 3913 /\
  ext_bits csd 49 47 = 7 /\
  ext_bits csd 83 80 = 9 /\
  fst (_sd_sectors csd_v1_card) <> 2002944.
Proof.
  vm_compute. repeat split; discriminate.
Qed.

(** ** The debug flag *)

Lemma initialise_card_clears_dbg fuel d :
  _dbg (snd (_initialise_card fuel d)) = false.
Proof.
  unfold _initialise_card.
  rewrite bind_frame_r; [reflexivity|].
  intros []. frame.
Qed.

(** C10.  [debug] assigns the flag and nothing else; whatever the flag
    was, it is off in the state [init] leaves -- on every return, and
    at every round of the ACMD41 loop while [init] is still in it. *)
Theorem init_clears_dbg_and_debug_is_local : forall fuel dbg d,
  let d1 := snd (debug dbg d) in
  _dbg d1 = dbg
  /\ d1 = set_dbg dbg d
  /\ (_card_type d1, _sectors d1, _spi_timer d1, _init_sck d1,
      _transfer_sck d1, _spi d1, _cs d1, _block_size d1, _erase_size d1,
      _is_initialized d1, ticker d1)
     = (_card_type d, _sectors d, _spi_timer d, _init_sck d,
        _transfer_sck d, _spi d, _cs d, _block_size d, _erase_size d,
        _is_initialized d, ticker d)
  /\ _dbg (snd (init fuel d1)) = false.
Proof.
  intros fuel dbg d d1. repeat split.
  unfold init. rewrite bind_frame_r.
  - apply initialise_card_clears_dbg.
  - intros started. frame.
Qed.

(** ** Operations on a device that is not initialized *)

Lemma program_uninitialized b addr sz d :
  _is_initialized d = false ->
  is_valid_program addr sz d = true ->
  program b addr sz d = (SD_BLOCK_DEVICE_ERROR_NO_INIT, d).
Proof.
  intros Hi Hv. unfold program. rewrite bind_unfold. cbn [get fst snd]. rewrite Hv.
  cbn [negb]. rewrite bind_unfold. cbn [get fst snd]. rewrite Hi. reflexivity.
Qed.

Lemma erase_uninitialized addr sz d :
  _is_initialized d = false ->
  is_valid_erase addr sz d = true ->
  erase addr sz d = (SD_BLOCK_DEVICE_ERROR_NO_INIT, d).
Proof.
  intros Hi Hv. unfold erase. rewrite bind_unfold. cbn [get fst snd]. rewrite Hv.
  cbn [negb]. rewrite bind_unfold. cbn [get fst snd]. rewrite Hi. reflexivity.
Qed.

(** C6, where the code departs from it: [read] on a device that is not
    initialized answers the parameter error, for valid arguments too,
    and never the no-init error of [program] and [erase]. *)
Theorem read_uninitialized_is_parameter_error : forall addr sz d,
  _is_initialized d = false ->
  is_valid_read addr sz d = true ->
  read addr sz d = ((SD_BLOCK_DEVICE_ERROR_PARAMETER, []), d)
  /\ SD_BLOCK_DEVICE_ERROR_PARAMETER <> SD_BLOCK_DEVICE_ERROR_NO_INIT.
Proof.
  intros addr sz d Hi Hv. split; [|discriminate].
  unfold read. rewrite bind_unfold. cbn [get fst snd]. rewrite Hv.
  cbn [negb]. rewrite bind_unfold. cbn [get fst snd]. rewrite Hi. reflexivity.
Qed.

Lemma read_uninitialized_is_parameter_error_witness :
  let d := SDBlockDevice [] 0 1000000 0 0 false in
  read 0 0 d = ((-5003, []), d).
Proof.
  intro d.
  apply (read_uninitialized_is_parameter_error 0 0 d); reflexivity.
Defined.

(** ** The transfer clock *)

Lemma frequency_in_range hz d :
  0 <= hz < 2 ^ 32 ->
  let d' := snd (frequency hz d) in
  if hz <=? 25000000
  then fst (frequency hz d) = 0
       /\ spi_hz (_spi d') = hz /\ _transfer_sck d' = hz
  else fst (frequency hz d) = - EINVAL
       /\ spi_hz (_spi d') = 25000000 /\ _transfer_sck d' = 25000000.
Proof.
  intros Hhz. unfold frequency, _freq, bind, modify, get.
  cbn [_transfer_sck set_transfer_sck].
  unfold u32. rewrite Z.mod_small by lia.
  destruct (hz <=? 25000000); cbn; auto.
Qed.

(** C9, where the code departs from it: the requested frequency is a
    64-bit integer, the driver keeps its low 32 bits and compares those
    with the ceiling.  A request for 2^32 Hz sets the transceiver to
    0 Hz and returns 0. *)
Theorem frequency_truncates_before_clamping : forall d,
  25000000 < 2 ^ 32 < 2 ^ 64
  /\ fst (frequency (2 ^ 32) d) = 0
  /\ spi_hz (_spi (snd (frequency (2 ^ 32) d))) = 0
  /\ _transfer_sck (snd (frequency (2 ^ 32) d)) = 0.
Proof.
  intro d. repeat split; reflexivity.
Qed.

(** ** What [init] can return and leave

    A small calculus of postconditions for the state monad. *)

Lemma post_ret {A} (a : A) d (Q : A -> SD -> Prop) : Q a d -> post (ret a) d Q.
Proof. exact (fun H => H). Qed.

Lemma post_bind {A B} (m : M A) (k : A -> M B) d (Q : B -> SD -> Prop) :
  post m d (fun a d1 => post (k a) d1 Q) -> post (bind m k) d Q.
Proof. unfold post. now rewrite bind_unfold. Qed.

Lemma post_conseq {A} (m : M A) d (R Q : A -> SD -> Prop) :
  post m d R -> (forall a d1, R a d1 -> Q a d1) -> post m d Q.
Proof. intros H HQ. apply HQ, H. Qed.

Lemma post_any {A} (m : M A) d (Q : A -> SD -> Prop) :
  (forall a d1, Q a d1) -> post m d Q.
Proof. intros H. apply H. Qed.

Lemma post_and {A} (m : M A) d (Q1 Q2 : A -> SD -> Prop) :
  post m d Q1 -> post m d Q2 -> post m d (fun a d1 => Q1 a d1 /\ Q2 a d1).
Proof. intros H1 H2. split; assumption. Qed.

Lemma post_frame {A B} (f : SD -> B) (m : M A) d :
  preserves f m -> post m d (fun _ d1 => f d1 = f d).
Proof. intros H. apply H. Qed.

Lemma post_get {A} (f : SD -> A) d (Q : A -> SD -> Prop) :
  Q (f d) d -> post (get f) d Q.
Proof. exact (fun H => H). Qed.

Lemma post_modify (g : SD -> SD) d (Q : unit -> SD -> Prop) :
  Q tt (g d) -> post (modify g) d Q.
Proof. exact (fun H => H). Qed.

Tactic Notation "skip_step" "as" simple_intropattern(a) ident(d) :=
  apply post_bind; apply post_any; intros a d.
Tactic Notation "use_step" constr(H) "as" simple_intropattern(a) ident(d)
    simple_intropattern(Ha) :=
  apply post_bind; eapply post_conseq; [ apply H | cbv beta; intros a d Ha ].
Tactic Notation "keep_step" constr(f) "as" ident(d) ident(Hd) :=
  apply post_bind; eapply post_conseq;
  [ apply (post_frame f); solve [ auto with frame ]
  | cbv beta; intros _ d Hd ].

(** As [frame_step], but it keeps the outcome of every test. *)
Ltac frame_step_eq :=
  lazymatch goal with
  | |- preserves _ (bind _ _) => apply preserves_bind; [ | intros ]
  | |- preserves _ (ret _) => apply preserves_ret
  | |- preserves _ (get _) => apply preserves_get
  | |- preserves _ (if ?c then _ else _) => destruct c eqn:?
  | |- preserves _ (match ?x with _ => _ end) => destruct x
  | |- preserves _ _ => solve [ auto with frame ]
  end.

(** [_cmd] has six statuses, and the no-response error is none of
    them. *)
Lemma cmd_status cmd arg isAcmd d :
  In (fst (fst (_cmd cmd arg isAcmd d))) cmd_statuses.
Proof.
  unfold _cmd. rewrite !bind_unfold.
  set (d2 := snd (_wait_ready SD_COMMAND_TIMEOUT (snd (_select d)))).
  set (r := fst (cmd_retry 3 cmd arg isAcmd 0 d2)).
  destruct (R1_NO_RESPONSE =? r).
  { rewrite bind_unfold. cbn. auto. }
  destruct (bit_set r R1_COM_CRC_ERROR).
  { rewrite bind_unfold. cbn. auto. }
  destruct (bit_set r R1_ILLEGAL_COMMAND).
  { rewrite !bind_unfold. cbn. auto 10. }
  rewrite !bind_unfold. cbn [ret fst snd].
  destruct (bit_set r R1_ERASE_RESET || bit_set r R1_ERASE_SEQUENCE_ERROR);
    [cbn; auto 10|].
  destruct (bit_set r R1_ADDRESS_ERROR || bit_set r R1_PARAMETER_ERROR);
    cbn; auto 10.
Qed.

(** Only CMD8 touches the card type inside [_cmd]. *)
Lemma cmd_keeps_card_type cmd arg isAcmd :
  cmd <> CMD8_SEND_IF_COND -> preserves _card_type (_cmd cmd arg isAcmd).
Proof.
  intros Hcmd. unfold _cmd. repeat frame_step_eq;
    match goal with
    | H : (_ =? _) = true |- preserves _ (modify _) =>
        apply Z.eqb_eq in H; congruence
    end.
Qed.

Lemma cmd8_ok_sets_v2 arg isAcmd d :
  fst (fst (_cmd CMD8_SEND_IF_COND arg isAcmd d)) = BD_ERROR_OK ->
  _card_type (snd (_cmd CMD8_SEND_IF_COND arg isAcmd d)) = SDCARD_V2.
Proof.
  unfold _cmd. rewrite !bind_unfold.
  set (d2 := snd (_wait_ready SD_COMMAND_TIMEOUT (snd (_select d)))).
  set (r := fst (cmd_retry 3 CMD8_SEND_IF_COND arg isAcmd 0 d2)).
  set (d3 := snd (cmd_retry 3 CMD8_SEND_IF_COND arg isAcmd 0 d2)).
  destruct (R1_NO_RESPONSE =? r).
  { rewrite bind_unfold. cbn. discriminate. }
  destruct (bit_set r R1_COM_CRC_ERROR).
  { rewrite bind_unfold. cbn. discriminate. }
  destruct (bit_set r R1_ILLEGAL_COMMAND).
  { rewrite !bind_unfold. cbn. discriminate. }
  rewrite Z.eqb_refl. rewrite !bind_unfold. cbn [ret fst snd]. intros _.
  rewrite deselect_frame by reflexivity.
  rewrite read_r3_r7_frame by reflexivity. reflexivity.
Qed.

Lemma cmd_post cmd arg isAcmd :
  cmd <> CMD8_SEND_IF_COND -> forall d,
  post (_cmd cmd arg isAcmd) d
       (fun r d1 => _card_type d1 = _card_type d /\ In (fst r) cmd_statuses).
Proof.
  intros H d. split; [now apply cmd_keeps_card_type | apply cmd_status].
Qed.

(** [_cmd8] is only happy with a version 2 card. *)
Lemma cmd8_post d :
  post _cmd8 d
       (fun st d1 => (st = BD_ERROR_OK -> _card_type d1 = SDCARD_V2)
                     /\ In st (SD_BLOCK_DEVICE_ERROR_UNUSABLE :: cmd_statuses)).
Proof.
  unfold post, _cmd8. rewrite bind_unfold.
  set (arg := Z.lor (Z.shiftl CMD8_PATTERN 0) (Z.shiftl 0x1 8)).
  pose proof (cmd8_ok_sets_v2 arg false d) as Hv2.
  pose proof (cmd_status CMD8_SEND_IF_COND arg false d) as Hst.
  destruct (_cmd CMD8_SEND_IF_COND arg false d) as [[status response] d1].
  cbn [fst snd] in *. rewrite bind_unfold. cbn [get fst snd].
  destruct ((BD_ERROR_OK =? status) && (SDCARD_V2 =? _card_type d1)).
  - destruct (negb (Z.land response 0xFFF =? arg)).
    + rewrite bind_unfold. cbn. split; [discriminate|auto].
    + cbn. split; [exact Hv2| now right].
  - cbn. split; [exact Hv2| now right].
Qed.

Lemma acmd41_loop_post fuel arg : forall d,
  post (acmd41_loop fuel arg) d
       (fun looped d1 =>
          _card_type d1 = _card_type d
          /\ forall status response,
               looped = Some (status, response) -> In status cmd_statuses).
Proof.
  induction fuel as [|n IH]; intros d; cbn [acmd41_loop].
  - apply post_ret. split; [reflexivity|discriminate].
  - use_step (cmd_post ACMD41_SD_SEND_OP_COND arg true ltac:(discriminate))
      as [st rs] d1 [Hct Hst].
    cbn [fst] in Hst. apply post_bind, post_get.
    destruct (bit_set rs R1_IDLE_STATE && _).
    + eapply post_conseq; [apply IH|]. cbv beta. intros a d2 [H1 H2].
      split; [congruence|exact H2].
    + apply post_ret. split; [exact Hct|]. now intros s r [= <- <-].
Qed.

Ltac not_no_response H :=
  let E := fresh in
  intros E; injection E as E; rewrite E in H; cbn in H;
  intuition discriminate.

Lemma initialise_card_post fuel d :
  post (_initialise_card fuel) d
       (fun r d1 =>
          r <> Some SD_BLOCK_DEVICE_ERROR_NO_RESPONSE
          /\ (r = Some BD_ERROR_OK -> reachable_type (_card_type d1))).
Proof.
  unfold _initialise_card.
  skip_step as _ d1. skip_step as _ d2. skip_step as idle d3.
  destruct (negb (idle =? R1_IDLE_STATE)).
  { apply post_ret. split; discriminate. }
  use_step cmd8_post as st8 d4 [Hv2 Hst8].
  destruct (Z.eqb_spec BD_ERROR_OK st8) as [<-|Hne]; cbn [negb].
  2:{ apply post_ret. split; [not_no_response Hst8 | congruence]. }
  specialize (Hv2 eq_refl).
  use_step (cmd_post CMD59_CRC_ON_OFF 0 false ltac:(discriminate))
    as _ d5 [Hct5 _].
  use_step (cmd_post CMD58_READ_OCR 0x0 false ltac:(discriminate))
    as [st rs] d6 [Hct6 Hst].
  cbn [fst] in Hst.
  destruct (Z.eqb_spec BD_ERROR_OK st) as [<-|Hne]; cbn [negb].
  2:{ apply post_ret. split; [not_no_response Hst | congruence]. }
  destruct (negb (bit_set rs OCR_3_3V)).
  { apply post_bind, post_modify, post_ret. split; discriminate. }
  apply post_bind, post_get.
  keep_step _card_type as d7 Hct7.
  use_step acmd41_loop_post as looped d8 [Hct8 Hloop].
  destruct looped as [[status response]|];
    [|apply post_ret; split; discriminate].
  specialize (Hloop _ _ eq_refl).
  keep_step _card_type as d9 Hct9.
  destruct (negb (BD_ERROR_OK =? status) || negb (0x00 =? response)).
  { apply post_bind, post_modify, post_ret.
    split; [not_no_response Hloop | intros _; right; right; reflexivity]. }
  apply post_bind, post_get.
  replace (_card_type d9) with SDCARD_V2 by congruence.
  rewrite Z.eqb_refl.
  use_step (cmd_post CMD58_READ_OCR 0x0 false ltac:(discriminate))
    as [st2 rs2] d10 [Hct10 Hst2].
  cbn [fst] in Hst2.
  apply post_bind.
  assert (Hfin : forall d11, reachable_type (_card_type d11) ->
            post (ret (Some st2)) d11
              (fun r d1 => r <> Some SD_BLOCK_DEVICE_ERROR_NO_RESPONSE
                 /\ (r = Some BD_ERROR_OK -> reachable_type (_card_type d1)))).
  { intros d11 Hu. apply post_ret. split; [not_no_response Hst2 | auto]. }
  assert (Hu : reachable_type (_card_type d10)) by (left; congruence).
  destruct (BD_ERROR_OK =? st2); [destruct (bit_set rs2 OCR_HCS_CCS)|].
  - apply post_modify, Hfin. right; left; reflexivity.
  - apply post_ret, Hfin, Hu.
  - apply post_ret, Hfin, Hu.
Qed.

Lemma sd_sectors_keeps_card_type : preserves _card_type _sd_sectors.
Proof.
  unfold _sd_sectors.
  pose proof (cmd_keeps_card_type CMD9_SEND_CSD 0x0 false ltac:(discriminate)).
  repeat frame_step_eq; apply preserves_modify; reflexivity.
Qed.

Lemma freq_post d :
  post _freq d (fun err _ => err = 0 \/ err = - EINVAL).
Proof.
  unfold _freq. apply post_bind, post_get.
  destruct (_transfer_sck d <=? 25000000).
  - skip_step as _ d1. apply post_ret. now left.
  - skip_step as _ d1. skip_step as a d2. skip_step as _ d3.
    apply post_ret. now right.
Qed.

Lemma u32_nonneg x : 0 <= u32 x.
Proof. unfold u32. apply Z.mod_pos_bound. lia. Qed.

(** Sectors come with an erase size of a block at least. *)
Lemma sd_sectors_post d :
  _block_size d = 512 ->
  post _sd_sectors d
       (fun sectors d1 =>
          0 <= sectors /\ (sectors <> 0 -> 512 <= _erase_size d1)).
Proof.
  intros Hbs. unfold _sd_sectors.
  apply post_bind. eapply post_conseq.
  { apply (post_frame _block_size). auto with frame. }
  cbv beta. intros [status r] d1 Hbs1.
  destruct (negb (status =? 0x0)); [apply post_ret; split; [lia|congruence]|].
  apply post_bind. eapply post_conseq.
  { apply (post_frame _block_size). auto with frame. }
  cbv beta. intros [r' csd] d2 Hbs2.
  destruct (negb (r' =? 0)); [apply post_ret; split; [lia|congruence]|].
  assert (Hd2 : _block_size d2 = 512) by congruence.
  destruct (ext_bits csd 127 126 =? 0).
  - apply post_bind, post_get. rewrite Hd2. apply post_bind.
    destruct (negb (ext_bits csd 46 46 =? 0)).
    + apply post_modify, post_ret. split; [apply u32_nonneg|].
      intros _. cbn. unfold BLOCK_SIZE_HC. lia.
    + apply post_bind, post_modify, post_bind, post_get.
      cbn [_erase_size set_erase_size].
      destruct (ext_bits csd 45 39 <? 512) eqn:E.
      * apply post_modify, post_ret. split; [apply u32_nonneg|].
        intros _. cbn. lia.
      * apply post_ret, post_ret. split; [apply u32_nonneg|].
        intros _. cbn. apply Z.ltb_ge in E. exact E.
  - destruct (ext_bits csd 127 126 =? 1).
    + apply post_bind, post_modify, post_ret. split; [apply u32_nonneg|].
      intros _. cbn. unfold BLOCK_SIZE_HC. lia.
    + apply post_ret. split; [lia|congruence].
Qed.

Lemma init_post fuel d :
  _block_size d = 512 ->
  post (init fuel) d
       (fun r d1 =>
          r <> Some SD_BLOCK_DEVICE_ERROR_NO_RESPONSE
          /\ (r = Some BD_ERROR_OK ->
              reachable_type (_card_type d1)
              /\ _is_initialized d1 = true
              /\ 0 < _sectors d1
              /\ 512 <= _erase_size d1)).
Proof.
  intros Hbs. unfold init.
  apply post_bind. eapply post_conseq.
  { apply post_and; [apply initialise_card_post|].
    apply (post_frame _block_size). auto with frame. }
  cbv beta. intros started d1 [[Hnr Hok] Hbs1].
  destruct started as [err|]; [|apply post_ret; split; discriminate].
  apply post_bind, post_modify, post_bind, post_get.
  cbn [_is_initialized set_is_initialized].
  destruct (Z.eqb_spec err BD_ERROR_OK) as [->|Hne]; cbn [negb].
  2:{ apply post_ret. split; [exact Hnr|congruence]. }
  specialize (Hok eq_refl).
  set (d2 := set_is_initialized true d1).
  apply post_bind. eapply post_conseq.
  { apply post_and; [apply post_and|].
    - apply sd_sectors_post. subst d2. cbn. congruence.
    - apply (post_frame _card_type), sd_sectors_keeps_card_type.
    - apply (post_frame (fun d => (_is_initialized d, _block_size d))).
      auto with frame. }
  cbv beta. intros sectors d3 [[[Hpos Hes] Hct3] [= Hin3 Hbs3]].
  apply post_bind, post_modify.
  destruct (Z.eqb_spec 0 sectors) as [<-|Hnz].
  { apply post_ret. split; discriminate. }
  apply post_bind, post_get.
  apply post_bind. eapply post_conseq.
  { apply post_and.
    - apply (cmd_post CMD16_SET_BLOCKLEN _ false ltac:(discriminate)).
    - apply (post_frame geometry). auto with frame. }
  cbv beta. intros [status r] d4 [[Hct4 _] [= Hs4 He4 Hi4]].
  destruct (negb (status =? 0)); [apply post_ret; split; discriminate|].
  apply post_bind. eapply post_conseq.
  { apply post_and; [apply post_and|].
    - apply freq_post.
    - apply (post_frame _card_type). auto with frame.
    - apply (post_frame geometry). auto with frame. }
  cbv beta. intros err d5 [[Herr Hct5] [= Hs5 He5 Hi5]].
  cbn [_sectors _erase_size _is_initialized _card_type set_sectors] in *.
  destruct (Z.eqb_spec err 0) as [->|Hne]; cbn [negb].
  2:{ apply post_ret. split; [|intros [= E]; contradiction].
      destruct Herr as [->| ->];
        [contradiction | intros [= E]; vm_compute in E; discriminate]. }
  apply post_ret. split; [discriminate|]. intros _.
  repeat split.
  - rewrite Hct5, Hct4, Hct3. exact Hok.
  - congruence.
  - lia.
  - rewrite He5, He4. apply Hes. congruence.
Qed.

(** What holds of the invariant of C1: after a successful [init] the
    device is initialized, has sectors and an erase size of a block at
    least; its card type is version 2, standard or high capacity, or
    unknown, and never version 1. *)
Lemma init_success fuel d d' :
  _block_size d = 512 ->
  init fuel d = (Some BD_ERROR_OK, d') ->
  _is_initialized d' = true
  /\ 0 < _sectors d'
  /\ 512 <= _erase_size d'
  /\ reachable_type (_card_type d')
  /\ _card_type d' <> SDCARD_V1.
Proof.
  intros Hbs Hrun. destruct (init_post fuel d Hbs) as [_ H].
  rewrite Hrun in H. cbn [fst snd] in H.
  destruct (H eq_refl) as (Ht & Hi & Hs & He).
  repeat split; auto.
  destruct Ht as [E|[E|E]]; rewrite E; discriminate.
Qed.

(** [init] has no path that returns the no-response error. *)
Lemma init_never_no_response fuel d :
  _block_size d = 512 ->
  fst (init fuel d) <> Some SD_BLOCK_DEVICE_ERROR_NO_RESPONSE.
Proof.
  intros Hbs. apply (init_post fuel d Hbs).
Qed.

(** ** The statuses of [program] and [read] *)

Lemma cmd_status_post cmd arg isAcmd d :
  post (_cmd cmd arg isAcmd) d (fun r _ => In (fst r) cmd_statuses).
Proof. apply cmd_status. Qed.

(** [program] returns the parameter error, the no-init error or a
    status of [_cmd]: the write error is none of them. *)
Lemma program_status b addr sz d :
  In (fst (program b addr sz d))
     (SD_BLOCK_DEVICE_ERROR_PARAMETER :: SD_BLOCK_DEVICE_ERROR_NO_INIT
        :: cmd_statuses).
Proof.
  change (post (program b addr sz) d
            (fun r _ => In r (SD_BLOCK_DEVICE_ERROR_PARAMETER
                                :: SD_BLOCK_DEVICE_ERROR_NO_INIT
                                :: cmd_statuses))).
  unfold program. apply post_bind, post_get.
  destruct (negb (is_valid_program addr sz d));
    [apply post_ret; now left|].
  apply post_bind, post_get.
  destruct (negb (_is_initialized d)); [apply post_ret; right; now left|].
  apply post_bind, post_get. apply post_bind, post_get.
  destruct (sz / _block_size d =? 1).
  - use_step cmd_status_post as [status r] d1 Hst. cbn [fst] in Hst.
    destruct (negb (BD_ERROR_OK =? status));
      [apply post_ret; now do 2 right|].
    skip_step as response d2.
    use_step cmd_status_post as [status' r'] d3 Hst'. cbn [fst] in Hst'.
    apply post_ret. now do 2 right.
  - skip_step as x d1.
    use_step cmd_status_post as [status r] d2 Hst. cbn [fst] in Hst.
    destruct (negb (BD_ERROR_OK =? status));
      [apply post_ret; now do 2 right|].
    skip_step as response d3. skip_step as x1 d4. skip_step as x2 d5.
    skip_step as x3 d6. skip_step as x4 d7. skip_step as x5 d8.
    apply post_ret. now do 2 right.
Qed.

Lemma program_never_write_error b addr sz d :
  fst (program b addr sz d) <> SD_BLOCK_DEVICE_ERROR_WRITE.
Proof.
  intros E. pose proof (program_status b addr sz d) as H.
  rewrite E in H. cbn in H. intuition discriminate.
Qed.

Lemma read_first_post n addr cnt len : forall status d,
  post (read_first n addr cnt len status) d
       (fun r _ => forall st, r = inl st -> In st cmd_statuses).
Proof.
  induction n as [|n IH]; intros status d; cbn [read_first].
  - apply post_ret. discriminate.
  - use_step cmd_status_post as [st r] d1 Hst. cbn [fst] in Hst.
    destruct (negb (BD_ERROR_OK =? st)).
    + apply post_ret. now intros s [= <-].
    + skip_step as [r' data] d2.
      destruct (SD_BLOCK_DEVICE_ERROR_NO_RESPONSE =? r').
      * apply IH.
      * apply post_ret. discriminate.
Qed.

(** A read of more than a block returns the parameter error or a
    status of [_cmd]: the no-response error is none of them. *)
Lemma read_multiple_status addr sz d :
  _block_size d < sz ->
  In (fst (fst (read addr sz d)))
     (SD_BLOCK_DEVICE_ERROR_PARAMETER :: cmd_statuses).
Proof.
  intros Hsz.
  change (post (read addr sz) d
            (fun r _ => In (fst r)
                           (SD_BLOCK_DEVICE_ERROR_PARAMETER :: cmd_statuses))).
  unfold read. apply post_bind, post_get.
  destruct (negb (is_valid_read addr sz d)); [apply post_ret; now left|].
  apply post_bind, post_get.
  destruct (negb (_is_initialized d)); [apply post_ret; now left|].
  apply post_bind, post_get. apply post_bind, post_get.
  use_step read_first_post as first d1 Hfirst.
  destruct first as [status|[[status cnt] data]].
  - apply post_ret. right. now apply Hfirst.
  - skip_step as [status' more] d2.
    apply Z.ltb_lt in Hsz. rewrite Hsz.
    use_step cmd_status_post as [st r] d3 Hst. cbn [fst] in Hst.
    apply post_ret. now right.
Qed.

Lemma read_multiple_never_no_response addr sz d :
  _block_size d < sz ->
  fst (fst (read addr sz d)) <> SD_BLOCK_DEVICE_ERROR_NO_RESPONSE.
Proof.
  intros Hsz E. pose proof (read_multiple_status addr sz d Hsz) as H.
  rewrite E in H. cbn in H. intuition discriminate.
Qed.

(** ** A card that stops answering *)

Lemma spi_write_silent tx d :
  silent d -> fst (spi_write tx d) = 0xFF /\ silent (snd (spi_write tx d)).
Proof.
  unfold silent, spi_write. intros ->. split; reflexivity.
Qed.

Lemma spi_send_silent bytes : forall d,
  silent d -> silent (snd (spi_send bytes d)).
Proof.
  induction bytes as [|b bs IH]; intros d Hd; [exact Hd|].
  cbn [spi_send]. rewrite bind_unfold. apply IH.
  now apply spi_write_silent.
Qed.

Lemma r1_poll_S n r0 :
  r1_poll (S n) r0
  = (response <- spi_write SPI_FILL_CHAR ;;
     if Z.land response R1_RESPONSE_RECV =? 0 then ret response
     else r1_poll n response).
Proof. reflexivity. Qed.

Lemma r1_poll_silent n : forall r0 d,
  silent d ->
  fst (r1_poll (S n) r0 d) = 0xFF /\ silent (snd (r1_poll (S n) r0 d)).
Proof.
  induction n as [|n IH]; intros r0 d Hd; rewrite r1_poll_S, bind_unfold;
    destruct (spi_write_silent SPI_FILL_CHAR d Hd) as [-> Hs];
    change (Z.land 0xFF R1_RESPONSE_RECV =? 0) with false; cbv iota.
  - split; [reflexivity|exact Hs].
  - apply IH, Hs.
Qed.

Lemma cmd_spi_silent cmd arg d :
  silent d ->
  fst (_cmd_spi cmd arg d) = 0xFF /\ silent (snd (_cmd_spi cmd arg d)).
Proof.
  intros Hd. unfold _cmd_spi. rewrite !bind_unfold.
  apply r1_poll_silent.
  destruct (CMD12_STOP_TRANSMISSION =? cmd).
  - rewrite bind_unfold. cbn [ret snd].
    now apply spi_write_silent, spi_send_silent.
  - now apply spi_send_silent.
Qed.

Lemma cmd_retry_S n cmd arg isAcmd r0 :
  cmd_retry (S n) cmd arg isAcmd r0
  = ((if isAcmd then _cmd_spi CMD55_APP_CMD 0x0 ;;; ret tt else ret tt) ;;;
     response <- _cmd_spi cmd arg ;;
     if R1_NO_RESPONSE =? response then cmd_retry n cmd arg isAcmd response
     else ret response).
Proof. reflexivity. Qed.

Lemma cmd_retry_silent n cmd arg isAcmd : forall r0 d,
  silent d ->
  fst (cmd_retry (S n) cmd arg isAcmd r0 d) = 0xFF
  /\ silent (snd (cmd_retry (S n) cmd arg isAcmd r0 d)).
Proof.
  induction n as [|n IH]; intros r0 d Hd; rewrite cmd_retry_S;
    rewrite !bind_unfold;
    set (d1 := snd ((if isAcmd then _cmd_spi CMD55_APP_CMD 0x0 ;;; ret tt
                     else ret tt) d));
    (assert (Hd1 : silent d1)
      by (subst d1; destruct isAcmd;
          [rewrite bind_unfold; now apply cmd_spi_silent | exact Hd]));
    destruct (cmd_spi_silent cmd arg d1 Hd1) as [-> Hs];
    change (R1_NO_RESPONSE =? 0xFF) with true; cbv iota.
  - split; [reflexivity|exact Hs].
  - apply IH, Hs.
Qed.

Lemma wait_ready_silent ms d :
  silent d ->
  let d' := snd (_wait_ready ms d) in
  silent d' /\ _spi_timer d' = mkTimer false (ticker d) 1.
Proof.
  unfold silent. intros Hd.
  unfold _wait_ready. rewrite !bind_unfold.
  cbn [get fst snd patience poll_line]. rewrite !bind_unfold.
  unfold timer_reset, timer_start, timer_stop, spi_write, slicetime.
  destruct (t_running (_spi_timer d)); cbn; rewrite Hd; cbn;
    (split; [reflexivity|]); f_equal; lia.
Qed.

Lemma cmd_silent cmd arg isAcmd d :
  silent d ->
  let run := _cmd cmd arg isAcmd d in
  fst run = (SD_BLOCK_DEVICE_ERROR_NO_DEVICE, 0xFF)
  /\ silent (snd run)
  /\ t_running (_spi_timer (snd run)) = false
  /\ t_time (_spi_timer (snd run)) = 1.
Proof.
  intros Hd. unfold _cmd. rewrite !bind_unfold.
  set (d1 := snd (_select d)).
  assert (Hd1 : silent d1) by exact Hd.
  destruct (wait_ready_silent SD_COMMAND_TIMEOUT d1 Hd1) as [Hd2 Ht2].
  set (d2 := snd (_wait_ready SD_COMMAND_TIMEOUT d1)) in *.
  destruct (cmd_retry_silent 2 cmd arg isAcmd 0 d2 Hd2) as [Hr Hd3].
  pose proof (cmd_retry_frame _spi_timer ltac:(reflexivity) ltac:(reflexivity)
                3 cmd arg isAcmd 0 d2) as Ht3.
  set (d3 := snd (cmd_retry 3 cmd arg isAcmd 0 d2)) in *.
  rewrite Hr. change (R1_NO_RESPONSE =? 0xFF) with true. cbv iota.
  rewrite bind_unfold. cbn [ret fst snd _deselect modify].
  cbn [_spi_timer set_cs]. rewrite Ht3, Ht2. cbn.
  repeat split. exact Hd3.
Qed.

(** On a silent card the ACMD41 loop does not end. *)
Lemma acmd41_loop_silent fuel arg : forall d,
  silent d -> fst (acmd41_loop fuel arg d) = None.
Proof.
  induction fuel as [|n IH]; intros d Hd; [reflexivity|].
  cbn [acmd41_loop]. rewrite bind_unfold.
  destruct (cmd_silent ACMD41_SD_SEND_OP_COND arg true d Hd)
    as (Hr & Hs & Hrun & Htime).
  destruct (_cmd ACMD41_SD_SEND_OP_COND arg true d) as [[st rs] d1].
  cbn [fst snd] in *. injection Hr as -> ->.
  rewrite bind_unfold. unfold timer_read_ms, slicetime. cbn [fst snd].
  rewrite Hrun, Htime. cbn. apply IH, Hs.
Qed.


Lemma post_bind_eval {A B} (m : M A) (k : A -> M B) d a d1
      (Q : B -> SD -> Prop) :
  m d = (a, d1) -> post (k a) d1 Q -> post (bind m k) d Q.
Proof. intros E H. apply post_bind. unfold post at 1. now rewrite E. Qed.

Ltac eval_test :=
  lazymatch goal with
  | |- post (if ?c then _ else _) _ _ =>
      let v := eval vm_compute in c in change c with v; cbv iota
  end.
Ltac eval_step :=
  eapply post_bind_eval; [ vm_compute; reflexivity | cbv beta iota ].

(** A version 2 card taken off the bus after CMD58: whatever the
    number of rounds granted to the ACMD41 loop, [init] is still in it.
    Every answer reads 0xFF, which has the idle bit set, and the
    stopwatch, reset by every [_cmd], reads 1 ms at every test. *)
Lemma init_never_returns_on_removed_card : forall fuel,
  fst (init fuel (fresh (quick v2_start))) = None.
Proof.
  intros fuel.
  change (post (init fuel) (fresh (quick v2_start)) (fun r _ => r = None)).
  unfold init. apply post_bind.
  apply post_conseq with (R := fun r _ => r = None);
    [|intros a d1 ->; apply post_ret; reflexivity].
  unfold _initialise_card.
  eval_step. eval_step. eval_step. eval_test.
  eval_step. eval_test.
  eval_step. eval_step. eval_test. eval_test.
  eval_step. eval_step.
  apply post_bind.
  apply post_conseq with (R := fun r _ => r = None);
    [|intros a d1 ->; apply post_ret; reflexivity].
  apply acmd41_loop_silent. reflexivity.
Qed.

(** ** Scenarios *)

(** A good run: a high capacity card is initialized, with the geometry
    of its CSD. *)
Lemma init_v2hc_example :
  let run := init 8 (fresh (quick v2hc_init)) in
  fst run = Some BD_ERROR_OK
  /\ _card_type (snd run) = SDCARD_V2HC
  /\ _is_initialized (snd run) = true
  /\ _sectors (snd run) = (7580 + 1) * 1024
  /\ _erase_size (snd run) = 512
  /\ size (snd run) = 3974627328
  /\ spi_hz (_spi (snd run)) = 1000000
  /\ _cs (snd run) = 1.
Proof.
  vm_compute. repeat split.
Qed.

(** C1, where the code departs from it.  The card passes the
    initialization sequence and is then taken off the bus: CMD9 gets no
    answer, [init] returns the device error, and the device stays
    marked as initialized with no sector at all. *)
Theorem init_fails_at_cmd9_and_stays_initialized :
  let run := init 8 (fresh (quick v2hc_removed_before_cmd9)) in
  fst run = Some BD_ERROR_DEVICE_ERROR
  /\ _is_initialized (snd run) = true
  /\ _sectors (snd run) = 0
  /\ ~ (_sectors (snd run) > 0).
Proof.
  vm_compute. repeat split; discriminate.
Qed.

(** A second way out of the invariant of C1: a garbled answer to ACMD41
    (0x80) has neither the idle bit nor an error bit, so that
    [_initialise_card] gives up on the card type and yet returns
    success, and [init] succeeds with an unknown card. *)
Lemma init_succeeds_with_unknown_card :
  let run := init 8 (fresh (quick v2_acmd41_garbled)) in
  fst run = Some BD_ERROR_OK
  /\ _is_initialized (snd run) = true
  /\ _card_type (snd run) = CARD_UNKNOWN.
Proof.
  vm_compute. repeat split.
Qed.

(** C2, where the code departs from it.  A version 1 card answers CMD8
    with the illegal command bit; [init] stops there with the
    unsupported error, the card type unknown and the device not
    initialized, and leaves the rest of the sequence unsent. *)
Theorem init_rejects_version_1_card :
  let run := init 8 (fresh (quick v1_init)) in
  bit_set 0x05 R1_ILLEGAL_COMMAND = true
  /\ fst run = Some SD_BLOCK_DEVICE_ERROR_UNSUPPORTED
  /\ _card_type (snd run) = CARD_UNKNOWN
  /\ _is_initialized (snd run) = false
  /\ miso (_spi (snd run)) = quick v1_rest.
Proof.
  vm_compute. repeat split.
Qed.

(** C3, where the code departs from it.  The card answers every ACMD41
    with the idle bit until the stopwatch reads 5000 ms; the loop ends
    with the status of the last command, which is no error, so that
    [init] gives up on the card type and goes on as after a success:
    it returns 0 and marks the device initialized. *)
Theorem init_acmd41_timeout_returns_ok :
  let d := fresh v2_never_ready in
  let before_loop :=
    snd ((modify (set_dbg false) ;;; _spi_init ;;; _go_idle_state ;;;
          _cmd8 ;;; _cmd CMD59_CRC_ON_OFF 0 false ;;;
          _cmd CMD58_READ_OCR 0x0 false ;;; timer_start) d) in
  let loop := acmd41_loop 8 OCR_HCS_CCS before_loop in
  let run := init 8 d in
  fst loop = Some (BD_ERROR_OK, 0x01)
  /\ fst (timer_read_ms (snd loop)) = SD_COMMAND_TIMEOUT
  /\ fst run = Some BD_ERROR_OK
  /\ fst run <> Some SD_BLOCK_DEVICE_ERROR_NO_RESPONSE
  /\ _card_type (snd run) = CARD_UNKNOWN
  /\ _is_initialized (snd run) = true.
Proof.
  vm_compute. repeat split. discriminate.
Qed.

(** C4, where the code departs from it.  CMD24 succeeds, the masked
    data response token is 0x0B, CMD13 succeeds: [program] returns the
    status of CMD13, which is 0. *)
Theorem program_loses_write_error :
  let d := ready write_rejected in
  let payload := repeat 0xA5 512 in
  let sent := _cmd CMD24_WRITE_BLOCK 0 false d in
  let written := _write payload SPI_START_BLOCK 512 (snd sent) in
  _is_initialized d = true
  /\ fst (fst sent) = BD_ERROR_OK
  /\ fst written = SPI_DATA_CRC_ERROR
  /\ fst (program payload 0 512 d) = BD_ERROR_OK
  /\ fst (program payload 0 512 d) <> SD_BLOCK_DEVICE_ERROR_WRITE.
Proof.
  vm_compute. repeat split. discriminate.
Qed.

(** C5, where the code departs from it.  CMD18 succeeds, the first
    block is read, the second never starts, CMD12 succeeds: [read]
    returns the status of CMD12, which is 0, with one block stored. *)
Theorem read_loses_missing_block :
  let d := ready second_block_missing in
  let first := read_first 3 0 2 512 BD_ERROR_OK d in
  let run := read 0 1024 d in
  _is_initialized d = true
  /\ fst first = inr (BD_ERROR_OK, 1, repeat 0x5A 512)
  /\ fst (fst (_read 512 (snd first))) = SD_BLOCK_DEVICE_ERROR_NO_RESPONSE
  /\ fst (fst run) = BD_ERROR_OK
  /\ fst (fst run) <> SD_BLOCK_DEVICE_ERROR_NO_RESPONSE
  /\ snd (fst run) = repeat 0x5A 512.
Proof.
  vm_compute. repeat split. discriminate.
Qed.

(** * Further properties of the driver *)

(** ** What the operations can return *)

Lemma initialise_card_results fuel d :
  post (_initialise_card fuel) d
       (fun r _ => forall st, r = Some st ->
                   In st (SD_BLOCK_DEVICE_ERROR_UNUSABLE :: cmd_statuses)).
Proof.
  unfold _initialise_card.
  skip_step as _ d1. skip_step as _ d2. skip_step as idle d3.
  destruct (negb (idle =? R1_IDLE_STATE)).
  { apply post_ret. intros st [= <-]. cbn. auto. }
  use_step cmd8_post as st8 d4 [_ Hst8].
  destruct (negb (BD_ERROR_OK =? st8)).
  { apply post_ret. now intros st [= <-]. }
  skip_step as x d5.
  use_step cmd_status_post as [st rs] d6 Hst. cbn [fst] in Hst.
  destruct (negb (BD_ERROR_OK =? st)).
  { apply post_ret. intros s [= <-]. now right. }
  destruct (negb (bit_set rs OCR_3_3V)).
  { apply post_bind, post_modify, post_ret. intros s [= <-]. now left. }
  apply post_bind, post_get. skip_step as x1 d7.
  use_step acmd41_loop_post as looped d8 [_ Hloop].
  destruct looped as [[status response]|]; [|apply post_ret; discriminate].
  specialize (Hloop _ _ eq_refl).
  skip_step as x2 d9.
  destruct (negb (BD_ERROR_OK =? status) || negb (0x00 =? response)).
  { apply post_bind, post_modify, post_ret. intros s [= <-]. now right. }
  apply post_bind, post_get.
  destruct (SDCARD_V2 =? _card_type d9).
  - use_step cmd_status_post as [st2 rs2] d10 Hst2. cbn [fst] in Hst2.
    skip_step as x3 d11. apply post_ret. intros s [= <-]. now right.
  - apply post_bind, post_modify, post_ret. intros s [= <-]. now right.
Qed.

(** X1.  Whatever the card sends, an [init] that returns answers with 0,
    the device error, [-EINVAL], unusable or one of the statuses of
    [_cmd]; no other code comes out of it. *)
Theorem init_result_codes fuel d r :
  fst (init fuel d) = Some r -> In r init_results.
Proof.
  change (post (init fuel) d (fun o _ => o = Some r -> In r init_results)).
  unfold init. use_step initialise_card_results as started d1 Hst.
  destruct started as [err|]; [|apply post_ret; discriminate].
  specialize (Hst _ eq_refl).
  apply post_bind, post_modify, post_bind, post_get.
  cbn [_is_initialized set_is_initialized].
  destruct (negb (err =? BD_ERROR_OK)).
  { apply post_ret. intros [= <-]. unfold init_results. now do 2 right. }
  skip_step as sectors d2. skip_step as x d3.
  destruct (0 =? sectors).
  { apply post_ret. intros [= <-]. now left. }
  apply post_bind, post_get. skip_step as [status rs] d4.
  destruct (negb (status =? 0)).
  { apply post_ret. intros [= <-]. now left. }
  use_step freq_post as e d5 He.
  destruct (negb (e =? 0)).
  - apply post_ret. intros [= <-].
    destruct He as [->| ->]; unfold init_results; cbn; auto 10.
  - apply post_ret. intros [= <-]. unfold init_results. cbn. auto 10.
Qed.

Lemma init_result_codes_witness :
  In BD_ERROR_OK init_results.
Proof.
  apply (init_result_codes 8 (fresh (quick v2hc_init)) BD_ERROR_OK).
  vm_compute. reflexivity.
Defined.

(** X4.  [erase] answers with the parameter error, no-init or one of the
    statuses of [_cmd]. *)
Theorem erase_result_codes addr sz d :
  In (fst (erase addr sz d)) io_results.
Proof.
  change (post (erase addr sz) d (fun r _ => In r io_results)).
  unfold erase, io_results. apply post_bind, post_get.
  destruct (negb (is_valid_erase addr sz d)); [apply post_ret; now left|].
  apply post_bind, post_get.
  destruct (negb (_is_initialized d)); [apply post_ret; right; now left|].
  apply post_bind, post_get. apply post_bind, post_get.
  use_step cmd_status_post as [st r] d1 Hst. cbn [fst] in Hst.
  destruct (negb (BD_ERROR_OK =? st)); [apply post_ret; now do 2 right|].
  use_step cmd_status_post as [st2 r2] d2 Hst2. cbn [fst] in Hst2.
  destruct (negb (BD_ERROR_OK =? st2)); [apply post_ret; now do 2 right|].
  use_step cmd_status_post as [st3 r3] d3 Hst3. cbn [fst] in Hst3.
  apply post_ret. now do 2 right.
Qed.

Lemma read_rest_results n len : forall status d,
  post (read_rest n len status) d
       (fun r _ => fst r = status
                   \/ fst r = SD_BLOCK_DEVICE_ERROR_NO_RESPONSE).
Proof.
  induction n as [|n IH]; intros status d; cbn [read_rest].
  - apply post_ret. now left.
  - skip_step as [r data] d1.
    destruct (negb (0 =? r)); [apply post_ret; now right|].
    use_step IH as [st more] d2 H. apply post_ret. exact H.
Qed.

Lemma read_first_inr n addr cnt len : forall status,
  In status cmd_statuses -> forall d,
  post (read_first n addr cnt len status) d
       (fun r _ => match r with
                   | inl st => In st cmd_statuses
                   | inr (st, _, _) => In st cmd_statuses
                   end).
Proof.
  induction n as [|n IH]; intros status Hin d; cbn [read_first].
  - apply post_ret. exact Hin.
  - use_step cmd_status_post as [st r] d1 Hst. cbn [fst] in Hst.
    destruct (negb (BD_ERROR_OK =? st)).
    + apply post_ret. exact Hst.
    + skip_step as [r' data] d2.
      destruct (SD_BLOCK_DEVICE_ERROR_NO_RESPONSE =? r').
      * now apply IH.
      * apply post_ret. exact Hst.
Qed.

(** X2.  [read] answers with the parameter error, no-response or one of
    the statuses of [_cmd]; it never says no-init. *)
Theorem read_result_codes addr sz d :
  In (fst (fst (read addr sz d)))
     (SD_BLOCK_DEVICE_ERROR_PARAMETER :: SD_BLOCK_DEVICE_ERROR_NO_RESPONSE
        :: cmd_statuses)
  /\ fst (fst (read addr sz d)) <> SD_BLOCK_DEVICE_ERROR_NO_INIT.
Proof.
  assert (H : In (fst (fst (read addr sz d)))
     (SD_BLOCK_DEVICE_ERROR_PARAMETER :: SD_BLOCK_DEVICE_ERROR_NO_RESPONSE
        :: cmd_statuses)).
  { change (post (read addr sz) d
            (fun r _ => In (fst r)
               (SD_BLOCK_DEVICE_ERROR_PARAMETER
                  :: SD_BLOCK_DEVICE_ERROR_NO_RESPONSE :: cmd_statuses))).
    unfold read. apply post_bind, post_get.
    destruct (negb (is_valid_read addr sz d)); [apply post_ret; now left|].
    apply post_bind, post_get.
    destruct (negb (_is_initialized d)); [apply post_ret; now left|].
    apply post_bind, post_get. apply post_bind, post_get.
    use_step (read_first_inr 3 (if SDCARD_V2HC =? _card_type d
                                then addr / _block_size d else addr)
                (sz / _block_size d) (Z.to_nat (_block_size d)) BD_ERROR_OK
                (or_introl eq_refl))
      as first d1 Hfirst.
    destruct first as [status|[[status cnt] data]].
    - apply post_ret. now do 2 right.
    - use_step read_rest_results as [status' more] d2 Hrest.
      cbn [fst] in Hrest.
      destruct (_block_size d <? sz).
      + use_step cmd_status_post as [st r] d3 Hst. cbn [fst] in Hst.
        apply post_ret. now do 2 right.
      + apply post_ret. cbn [fst].
        destruct Hrest as [->| ->]; [now do 2 right | right; now left]. }
  split; [exact H|]. intros E. rewrite E in H. cbn in H.
  intuition discriminate.
Qed.

(** ** Chip select *)

Ltac deselected :=
  unfold _deselect; apply post_bind, post_modify, post_ret; reflexivity.

Lemma cmd_cs cmd arg isAcmd d :
  post (_cmd cmd arg isAcmd) d (fun _ d1 => _cs d1 = 1).
Proof.
  unfold _cmd. skip_step as x1 d1. skip_step as x2 d2.
  skip_step as response d3.
  destruct (R1_NO_RESPONSE =? response); [deselected|].
  destruct (bit_set response R1_COM_CRC_ERROR); [deselected|].
  destruct (bit_set response R1_ILLEGAL_COMMAND).
  { skip_step as x4 d4. deselected. }
  skip_step as x4 d4. deselected.
Qed.

Lemma read_bytes_cs n d : post (_read_bytes n) d (fun _ d1 => _cs d1 = 1).
Proof.
  unfold _read_bytes. skip_step as x1 d1. skip_step as ok d2.
  destruct (negb ok); [deselected|].
  skip_step as x3 d3. skip_step as x4 d4. skip_step as x5 d5. deselected.
Qed.

Lemma read_cs n d : post (_read n) d (fun _ d1 => _cs d1 = 1).
Proof.
  unfold _read. skip_step as x1 d1. skip_step as ok d2.
  destruct (negb ok); [deselected|].
  skip_step as x3 d3. skip_step as x4 d4. skip_step as x5 d5. deselected.
Qed.

Lemma write_cs buffer token n d :
  post (_write buffer token n) d (fun _ d1 => _cs d1 = 1).
Proof.
  unfold _write. skip_step as x1 d1. skip_step as x2 d2. skip_step as x3 d3.
  skip_step as x4 d4. skip_step as x5 d5. skip_step as x6 d6.
  skip_step as x7 d7. deselected.
Qed.

Lemma write_blocks_cs n : forall buffer len d,
  post (write_blocks n buffer len) d (fun _ d1 => _cs d1 = 1).
Proof.
  induction n as [|n IH]; intros buffer len d; cbn [write_blocks];
    (use_step write_cs as response d1 Hcs);
    destruct (negb (response =? SPI_DATA_ACCEPTED));
    try (apply post_ret; exact Hcs).
  apply IH.
Qed.

Lemma read_first_cs n addr cnt len : forall status d,
  _cs d = 1 ->
  post (read_first n addr cnt len status) d (fun _ d1 => _cs d1 = 1).
Proof.
  induction n as [|n IH]; intros status d Hd; cbn [read_first].
  - apply post_ret. exact Hd.
  - use_step cmd_cs as [st r] d1 H1.
    destruct (negb (BD_ERROR_OK =? st)); [apply post_ret; exact H1|].
    use_step read_cs as [r' data] d2 H2.
    destruct (SD_BLOCK_DEVICE_ERROR_NO_RESPONSE =? r').
    + now apply IH.
    + apply post_ret. exact H2.
Qed.

Lemma read_rest_cs n len : forall status d,
  _cs d = 1 ->
  post (read_rest n len status) d (fun _ d1 => _cs d1 = 1).
Proof.
  induction n as [|n IH]; intros status d Hd; cbn [read_rest].
  - apply post_ret. exact Hd.
  - use_step read_cs as [r data] d1 H1.
    destruct (negb (0 =? r)); [apply post_ret; exact H1|].
    use_step (IH status d1 H1) as [st more] d2 H2.
    apply post_ret. exact H2.
Qed.

Lemma wait_ready_cs ms d :
  post (_wait_ready ms) d (fun _ d1 => _cs d1 = _cs d).
Proof.
  apply (post_frame _cs).
  apply wait_ready_frame; reflexivity.
Qed.

(** X7.  Chip select is high again after every block operation that found
    it high. *)
Theorem block_io_leaves_cs_high b addr sz d :
  _cs d = 1 ->
  _cs (snd (read addr sz d)) = 1
  /\ _cs (snd (program b addr sz d)) = 1
  /\ _cs (snd (erase addr sz d)) = 1.
Proof.
  intros Hd. repeat split.
  - change (post (read addr sz) d (fun _ d1 => _cs d1 = 1)).
    unfold read. apply post_bind, post_get.
    destruct (negb (is_valid_read addr sz d)); [apply post_ret; exact Hd|].
    apply post_bind, post_get.
    destruct (negb (_is_initialized d)); [apply post_ret; exact Hd|].
    apply post_bind, post_get. apply post_bind, post_get.
    use_step (read_first_cs 3 (if SDCARD_V2HC =? _card_type d
                               then addr / _block_size d else addr)
                (sz / _block_size d) (Z.to_nat (_block_size d))
                BD_ERROR_OK d Hd) as first d1 H1.
    destruct first as [status|[[status cnt] data]];
      [apply post_ret; exact H1|].
    use_step (read_rest_cs (Z.to_nat cnt) (Z.to_nat (_block_size d))
                status d1 H1) as [st more] d2 H2.
    destruct (_block_size d <? sz).
    + use_step cmd_cs as [st' r] d3 H3. apply post_ret. exact H3.
    + apply post_ret. exact H2.
  - change (post (program b addr sz) d (fun _ d1 => _cs d1 = 1)).
    unfold program. apply post_bind, post_get.
    destruct (negb (is_valid_program addr sz d)); [apply post_ret; exact Hd|].
    apply post_bind, post_get.
    destruct (negb (_is_initialized d)); [apply post_ret; exact Hd|].
    apply post_bind, post_get. apply post_bind, post_get.
    destruct (sz / _block_size d =? 1).
    + use_step cmd_cs as [st r] d1 H1.
      destruct (negb (BD_ERROR_OK =? st)); [apply post_ret; exact H1|].
      skip_step as response d2.
      use_step cmd_cs as [st' r'] d3 H3. apply post_ret. exact H3.
    + skip_step as x d1.
      use_step cmd_cs as [st r] d2 H2.
      destruct (negb (BD_ERROR_OK =? st)); [apply post_ret; exact H2|].
      skip_step as response d3. skip_step as x1 d4. skip_step as x2 d5.
      unfold _deselect at 1. apply post_bind, post_modify.
      use_step wait_ready_cs as ok d6 H6. cbn in H6.
      apply post_bind.
      destruct (response =? SPI_DATA_WRITE_ERROR).
      * use_step cmd_cs as [st' r'] d7 H7.
        destruct (BD_ERROR_OK =? st').
        -- use_step read_bytes_cs as x3 d8 H8.
           apply post_ret, post_ret. exact H8.
        -- apply post_ret, post_ret. exact H7.
      * apply post_ret, post_ret. exact H6.
  - change (post (erase addr sz) d (fun _ d1 => _cs d1 = 1)).
    unfold erase. apply post_bind, post_get.
    destruct (negb (is_valid_erase addr sz d)); [apply post_ret; exact Hd|].
    apply post_bind, post_get.
    destruct (negb (_is_initialized d)); [apply post_ret; exact Hd|].
    apply post_bind, post_get. apply post_bind, post_get.
    use_step cmd_cs as [st r] d1 H1.
    destruct (negb (BD_ERROR_OK =? st)); [apply post_ret; exact H1|].
    use_step cmd_cs as [st2 r2] d2 H2.
    destruct (negb (BD_ERROR_OK =? st2)); [apply post_ret; exact H2|].
    use_step cmd_cs as [st3 r3] d3 H3. apply post_ret. exact H3.
Qed.

Lemma go_idle_loop_cs n : forall r d,
  _cs d = 1 -> post (go_idle_loop n r) d (fun _ d1 => _cs d1 = 1).
Proof.
  induction n as [|n IH]; intros r d Hd; cbn [go_idle_loop].
  - apply post_ret. exact Hd.
  - use_step cmd_cs as [st rs] d1 H1.
    destruct (R1_IDLE_STATE =? rs); [apply post_ret; exact H1|].
    apply post_bind. unfold wait_ms at 1. unfold post at 1. cbn [fst snd].
    apply IH. exact H1.
Qed.

Lemma acmd41_loop_cs n arg : forall d,
  _cs d = 1 -> post (acmd41_loop n arg) d (fun _ d1 => _cs d1 = 1).
Proof.
  induction n as [|n IH]; intros d Hd; cbn [acmd41_loop].
  - apply post_ret. exact Hd.
  - use_step cmd_cs as [st rs] d1 H1. apply post_bind, post_get.
    destruct (bit_set rs R1_IDLE_STATE && _).
    + now apply IH.
    + apply post_ret. exact H1.
Qed.

Lemma sd_sectors_cs d : post _sd_sectors d (fun _ d1 => _cs d1 = 1).
Proof.
  unfold _sd_sectors. use_step cmd_cs as [st r] d1 H1.
  destruct (negb (st =? 0x0)); [apply post_ret; exact H1|].
  use_step read_bytes_cs as [r' csd] d2 H2.
  destruct (negb (r' =? 0)); [apply post_ret; exact H2|].
  destruct (ext_bits csd 127 126 =? 0).
  - apply post_bind, post_get. apply post_bind.
    destruct (negb (ext_bits csd 46 46 =? 0)).
    + apply post_modify, post_ret. exact H2.
    + apply post_bind, post_modify, post_bind, post_get.
      destruct (_ <? _).
      * apply post_modify, post_ret. exact H2.
      * apply post_ret, post_ret. exact H2.
  - destruct (ext_bits csd 127 126 =? 1).
    + apply post_bind, post_modify, post_ret. exact H2.
    + apply post_ret. exact H2.
Qed.

Lemma spi_init_cs d : post _spi_init d (fun _ d1 => _cs d1 = 1).
Proof.
  unfold _spi_init. apply post_bind, post_get.
  skip_step as x1 d1. skip_step as x2 d2.
  apply post_bind, post_modify.
  eapply post_conseq.
  { apply (post_frame _cs). apply spi_wait_frame; reflexivity. }
  cbv beta. intros _ d3 ->. reflexivity.
Qed.

Lemma initialise_card_cs fuel d :
  post (_initialise_card fuel) d (fun _ d1 => _cs d1 = 1).
Proof.
  unfold _initialise_card. skip_step as x0 d0.
  use_step spi_init_cs as x1 d1 H1.
  use_step (go_idle_loop_cs SD_CMD0_GO_IDLE_STATE_RETRIES 0 d1 H1)
    as idle d2 H2.
  destruct (negb (idle =? R1_IDLE_STATE)); [apply post_ret; exact H2|].
  apply post_bind. unfold _cmd8 at 1. apply post_bind.
  eapply post_conseq; [apply cmd_cs|]. cbv beta. intros [st8 r8] d3 H3.
  apply post_bind, post_get.
  eapply post_conseq with (R := fun _ d4 => _cs d4 = 1).
  { destruct (_ && _); [destruct (negb _)|].
    - apply post_bind, post_modify, post_ret. exact H3.
    - apply post_ret. exact H3.
    - apply post_ret. exact H3. }
  cbv beta. intros status d4 H4.
  destruct (negb (BD_ERROR_OK =? status)); [apply post_ret; exact H4|].
  skip_step as x5 d5.
  use_step cmd_cs as [st rs] d6 H6.
  destruct (negb (BD_ERROR_OK =? st)); [apply post_ret; exact H6|].
  destruct (negb (bit_set rs OCR_3_3V)).
  { apply post_bind, post_modify, post_ret. exact H6. }
  apply post_bind, post_get.
  apply post_bind. eapply post_conseq.
  { apply (post_frame _cs). apply timer_start_frame; reflexivity. }
  cbv beta. intros _ d7 H7. rewrite H6 in H7.
  use_step (acmd41_loop_cs fuel
              (if SDCARD_V2 =? _card_type d6 then Z.lor 0x0 OCR_HCS_CCS
               else 0x0) d7 H7) as looped d8 H8.
  destruct looped as [[status' response]|]; [|apply post_ret; exact H8].
  apply post_bind. eapply post_conseq.
  { apply (post_frame _cs). apply timer_stop_frame; reflexivity. }
  cbv beta. intros _ d9 H9. rewrite H8 in H9.
  destruct (negb (BD_ERROR_OK =? status') || negb (0x00 =? response)).
  { apply post_bind, post_modify, post_ret. exact H9. }
  apply post_bind, post_get.
  destruct (SDCARD_V2 =? _card_type d9).
  - use_step cmd_cs as [st2 rs2] d10 H10. apply post_bind.
    destruct (BD_ERROR_OK =? st2); [destruct (bit_set rs2 OCR_HCS_CCS)|].
    + apply post_modify, post_ret. exact H10.
    + apply post_ret, post_ret. exact H10.
    + apply post_ret, post_ret. exact H10.
  - apply post_bind, post_modify, post_ret. exact H9.
Qed.

(** X8.  Whatever the card does, [init] leaves chip select high. *)
Theorem init_leaves_cs_high fuel d : _cs (snd (init fuel d)) = 1.
Proof.
  change (post (init fuel) d (fun _ d1 => _cs d1 = 1)).
  unfold init. use_step initialise_card_cs as started d1 H1.
  destruct started as [err|]; [|apply post_ret; exact H1].
  apply post_bind, post_modify, post_bind, post_get.
  destruct (negb _); [apply post_ret; exact H1|].
  use_step sd_sectors_cs as sectors d2 H2.
  apply post_bind, post_modify.
  destruct (0 =? sectors); [apply post_ret; exact H2|].
  apply post_bind, post_get.
  use_step cmd_cs as [st r] d3 H3.
  destruct (negb (st =? 0)); [apply post_ret; exact H3|].
  apply post_bind. eapply post_conseq.
  { apply (post_frame _cs). apply freq_frame; reflexivity. }
  cbv beta. intros e d4 H4. rewrite H3 in H4.
  destruct (negb (e =? 0)); apply post_ret; exact H4.
Qed.

(** ** What block operations leave alone, and what [init] sets up *)

Ltac card_type_kept :=
  repeat frame_step_eq;
  try (apply cmd_keeps_card_type; discriminate).

Lemma read_first_keeps_card_type n addr cnt len :
  forall status, preserves _card_type (read_first n addr cnt len status).
Proof.
  induction n as [|n IH]; intros status; cbn [read_first].
  - apply preserves_ret.
  - apply preserves_bind.
    + apply cmd_keeps_card_type. destruct (1 <? cnt); discriminate.
    + intros [st r]. card_type_kept.
Qed.

Lemma read_keeps_card_type addr sz : preserves _card_type (read addr sz).
Proof.
  unfold read. pose proof read_first_keeps_card_type. card_type_kept.
Qed.

Lemma program_keeps_card_type b addr sz :
  preserves _card_type (program b addr sz).
Proof. unfold program. card_type_kept. Qed.

Lemma erase_keeps_card_type addr sz : preserves _card_type (erase addr sz).
Proof. unfold erase. card_type_kept. Qed.

Lemma config_kept {A} (m : M A) :
  preserves _card_type m ->
  preserves (fun d => (_sectors d, _erase_size d, _is_initialized d,
                       _block_size d, _transfer_sck d, _init_sck d,
                       _dbg d)) m ->
  preserves config m.
Proof.
  intros H1 H2 d. specialize (H1 d). specialize (H2 d). cbv beta in H2.
  unfold config. injection H2 as -> -> -> -> -> -> ->. now rewrite H1.
Qed.

(** X6.  Block operations leave the driver's own fields alone: card type,
    geometry, the initialized flag, the clocks and the debug flag. *)
Theorem block_io_keeps_config b addr sz d :
  config (snd (read addr sz d)) = config d
  /\ config (snd (program b addr sz d)) = config d
  /\ config (snd (erase addr sz d)) = config d.
Proof.
  repeat split; apply config_kept;
    auto using read_keeps_card_type, program_keeps_card_type,
               erase_keeps_card_type with frame.
Qed.

Lemma sd_sectors_range d :
  post _sd_sectors d (fun s _ => 0 <= s < 2 ^ 32).
Proof.
  assert (Hu : forall x, 0 <= u32 x < 2 ^ 32).
  { intro x. unfold u32. apply Z.mod_pos_bound. lia. }
  unfold _sd_sectors. skip_step as [st r] d1.
  destruct (negb (st =? 0x0)); [apply post_ret; lia|].
  skip_step as [r' csd] d2.
  destruct (negb (r' =? 0)); [apply post_ret; lia|].
  destruct (ext_bits csd 127 126 =? 0).
  - apply post_bind, post_get. skip_step as x d3. apply post_ret, Hu.
  - destruct (ext_bits csd 127 126 =? 1).
    + skip_step as x d3. apply post_ret, Hu.
    + apply post_ret. lia.
Qed.

Lemma freq_clock d :
  post _freq d
       (fun _ d1 => spi_hz (_spi d1) = _transfer_sck d1
                    /\ _transfer_sck d1 <= 25000000
                    /\ (_sectors d1, _block_size d1, _is_initialized d1)
                       = (_sectors d, _block_size d, _is_initialized d)).
Proof.
  unfold _freq. apply post_bind, post_get.
  destruct (_transfer_sck d <=? 25000000) eqn:E.
  - apply Z.leb_le in E. unfold post. cbn. auto.
  - unfold post. cbn. split; [reflexivity|]. split; [lia|reflexivity].
Qed.

(** X9.  After a successful [init] the device has a size: a positive
    multiple of 512 bytes, [512 * _sectors], below 2^41; and the
    transceiver runs at the transfer clock, 25 MHz at most. *)
Theorem init_success_size_and_clock fuel d d' :
  _block_size d = 512 ->
  init fuel d = (Some BD_ERROR_OK, d') ->
  size d' = 512 * _sectors d'
  /\ 512 <= size d' < 2 ^ 41
  /\ size d' mod 512 = 0
  /\ spi_hz (_spi d') = _transfer_sck d'
  /\ _transfer_sck d' <= 25000000.
Proof.
  intros Hbs Hrun.
  assert (H : post (init fuel) d
            (fun r d1 => r = Some BD_ERROR_OK ->
               0 < _sectors d1 < 2 ^ 32 /\ _block_size d1 = 512
               /\ _is_initialized d1 = true
               /\ spi_hz (_spi d1) = _transfer_sck d1
               /\ _transfer_sck d1 <= 25000000)).
  { unfold init. apply post_bind. eapply post_conseq.
    { apply (post_frame _block_size). auto with frame. }
    cbv beta. intros started d1 Hbs1.
    destruct started as [err|]; [|apply post_ret; discriminate].
    apply post_bind, post_modify, post_bind, post_get.
    cbn [_is_initialized set_is_initialized].
    destruct (Z.eqb_spec err BD_ERROR_OK) as [->|Hne]; cbn [negb].
    2:{ apply post_ret. congruence. }
    apply post_bind. eapply post_conseq.
    { apply post_and; [apply sd_sectors_range|].
      apply (post_frame (fun d => (_is_initialized d, _block_size d))).
      auto with frame. }
    cbv beta. intros sectors d3 [Hs [= Hi3 Hb3]].
    cbn [_is_initialized _block_size set_is_initialized] in Hi3, Hb3.
    apply post_bind, post_modify.
    destruct (Z.eqb_spec 0 sectors) as [<-|Hnz].
    { apply post_ret. discriminate. }
    apply post_bind, post_get.
    apply post_bind. eapply post_conseq.
    { apply (post_frame (fun d => (_sectors d, _block_size d,
                                   _is_initialized d))).
      auto with frame. }
    cbv beta. intros [st r] d4 H4.
    cbn [_sectors _block_size _is_initialized set_sectors] in H4.
    destruct (negb (st =? 0)); [apply post_ret; discriminate|].
    use_step freq_clock as e d5 [Hhz [Hck H5]].
    rewrite H4 in H5. injection H5 as Hs5 Hb5 Hi5.
    destruct (Z.eqb_spec e 0) as [->|Hne]; cbn [negb]; apply post_ret.
    2:{ intros [= E]. contradiction. }
    intros _. repeat split; try congruence; lia. }
  unfold post in H. rewrite Hrun in H. cbn [fst snd] in H.
  destruct (H eq_refl) as (Hs & Hb & Hi & Hhz & Hck).
  assert (Hsize : size d' = 512 * _sectors d').
  { unfold size, u64. rewrite Hi, Hb. apply Z.mod_small. lia. }
  rewrite Hsize. repeat split; try lia; auto.
  rewrite Z.mul_comm. apply Z.mod_mul. lia.
Qed.

(** ** No card on the bus *)

Lemma spi_wait_silent n : forall d, silent d -> silent (snd (_spi_wait n d)).
Proof.
  induction n as [|n IH]; intros d Hd; [exact Hd|].
  cbn [_spi_wait]. rewrite bind_unfold. apply IH.
  now apply spi_write_silent.
Qed.

Lemma spi_init_silent d : silent d -> silent (snd (_spi_init d)).
Proof.
  intros Hd. unfold _spi_init. rewrite !bind_unfold.
  apply spi_wait_silent. exact Hd.
Qed.

Lemma go_idle_loop_S n r :
  go_idle_loop (S n) r
  = ('(_, response) <- _cmd CMD0_GO_IDLE_STATE 0x0 false ;;
     if R1_IDLE_STATE =? response then ret response
     else wait_ms 1 ;;; go_idle_loop n response).
Proof. reflexivity. Qed.

Lemma go_idle_loop_silent n : forall r d,
  silent d ->
  fst (go_idle_loop (S n) r d) = 0xFF.
Proof.
  induction n as [|n IH]; intros r d Hd; rewrite go_idle_loop_S, bind_unfold;
    destruct (cmd_silent CMD0_GO_IDLE_STATE 0x0 false d Hd) as (Hr & Hs & _);
    destruct (_cmd CMD0_GO_IDLE_STATE 0 false d) as [[st rs] d1];
    cbn [fst snd] in *; injection Hr as -> ->;
    change (R1_IDLE_STATE =? 0xFF) with false; cbv iota;
    rewrite bind_unfold.
  - reflexivity.
  - apply IH. exact Hs.
Qed.

(** X10.  No card on the bus: [init] reports that there is no device and
    leaves the driver uninitialized. *)
Theorem init_without_card fuel d :
  silent d ->
  fst (init fuel d) = Some SD_BLOCK_DEVICE_ERROR_NO_DEVICE
  /\ _is_initialized (snd (init fuel d)) = false.
Proof.
  intros Hd.
  assert (H : _initialise_card fuel d
              = (Some SD_BLOCK_DEVICE_ERROR_NO_DEVICE,
                 snd (_initialise_card fuel d))).
  { unfold _initialise_card. rewrite !bind_unfold.
    cbn [modify snd].
    set (d1 := snd (_spi_init _)).
    assert (Hd1 : silent d1) by (apply spi_init_silent; exact Hd).
    unfold _go_idle_state, SD_CMD0_GO_IDLE_STATE_RETRIES.
    rewrite (go_idle_loop_silent 4 0 d1 Hd1).
    change (negb (0xFF =? R1_IDLE_STATE)) with true. cbv iota.
    reflexivity. }
  unfold init. rewrite bind_unfold, H. cbn [fst snd].
  rewrite !bind_unfold. cbn. split; reflexivity.
Qed.

Lemma init_without_card_witness :
  fst (init 8 (fresh [])) = Some SD_BLOCK_DEVICE_ERROR_NO_DEVICE.
Proof.
  apply (init_without_card 8 (fresh [])). reflexivity.
Defined.

(** X11.  The card is gone from under an initialized driver: every block
    operation with valid arguments reports that there is no device. *)
Theorem block_io_without_card b addr sz d :
  silent d ->
  _is_initialized d = true ->
  (is_valid_read addr sz d = true ->
   fst (read addr sz d) = (SD_BLOCK_DEVICE_ERROR_NO_DEVICE, []))
  /\ (is_valid_program addr sz d = true ->
      fst (program b addr sz d) = SD_BLOCK_DEVICE_ERROR_NO_DEVICE)
  /\ (is_valid_erase addr sz d = true ->
      fst (erase addr sz d) = SD_BLOCK_DEVICE_ERROR_NO_DEVICE).
Proof.
  intros Hd Hi. repeat split; intros Hv.
  - unfold read. rewrite bind_unfold. cbn [get fst snd]. rewrite Hv.
    cbn [negb]. rewrite bind_unfold. cbn [get fst snd]. rewrite Hi.
    cbn [negb]. rewrite !bind_unfold. cbn [get fst snd].
    unfold read_first. rewrite bind_unfold.
    match goal with
    | |- context [_cmd ?c ?a false d] =>
        destruct (cmd_silent c a false d Hd) as (Hr & _);
        destruct (_cmd c a false d) as [[st rs] d1]
    end.
    cbn [fst snd] in *. injection Hr as -> ->. reflexivity.
  - unfold program. rewrite bind_unfold. cbn [get fst snd]. rewrite Hv.
    cbn [negb]. rewrite bind_unfold. cbn [get fst snd]. rewrite Hi.
    cbn [negb]. rewrite !bind_unfold. cbn [get fst snd].
    destruct (sz / _block_size d =? 1).
    + rewrite bind_unfold.
      match goal with
      | |- context [_cmd ?c ?a false d] =>
          destruct (cmd_silent c a false d Hd) as (Hr & _);
          destruct (_cmd c a false d) as [[st rs] d1]
      end.
      cbn [fst snd] in *. injection Hr as -> ->. reflexivity.
    + rewrite !bind_unfold.
      match goal with
      | |- context [_cmd ?c ?a true d] =>
          destruct (cmd_silent c a true d Hd) as (_ & Hs & _);
          set (d1 := snd (_cmd c a true d)) in *
      end.
      match goal with
      | |- context [_cmd ?c ?a false d1] =>
          destruct (cmd_silent c a false d1 Hs) as (Hr & _);
          destruct (_cmd c a false d1) as [[st rs] d2]
      end.
      cbn [fst snd] in *. injection Hr as -> ->. reflexivity.
  - unfold erase. rewrite bind_unfold. cbn [get fst snd]. rewrite Hv.
    cbn [negb]. rewrite bind_unfold. cbn [get fst snd]. rewrite Hi.
    cbn [negb]. rewrite !bind_unfold. cbn [get fst snd].
    match goal with
    | |- context [_cmd ?c ?a false d] =>
        destruct (cmd_silent c a false d Hd) as (Hr & _);
        destruct (_cmd c a false d) as [[st rs] d1]
    end.
    cbn [fst snd] in *. injection Hr as -> ->. reflexivity.
Qed.

Lemma block_io_without_card_witness :
  fst (read 0 512 (ready [])) = (SD_BLOCK_DEVICE_ERROR_NO_DEVICE, []).
Proof.
  apply (block_io_without_card [] 0 512 (ready [])); reflexivity.
Defined.

(** ** The deadline of the polling loops *)

Lemma spi_write_clock tx d :
  ticker d <= ticker (snd (spi_write tx d))
  /\ _spi_timer (snd (spi_write tx d)) = _spi_timer d.
Proof.
  unfold spi_write. destruct (miso (_spi d)) as [|[b t] rest]; cbn; split;
    auto; lia.
Qed.

(** One polling loop, from a running stopwatch: it ends with the
    stopwatch stopped, and it only gives up when the stopwatch has
    reached the deadline. *)
Lemma poll_line_outcome hit ms : forall n d,
  t_running (_spi_timer d) = true ->
  (length (miso (_spi d)) + Z.to_nat (ms - elapsed d) < n)%nat ->
  let d' := snd (poll_line hit ms n d) in
  t_running (_spi_timer d') = false
  /\ t_time (_spi_timer d')
     = t_time (_spi_timer d) + (ticker d' - t_start (_spi_timer d))
  /\ (fst (poll_line hit ms n d) = false -> ms <= t_time (_spi_timer d')).
Proof.
  induction n as [|n IH]; intros d Hrun Hn; [lia|].
  cbn [poll_line]. rewrite bind_unfold.
  pose proof (spi_write_clock SPI_FILL_CHAR d) as [Hck Htm].
  assert (Hd1 : (length (miso (_spi (snd (spi_write SPI_FILL_CHAR d))))
                 + Z.to_nat (ms - elapsed (snd (spi_write SPI_FILL_CHAR d)))
                 < n)%nat
                \/ ms <= elapsed (snd (spi_write SPI_FILL_CHAR d))).
  { unfold spi_write, elapsed, slicetime in *.
    destruct (miso (_spi d)) as [|[b t] rest]; cbn in *; rewrite Hrun in *;
      lia. }
  destruct (spi_write SPI_FILL_CHAR d) as [r d1]. cbn [fst snd] in *.
  assert (Hrun1 : t_running (_spi_timer d1) = true) by congruence.
  destruct (hit r).
  - rewrite bind_unfold. unfold timer_stop, slicetime. cbn.
    rewrite Hrun1, Htm. repeat split; try lia; discriminate.
  - rewrite bind_unfold. cbn [timer_read_ms fst snd]. fold (elapsed d1).
    destruct (elapsed d1 <? ms) eqn:Et.
    + apply Z.ltb_lt in Et. destruct Hd1 as [Hd1|Hd1]; [|lia].
      destruct (IH d1 Hrun1 Hd1) as (H1 & H2 & H3).
      rewrite Htm in H2. auto.
    + apply Z.ltb_ge in Et.
      rewrite bind_unfold. unfold timer_stop. cbn.
      unfold elapsed, slicetime in Et. rewrite Hrun1, Htm in Et.
      unfold slicetime. rewrite Hrun1, Htm.
      repeat split; lia.
Qed.

(** X12.  [_wait_ready] and [_wait_token] only give up after their deadline:
    when they return false, at least [ms] (300 for the token)
    milliseconds have passed since the call.  Either way the stopwatch
    is stopped and reads the time the wait took. *)
Theorem waits_give_up_after_deadline ms token d :
  let r := _wait_ready ms d in
  let t := _wait_token token d in
  (t_running (_spi_timer (snd r)) = false
   /\ t_time (_spi_timer (snd r)) = ticker (snd r) - ticker d
   /\ (fst r = false -> ms <= ticker (snd r) - ticker d))
  /\ (t_running (_spi_timer (snd t)) = false
      /\ t_time (_spi_timer (snd t)) = ticker (snd t) - ticker d
      /\ (fst t = false -> 300 <= ticker (snd t) - ticker d)).
Proof.
  cbv zeta. split.
  - unfold _wait_ready. rewrite !bind_unfold. cbn [get fst snd].
    set (d1 := snd (timer_start (snd (timer_reset d)))).
    assert (H1 : t_running (_spi_timer d1) = true
                 /\ t_time (_spi_timer d1) = 0
                 /\ t_start (_spi_timer d1) = ticker d
                 /\ miso (_spi d1) = miso (_spi d) /\ ticker d1 = ticker d).
    { subst d1. unfold timer_start, timer_reset. cbn.
      destruct (t_running (_spi_timer d)); cbn; auto. }
    destruct H1 as (Hrun & Ht & Hs & Hm & Hk).
    destruct (poll_line_outcome (fun response => response =? 0xFF) ms
                (patience ms d1) d1 Hrun) as (Ha & Hb & Hc).
    { unfold patience, elapsed, slicetime. rewrite Hrun, Ht, Hs, Hk. 
      replace (ms - (0 + (ticker d - ticker d))) with ms by lia. lia. }
    rewrite Ht, Hs in Hb. rewrite Hb in Hc. repeat split; auto; lia.
  - unfold _wait_token. rewrite !bind_unfold. cbn [get fst snd].
    set (d1 := snd (timer_start (snd (timer_reset d)))).
    assert (H1 : t_running (_spi_timer d1) = true
                 /\ t_time (_spi_timer d1) = 0
                 /\ t_start (_spi_timer d1) = ticker d
                 /\ miso (_spi d1) = miso (_spi d) /\ ticker d1 = ticker d).
    { subst d1. unfold timer_start, timer_reset. cbn.
      destruct (t_running (_spi_timer d)); cbn; auto. }
    destruct H1 as (Hrun & Ht & Hs & Hm & Hk).
    destruct (poll_line_outcome (Z.eqb token) 300
                (patience 300 d1) d1 Hrun) as (Ha & Hb & Hc).
    { unfold patience, elapsed, slicetime. rewrite Hrun, Ht, Hs, Hk.
      replace (300 - (0 + (ticker d - ticker d))) with 300 by lia. lia. }
    rewrite Ht, Hs in Hb. rewrite Hb in Hc. repeat split; auto; lia.
Qed.

(** ** The fields of the CSD *)

Lemma fold_left_ext_in {A B} (f g : A -> B -> A) (l : list B) :
  (forall a b, In b l -> f a b = g a b) ->
  forall a, fold_left f l a = fold_left g l a.
Proof.
  induction l as [|x l IH]; intros H a; [reflexivity|].
  cbn. rewrite H by now left. apply IH. intros a' b Hb. apply H. now right.
Qed.

Lemma land_1_bit x bit :
  0 <= bit -> Z.land (Z.shiftr x bit) 1 = Z.b2z (Z.testbit x bit).
Proof.
  intros Hb. change 1 with (Z.ones 1). rewrite Z.land_ones by lia.
  change (2 ^ 1) with 2. rewrite <- Z.bit0_mod, Z.shiftr_spec by lia.
  reflexivity.
Qed.

Lemma fold_bits (val : Z -> bool) : forall n,
  (n <= 32)%nat ->
  let v := fold_left (fun bits i => Z.lor bits (u32 (Z.shiftl (Z.b2z (val i)) i)))
                     (map Z.of_nat (seq 0 n)) 0 in
  0 <= v < 2 ^ Z.of_nat n
  /\ forall j, 0 <= j -> Z.testbit v j = (j <? Z.of_nat n) && val j.
Proof.
  induction n as [|n IH]; intros Hn; cbv zeta.
  - cbn. split; [lia|]. intros j Hj. rewrite Z.bits_0.
    destruct (j <? 0) eqn:E; [apply Z.ltb_lt in E; lia|reflexivity].
  - rewrite seq_S, map_app, fold_left_app. cbn [map fold_left Nat.add].
    destruct (IH ltac:(lia)) as [Hb Hbits]. cbv zeta in Hb, Hbits.
    set (acc := fold_left _ (map Z.of_nat (seq 0 n)) 0) in *.
    assert (Hsh : u32 (Z.shiftl (Z.b2z (val (Z.of_nat n))) (Z.of_nat n))
                  = Z.b2z (val (Z.of_nat n)) * 2 ^ Z.of_nat n).
    { rewrite Z.shiftl_mul_pow2 by lia. unfold u32. apply Z.mod_small.
      assert (2 ^ Z.of_nat n < 2 ^ 32)
        by (apply Z.pow_lt_mono_r; lia).
      destruct (val (Z.of_nat n)); cbn [Z.b2z]; lia. }
    rewrite Hsh.
    assert (Hp : 2 ^ Z.of_nat (S n) = 2 * 2 ^ Z.of_nat n).
    { rewrite Nat2Z.inj_succ, Z.pow_succ_r by lia. reflexivity. }
    split.
    + split; [apply Z.lor_nonneg; split; [lia|] |].
      * destruct (val (Z.of_nat n)); cbn [Z.b2z]; lia.
      * pose proof (Z.add_lor_land acc
                      (Z.b2z (val (Z.of_nat n)) * 2 ^ Z.of_nat n)) as Ha.
        assert (0 <= Z.land acc (Z.b2z (val (Z.of_nat n)) * 2 ^ Z.of_nat n)).
        { apply Z.land_nonneg. left. lia. }
        destruct (val (Z.of_nat n)); cbn [Z.b2z] in *; lia.
    + intros j Hj. rewrite Z.lor_spec, Hbits by lia.
      rewrite <- Z.shiftl_mul_pow2 by lia.
      rewrite Z.shiftl_spec by lia.
      destruct (Z.ltb_spec j (Z.of_nat n)); destruct (Z.ltb_spec j (Z.of_nat (S n)));
        try lia; cbn [andb orb].
      * rewrite Z.testbit_neg_r by lia. apply orb_false_r.
      * replace j with (Z.of_nat n) by lia. rewrite Z.sub_diag.
        destruct (val (Z.of_nat n)); reflexivity.
      * destruct (val (Z.of_nat n)); cbn [Z.b2z].
        -- change 1 with (2 ^ 0). rewrite Z.pow2_bits_false by lia.
           reflexivity.
        -- apply Z.bits_0.
Qed.

Lemma ext_bits_fold data msb lsb :
  0 <= lsb -> lsb <= msb -> msb <= 127 -> msb - lsb < 32 ->
  ext_bits data msb lsb
  = fold_left (fun bits i =>
                 Z.lor bits (u32 (Z.shiftl (Z.b2z (csd_bit data (lsb + i))) i)))
              (map Z.of_nat (seq 0 (Z.to_nat (msb - lsb + 1)))) 0.
Proof.
  intros H0 H1 H2 H3. unfold ext_bits.
  replace (u32 (1 + msb - lsb)) with (msb - lsb + 1)
    by (unfold u32; rewrite Z.mod_small; lia).
  apply fold_left_ext_in. intros bits i Hi.
  apply in_map_iff in Hi. destruct Hi as (k & <- & Hk).
  apply in_seq in Hk.
  assert (Hr : 0 <= lsb + Z.of_nat k <= 127) by lia.
  set (p := lsb + Z.of_nat k) in *.
  assert (Hp : u32 p = p) by (unfold u32; apply Z.mod_small; lia).
  rewrite Hp.
  assert (Hdiv : 0 <= p / 8 <= 15).
  { split; [apply Z.div_pos; lia|].
    assert (p / 8 < 16) by (apply Z.div_lt_upper_bound; lia). lia. }
  rewrite (Z.shiftr_div_pow2 p 3) by lia. change (2 ^ 3) with 8.
  replace (u32 (15 - p / 8)) with (15 - p / 8)
    by (unfold u32; rewrite Z.mod_small; lia).
  change 0x7 with (Z.ones 3). rewrite Z.land_ones by lia.
  change (2 ^ 3) with 8.
  rewrite land_1_bit by (apply Z.mod_pos_bound; lia).
  reflexivity.
Qed.

(** [ext_bits] yields the bits [msb..lsb] of the register, lowest
    first: bit [j] of the result is bit [lsb + j] of the register for
    [j <= msb - lsb], and no bit above is set. *)
Lemma ext_bits_spec data msb lsb :
  0 <= lsb -> lsb <= msb -> msb <= 127 -> msb - lsb < 32 ->
  0 <= ext_bits data msb lsb < 2 ^ (msb - lsb + 1)
  /\ forall j, 0 <= j ->
       Z.testbit (ext_bits data msb lsb) j
       = (j <=? msb - lsb) && csd_bit data (lsb + j).
Proof.
  intros H0 H1 H2 H3. rewrite ext_bits_fold by assumption.
  destruct (fold_bits (fun i => csd_bit data (lsb + i))
              (Z.to_nat (msb - lsb + 1)) ltac:(lia)) as [Hb Hbits].
  cbv zeta in Hb, Hbits. rewrite Z2Nat.id in Hb, Hbits by lia.
  split; [exact Hb|]. intros j Hj. rewrite Hbits by lia.
  f_equal. destruct (Z.ltb_spec j (msb - lsb + 1));
    destruct (Z.leb_spec j (msb - lsb)); auto; lia.
Qed.

Lemma csd_value_app l b : csd_value (l ++ [b]) = csd_value l * 256 + b.
Proof. unfold csd_value. rewrite fold_left_app. reflexivity. Qed.

Lemma csd_value_testbit : forall l,
  Forall is_byte l ->
  forall p, 0 <= p < 8 * Z.of_nat (length l) ->
  Z.testbit (csd_value l) p
  = Z.testbit (nth (length l - 1 - Z.to_nat (p / 8)) l 0) (p mod 8).
Proof.
  induction l as [|b l IH] using rev_ind; intros Hl p Hp.
  - cbn in Hp. lia.
  - apply Forall_app in Hl. destruct Hl as [Hl Hb].
    inversion Hb as [|? ? Hb' _]; subst. unfold is_byte in Hb'.
    rewrite csd_value_app, length_app in *. cbn [length] in *.
    destruct (Z.lt_ge_cases p 8) as [Hlow|Hhigh].
    + rewrite Z.div_small, Z.mod_small by lia. cbn [Z.to_nat].
      replace (length l + 1 - 1 - 0)%nat with (length l) by lia.
      rewrite nth_middle.
      rewrite <- (Z.mod_pow2_bits_low (csd_value l * 256 + b) 8 p) by lia.
      change (2 ^ 8) with 256.
      rewrite Z.add_comm, Z.mod_add, Z.mod_small by lia. reflexivity.
    + assert (Hq : 1 <= p / 8) by (apply Z.div_le_lower_bound; lia).
      assert (Hq' : p / 8 < Z.of_nat (length l) + 1)
        by (apply Z.div_lt_upper_bound; lia).
      replace p with ((p - 8) + 8) at 1 by lia.
      rewrite <- Z.div_pow2_bits by lia. change (2 ^ 8) with 256.
      rewrite Z.div_add_l, (Z.div_small b 256), Z.add_0_r by lia.
      rewrite IH by (auto; lia).
      replace ((p - 8) / 8) with (p / 8 - 1).
      2:{ replace (p - 8) with (p + (-1) * 8) by lia.
          rewrite Z.div_add by lia. lia. }
      replace ((p - 8) mod 8) with (p mod 8).
      2:{ replace (p - 8) with (p + (-1) * 8) by lia.
          now rewrite Z.mod_add by lia. }
      rewrite app_nth1 by lia.
      f_equal. f_equal. lia.
Qed.

Lemma csd_value_bit data p :
  length data = 16%nat -> Forall is_byte data -> 0 <= p < 128 ->
  Z.testbit (csd_value data) p = csd_bit data p.
Proof.
  intros Hlen Hb Hp. rewrite csd_value_testbit by (auto; lia).
  unfold csd_bit. rewrite Hlen.
  assert (0 <= p / 8 < 16).
  { split; [apply Z.div_pos; lia | apply Z.div_lt_upper_bound; lia]. }
  f_equal. f_equal. lia.
Qed.

(** X13.  [ext_bits] reads a field of the register: with the 16 bytes taken
    as one 128-bit number, byte 0 first, the field [msb..lsb] is that
    number shifted right by [lsb] and cut to [msb - lsb + 1] bits. *)
Theorem ext_bits_value data msb lsb :
  length data = 16%nat -> Forall is_byte data ->
  0 <= lsb -> lsb <= msb -> msb <= 127 -> msb - lsb < 32 ->
  ext_bits data msb lsb
  = (csd_value data / 2 ^ lsb) mod 2 ^ (msb - lsb + 1).
Proof.
  intros Hlen Hb H0 H1 H2 H3.
  destruct (ext_bits_spec data msb lsb H0 H1 H2 H3) as [_ Hbits].
  apply Z.bits_inj'. intros j Hj. rewrite Hbits by lia.
  destruct (Z.leb_spec j (msb - lsb)); cbn [andb].
  - rewrite Z.mod_pow2_bits_low, Z.div_pow2_bits by lia.
    rewrite csd_value_bit by (auto; lia). f_equal. lia.
  - rewrite Z.mod_pow2_bits_high by lia. reflexivity.
Qed.

Lemma ext_bits_value_witness :
  ext_bits csd_v1_example 73 62
  = (csd_value csd_v1_example / 2 ^ 62) mod 2 ^ 12.
Proof.
  apply (ext_bits_value csd_v1_example 73 62); try lia; try reflexivity.
  repeat constructor; unfold is_byte; lia.
Defined.

Lemma ext_bits_range data msb lsb :
  0 <= lsb -> lsb <= msb -> msb <= 127 -> msb - lsb < 32 ->
  0 <= ext_bits data msb lsb < 2 ^ (msb - lsb + 1).
Proof. intros. now apply ext_bits_spec. Qed.

(** X14.  What [_sd_sectors] makes of a CSD it has received.  Version 1: the
    capacity [(c_size + 1) * 2^(c_size_mult + 2) * 2^read_bl_len] is
    kept modulo 2^32 before it is divided by the block size, and the
    erase size is 512 or the sector size field if that is larger.
    Version 2: [(c_size + 1) * 1024] sectors modulo 2^32, erase size
    512.  Any other version: no sectors. *)
Theorem sd_sectors_decodes d r d1 csd d2 :
  _block_size d = 512 ->
  _cmd CMD9_SEND_CSD 0x0 false d = ((0, r), d1) ->
  _read_bytes 16 d1 = ((0, csd), d2) ->
  let sectors := fst (_sd_sectors d) in
  let erase := _erase_size (snd (_sd_sectors d)) in
  match ext_bits csd 127 126 with
  | 0 =>
      sectors
      = ((ext_bits csd 73 62 + 1) * 2 ^ (ext_bits csd 49 47 + 2)
         * 2 ^ ext_bits csd 83 80) mod 2 ^ 32 / 512
      /\ erase = (if ext_bits csd 46 46 =? 0
                  then Z.max 512 (ext_bits csd 45 39) else 512)
  | 1 =>
      sectors = ((ext_bits csd 69 48 + 1) * 1024) mod 2 ^ 32
      /\ erase = 512
  | _ => sectors = 0 /\ erase = _erase_size d
  end.
Proof.
  intros Hbs Hcmd Hread.
  assert (Hbs2 : _block_size d2 = 512).
  { replace d2 with (snd (_read_bytes 16 d1)) by now rewrite Hread.
    rewrite read_bytes_frame by reflexivity.
    replace d1 with (snd (_cmd CMD9_SEND_CSD 0x0 false d)) by now rewrite Hcmd.
    rewrite cmd_frame by reflexivity. exact Hbs. }
  assert (Hes2 : _erase_size d2 = _erase_size d).
  { replace d2 with (snd (_read_bytes 16 d1)) by now rewrite Hread.
    rewrite read_bytes_frame by reflexivity.
    replace d1 with (snd (_cmd CMD9_SEND_CSD 0x0 false d)) by now rewrite Hcmd.
    rewrite cmd_frame by reflexivity. reflexivity. }
  cbv zeta.
  unfold _sd_sectors. rewrite bind_unfold, Hcmd. cbn [fst snd].
  change (negb (0 =? 0x0)) with false. cbv iota.
  rewrite bind_unfold, Hread. cbn [fst snd].
  change (negb (0 =? 0)) with false. cbv iota.
  pose proof (ext_bits_range csd 73 62 ltac:(lia) ltac:(lia) ltac:(lia)
                ltac:(lia)) as Hc.
  pose proof (ext_bits_range csd 49 47 ltac:(lia) ltac:(lia) ltac:(lia)
                ltac:(lia)) as Hm.
  pose proof (ext_bits_range csd 83 80 ltac:(lia) ltac:(lia) ltac:(lia)
                ltac:(lia)) as Hl.
  pose proof (ext_bits_range csd 69 48 ltac:(lia) ltac:(lia) ltac:(lia)
                ltac:(lia)) as Hh.
  pose proof (ext_bits_range csd 45 39 ltac:(lia) ltac:(lia) ltac:(lia)
                ltac:(lia)) as He.
  pose proof (ext_bits_range csd 127 126 ltac:(lia) ltac:(lia) ltac:(lia)
                ltac:(lia)) as Hv.
  set (c := ext_bits csd 73 62) in *. set (m := ext_bits csd 49 47) in *.
  set (l := ext_bits csd 83 80) in *. set (h := ext_bits csd 69 48) in *.
  set (e := ext_bits csd 45 39) in *. set (v := ext_bits csd 127 126) in *.
  change (2 ^ (73 - 62 + 1)) with 4096 in Hc.
  change (2 ^ (49 - 47 + 1)) with 8 in Hm.
  change (2 ^ (83 - 80 + 1)) with 16 in Hl.
  change (2 ^ (69 - 48 + 1)) with 4194304 in Hh.
  change (2 ^ (127 - 126 + 1)) with 4 in Hv.
  assert (Hv' : v = 0 \/ v = 1 \/ v = 2 \/ v = 3) by lia.
  destruct Hv' as [E|[E|[E|E]]]; rewrite E; cbn [Z.eqb Pos.eqb].
  - rewrite !bind_unfold. cbn [get fst snd ret]. rewrite Hbs2.
    assert (Hu : forall x, 0 <= x < 2 ^ 32 -> u32 x = x)
      by (intros; unfold u32; now apply Z.mod_small).
    assert (Hpl : 0 < 2 ^ l <= 2 ^ 15)
      by (split; [apply Z.pow_pos_nonneg; lia
                 | apply Z.pow_le_mono_r; lia]).
    assert (Hpm : 0 < 2 ^ (m + 2) <= 2 ^ 9)
      by (split; [apply Z.pow_pos_nonneg; lia
                 | apply Z.pow_le_mono_r; lia]).
    rewrite !Z.shiftl_1_l.
    rewrite (Hu (2 ^ l)) by lia. rewrite (Hu (2 ^ (m + 2))) by lia.
    rewrite (Hu ((c + 1) * 2 ^ (m + 2))) by nia.
    split.
    + apply Hu. split.
      * apply Z.div_pos; [|lia]. apply Z.mod_pos_bound. reflexivity.
      * apply Z.div_lt_upper_bound; [lia|].
        pose proof (Z.mod_pos_bound ((c + 1) * 2 ^ (m + 2) * 2 ^ l)
                      (2 ^ 32) eq_refl) as [_ H].
        unfold u32. eapply Z.lt_trans; [exact H | reflexivity].
    + destruct (ext_bits csd 46 46 =? 0); cbn [negb].
      * rewrite !bind_unfold. cbn [modify get fst snd _erase_size
                                   set_erase_size].
        fold e. destruct (Z.ltb_spec e 512);
          cbn [modify ret fst snd _erase_size set_erase_size]; lia.
      * cbn. reflexivity.
  - rewrite !bind_unfold. cbn [modify fst snd ret _erase_size set_erase_size].
    split; [|reflexivity].
    assert (Hu : forall x, 0 <= x < 2 ^ 32 -> u32 x = x)
      by (intros; unfold u32; now apply Z.mod_small).
    rewrite (Hu (h + 1)) by lia.
    rewrite Z.shiftl_mul_pow2 by lia. change (2 ^ 10) with 1024.
    unfold u32. rewrite Z.mod_mod by lia. reflexivity.
  - cbn. auto.
  - cbn. auto.
Qed.

Lemma sd_sectors_decodes_witness :
  fst (_sd_sectors csd_v1_card)
  = ((3913 + 1) * 2 ^ (7 + 2) * 2 ^ 9) mod 2 ^ 32 / 512.
Proof.
  refine (proj1 (sd_sectors_decodes csd_v1_card
            (snd (fst (_cmd CMD9_SEND_CSD 0x0 false csd_v1_card)))
            (snd (_cmd CMD9_SEND_CSD 0x0 false csd_v1_card))
            csd_v1_example
            (snd (_read_bytes 16
                    (snd (_cmd CMD9_SEND_CSD 0x0 false csd_v1_card))))
            _ _ _)); vm_compute; reflexivity.
Defined.

(** ** The first command of an operation *)

Lemma sends_ret {A} (a : A) : sends (ret a).
Proof. intro d. exists []. cbn. now rewrite app_nil_r. Qed.

Lemma sends_get {A} (f : SD -> A) : sends (get f).
Proof. intro d. exists []. cbn. now rewrite app_nil_r. Qed.

Lemma sends_bind {A B} (m : M A) (k : A -> M B) :
  sends m -> (forall a, sends (k a)) -> sends (bind m k).
Proof.
  intros Hm Hk d. rewrite bind_unfold.
  destruct (Hm d) as [t1 H1]. destruct (Hk (fst (m d)) (snd (m d))) as [t2 H2].
  exists (t1 ++ t2). now rewrite H2, H1, app_assoc.
Qed.

Lemma sends_quiet {A} (m : M A) :
  preserves (fun d => mosi (_spi d)) m -> sends m.
Proof. intros H d. exists []. rewrite app_nil_r. apply H. Qed.

Lemma sends_spi_write tx : sends (spi_write tx).
Proof. intro d. exists [u8 tx]. apply spi_write_mosi. Qed.

Lemma quiet_modify (g : SD -> SD) :
  (forall d, _spi (g d) = _spi d) -> sends (modify g).
Proof. intros H d. exists []. cbn. now rewrite H, app_nil_r. Qed.

Ltac sends_step :=
  lazymatch goal with
  | |- sends (bind _ _) => apply sends_bind; [ | intros ]
  | |- sends (ret _) => apply sends_ret
  | |- sends (get _) => apply sends_get
  | |- sends (spi_write _) => apply sends_spi_write
  | |- sends (modify _) => apply quiet_modify; reflexivity
  | |- sends (if ?c then _ else _) => destruct c
  | |- sends (match ?x with _ => _ end) => destruct x
  | |- sends _ => first [ assumption | solve [ auto with sends ] ]
  end.
Ltac sends_all := repeat sends_step.

Create HintDb sends discriminated.

Lemma sends_timer_start : sends timer_start.
Proof. apply sends_quiet, timer_start_frame; reflexivity. Qed.
Lemma sends_timer_stop : sends timer_stop.
Proof. apply sends_quiet, timer_stop_frame; reflexivity. Qed.
Lemma sends_timer_reset : sends timer_reset.
Proof. apply sends_quiet, timer_reset_frame; reflexivity. Qed.
Lemma sends_timer_read_ms : sends timer_read_ms.
Proof. apply sends_get. Qed.
Lemma sends_select : sends _select.
Proof. apply quiet_modify. reflexivity. Qed.
Lemma sends_deselect : sends _deselect.
Proof. apply quiet_modify. reflexivity. Qed.
#[global] Hint Resolve sends_timer_start sends_timer_stop sends_timer_reset
  sends_timer_read_ms sends_select sends_deselect sends_spi_write : sends.

Lemma sends_poll_line hit ms n : sends (poll_line hit ms n).
Proof. induction n; cbn [poll_line]; sends_all. Qed.
#[global] Hint Resolve sends_poll_line : sends.

Lemma sends_wait_ready ms : sends (_wait_ready ms).
Proof. unfold _wait_ready. sends_all. Qed.
Lemma sends_wait_token token : sends (_wait_token token).
Proof. unfold _wait_token. sends_all. Qed.
Lemma sends_spi_send bytes : sends (spi_send bytes).
Proof. induction bytes; cbn [spi_send]; sends_all. Qed.
Lemma sends_r1_poll n : forall r, sends (r1_poll n r).
Proof. induction n; intros r; cbn [r1_poll]; sends_all. Qed.
#[global] Hint Resolve sends_wait_ready sends_wait_token sends_spi_send
  sends_r1_poll : sends.

Lemma sends_cmd_spi cmd arg : sends (_cmd_spi cmd arg).
Proof. unfold _cmd_spi. sends_all. Qed.
#[global] Hint Resolve sends_cmd_spi : sends.

Lemma sends_cmd_retry n cmd arg isAcmd : forall r,
  sends (cmd_retry n cmd arg isAcmd r).
Proof. induction n; intros r; cbn [cmd_retry]; sends_all. Qed.
Lemma sends_read_r3_r7 : sends read_r3_r7.
Proof. unfold read_r3_r7. sends_all. Qed.
Lemma sends_read_loop n : sends (read_loop n).
Proof. induction n; cbn [read_loop]; sends_all. Qed.
Lemma sends_spi_exchanges n : forall tx, sends (spi_exchanges n tx).
Proof. induction n; intros tx; cbn [spi_exchanges]; sends_all. Qed.
#[global] Hint Resolve sends_cmd_retry sends_read_r3_r7 sends_read_loop
  sends_spi_exchanges : sends.

Lemma sends_spi_write_block tx a b : sends (spi_write_block tx a b).
Proof. unfold spi_write_block. sends_all. Qed.
#[global] Hint Resolve sends_spi_write_block : sends.

Lemma sends_cmd cmd arg isAcmd : sends (_cmd cmd arg isAcmd).
Proof. unfold _cmd. sends_all. Qed.
Lemma sends_read n : sends (_read n).
Proof. unfold _read. sends_all. Qed.
Lemma sends_read_bytes n : sends (_read_bytes n).
Proof. unfold _read_bytes. sends_all. Qed.
Lemma sends_write buffer token n : sends (_write buffer token n).
Proof. unfold _write. sends_all. Qed.
#[global] Hint Resolve sends_cmd sends_read sends_read_bytes sends_write
  : sends.

Lemma sends_write_blocks n : forall buffer len,
  sends (write_blocks n buffer len).
Proof. induction n; intros buffer len; cbn [write_blocks]; sends_all. Qed.
Lemma sends_read_rest n len status : sends (read_rest n len status).
Proof. induction n; cbn [read_rest]; sends_all. Qed.
Lemma sends_read_first n addr cnt len : forall status,
  sends (read_first n addr cnt len status).
Proof. induction n; intros status; cbn [read_first]; sends_all. Qed.
#[global] Hint Resolve sends_write_blocks sends_read_rest sends_read_first
  : sends.

(** The polling loops send fill bytes, one at least. *)
Lemma poll_line_fills0 hit ms : forall n d,
  exists k, mosi (_spi (snd (poll_line hit ms n d)))
            = mosi (_spi d) ++ repeat 0xFF k.
Proof.
  assert (Hstop : forall (b : bool) d, mosi (_spi (snd ((timer_stop ;;; ret b) d)))
                              = mosi (_spi d)) by reflexivity.
  induction n as [|n IH]; intros d.
  - exists 0%nat. cbn. now rewrite app_nil_r.
  - cbn [poll_line]. rewrite bind_unfold.
    pose proof (spi_write_mosi SPI_FILL_CHAR d) as Hm.
    destruct (spi_write SPI_FILL_CHAR d) as [r d1]. cbn [fst snd] in *.
    destruct (hit r).
    + exists 1%nat. rewrite Hstop. exact Hm.
    + rewrite bind_unfold. cbn [timer_read_ms fst snd].
      destruct (_ <? _).
      * destruct (IH d1) as [k Hk]. exists (S k).
        rewrite Hk, Hm, <- app_assoc. reflexivity.
      * exists 1%nat. rewrite Hstop. exact Hm.
Qed.

Lemma poll_line_fills hit ms n d :
  exists k, mosi (_spi (snd (poll_line hit ms (S n) d)))
            = mosi (_spi d) ++ repeat 0xFF (S k).
Proof.
  assert (Hstop : forall (b : bool) d, mosi (_spi (snd ((timer_stop ;;; ret b) d)))
                              = mosi (_spi d)) by reflexivity.
  cbn [poll_line]. rewrite bind_unfold.
  pose proof (spi_write_mosi SPI_FILL_CHAR d) as Hm.
  destruct (spi_write SPI_FILL_CHAR d) as [r d1]. cbn [fst snd] in *.
  destruct (hit r).
  - exists 0%nat. rewrite Hstop. exact Hm.
  - rewrite bind_unfold. cbn [timer_read_ms fst snd].
    destruct (_ <? _).
    + destruct (poll_line_fills0 hit ms n d1) as [k Hk]. exists k.
      rewrite Hk, Hm, <- app_assoc. reflexivity.
    + exists 0%nat. rewrite Hstop. exact Hm.
Qed.

Lemma wait_ready_fills ms d :
  exists k, mosi (_spi (snd (_wait_ready ms d)))
            = mosi (_spi d) ++ repeat 0xFF (S k).
Proof.
  unfold _wait_ready. rewrite !bind_unfold. unfold get at 1, patience.
  cbn [fst snd].
  set (d1 := snd (timer_start (snd (timer_reset d)))).
  assert (H1 : mosi (_spi d1) = mosi (_spi d)).
  { subst d1.
    rewrite (timer_start_frame (fun d => mosi (_spi d))) by reflexivity.
    apply (timer_reset_frame (fun d => mosi (_spi d))). reflexivity. }
  destruct (poll_line_fills (fun response => response =? 0xFF) ms
              (length (miso (_spi d1)) + Z.to_nat ms) d1) as [k Hk].
  exists k. unfold get. cbn [snd]. rewrite Hk, H1. reflexivity.
Qed.

Lemma starts_exact {A} (m : M A) d pre :
  mosi (_spi (snd (m d))) = mosi (_spi d) ++ pre -> starts m d pre.
Proof. intros H. exists []. now rewrite app_nil_r. Qed.

Lemma starts_bind_l {A B} (m : M A) (k : A -> M B) d pre :
  starts m d pre -> (forall a, sends (k a)) -> starts (bind m k) d pre.
Proof.
  intros [r1 H1] Hk. unfold starts.
  rewrite bind_unfold.
  destruct (Hk (fst (m d)) (snd (m d))) as [r2 H2].
  exists (r1 ++ r2). rewrite H2, H1. now rewrite <- !app_assoc.
Qed.

Lemma starts_bind_r {A B} (m : M A) (k : A -> M B) d p1 p2 :
  mosi (_spi (snd (m d))) = mosi (_spi d) ++ p1 ->
  starts (k (fst (m d))) (snd (m d)) p2 ->
  starts (bind m k) d (p1 ++ p2).
Proof.
  intros H1 [r H2]. unfold starts. rewrite bind_unfold.
  exists r. rewrite H2, H1. now rewrite <- !app_assoc.
Qed.

Lemma starts_skip {A B} (m : M A) (k : A -> M B) d p :
  mosi (_spi (snd (m d))) = mosi (_spi d) ->
  starts (k (fst (m d))) (snd (m d)) p ->
  starts (bind m k) d p.
Proof.
  intros H1 [r H2]. unfold starts. rewrite bind_unfold.
  exists r. now rewrite H2, H1.
Qed.

Lemma cmd_spi_starts cmd arg d : starts (_cmd_spi cmd arg) d (packet cmd arg).
Proof.
  unfold _cmd_spi. apply starts_bind_l; [|intros; sends_all].
  apply starts_exact. rewrite spi_send_mosi, cmdPacket_bytes. reflexivity.
Qed.

Lemma cmd_retry_starts n cmd arg isAcmd r d :
  starts (cmd_retry (S n) cmd arg isAcmd r) d
         (if isAcmd then packet 55 0 else packet cmd arg).
Proof.
  cbn [cmd_retry]. destruct isAcmd.
  - apply starts_bind_l; [|intros; sends_all].
    apply starts_bind_l; [|intros; sends_all].
    apply cmd_spi_starts.
  - apply starts_skip; [reflexivity|].
    apply starts_bind_l; [|intros; sends_all].
    apply cmd_spi_starts.
Qed.

(** What [_cmd] puts on the wire first: fill bytes while it waits for
    the card to be ready, then the packet -- of CMD55 for an
    application command, of the command itself otherwise. *)
Lemma cmd_starts cmd arg isAcmd d :
  exists k,
    starts (_cmd cmd arg isAcmd) d
      (repeat 0xFF (S k)
       ++ (if isAcmd then packet 55 0 else packet cmd arg)).
Proof.
  unfold _cmd.
  destruct (wait_ready_fills SD_COMMAND_TIMEOUT (snd (_select d))) as [k Hk].
  exists k.
  apply starts_skip; [reflexivity|]. cbv beta.
  apply starts_bind_r; [exact Hk|].
  apply starts_bind_l; [apply cmd_retry_starts|].
  intros; sends_all.
Qed.

Ltac skip_get :=
  apply starts_skip; [reflexivity|]; cbn [get fst snd].

(** X16.  The first command of a block operation and the address it carries:
    the block number on a high capacity card, the byte address on any
    other.  The operation is chosen by [sz / 512] alone, so a transfer
    of no bytes at all still sends the single block read. *)
Theorem block_commands_carry_address b addr sz d :
  _is_initialized d = true ->
  _block_size d = 512 ->
  let a := u32 (if SDCARD_V2HC =? _card_type d then addr / 512 else addr) in
  (is_valid_read addr sz d = true ->
   exists k, starts (read addr sz) d
     (repeat 0xFF (S k) ++ packet (if 1 <? sz / 512 then 18 else 17) a)) /\
  (is_valid_program addr sz d = true ->
   exists k, starts (program b addr sz) d
     (repeat 0xFF (S k)
      ++ (if sz / 512 =? 1 then packet 24 a else packet 55 0))) /\
  (is_valid_erase addr sz d = true ->
   exists k, starts (erase addr sz) d (repeat 0xFF (S k) ++ packet 32 a)).
Proof.
  intros Hinit Hbs a. repeat split; intros Hvalid.
  - set (op := if 1 <? sz / 512 then 18 else 17).
    destruct (cmd_starts op a false d) as [k Hk]. exists k.
    unfold read. skip_get. rewrite Hvalid. cbn [negb].
    skip_get. rewrite Hinit. cbn [negb].
    skip_get. skip_get. rewrite Hbs.
    apply starts_bind_l; [|intros; sends_all].
    change (Z.to_nat 512) with 512%nat. cbn [read_first].
    apply starts_bind_l; [|intros; sends_all].
    subst op a. unfold CMD18_READ_MULTIPLE_BLOCK, CMD17_READ_SINGLE_BLOCK.
    destruct (1 <? sz / 512); exact Hk.
  - unfold program. destruct (Z.eqb_spec (sz / 512) 1) as [E|E].
    + destruct (cmd_starts 24 a false d) as [k Hk]. exists k.
      skip_get. rewrite Hvalid. cbn [negb].
      skip_get. rewrite Hinit. cbn [negb].
      skip_get. skip_get. rewrite Hbs, E. cbn [Z.eqb Pos.eqb].
      apply starts_bind_l; [exact Hk|intros; sends_all].
    + destruct (cmd_starts 23 (u32 (sz / 512)) true d) as [k Hk]. exists k.
      skip_get. rewrite Hvalid. cbn [negb].
      skip_get. rewrite Hinit. cbn [negb].
      skip_get. skip_get. rewrite Hbs.
      destruct (Z.eqb_spec (sz / 512) 1) as [|_]; [contradiction|].
      apply starts_bind_l; [exact Hk|intros; sends_all].
  - destruct (cmd_starts 32 a false d) as [k Hk]. exists k.
    unfold erase. skip_get. rewrite Hvalid. cbn [negb].
    skip_get. rewrite Hinit. cbn [negb].
    skip_get. skip_get. rewrite Hbs.
    apply starts_bind_l; [exact Hk|intros; sends_all].
Qed.

(** ** Transfers with a card that answers at once *)

Lemma xfer_quiet d d' : _spi d' = _spi d -> xfer d d' [].
Proof.
  intros H. unfold xfer, incoming. rewrite H, app_nil_r. auto.
Qed.

Lemma xfer_trans d d1 d2 t1 t2 :
  xfer d d1 t1 -> xfer d1 d2 t2 -> xfer d d2 (t1 ++ t2).
Proof.
  intros (H1 & F1 & I1) (H2 & F2 & I2). repeat split.
  - now rewrite H2, H1, app_assoc.
  - congruence.
  - intro i. rewrite I2, I1, length_app. f_equal. lia.
Qed.

Lemma xfer_spi_write tx d : xfer d (snd (spi_write tx d)) [u8 tx].
Proof.
  repeat split.
  - apply spi_write_mosi.
  - unfold spi_write. destruct (miso (_spi d)) as [|[b t] rest]; reflexivity.
  - intro i. apply spi_write_incoming.
Qed.

Lemma xfer_stopwatch d : xfer d (snd (timer_start (snd (timer_reset d)))) [].
Proof.
  apply xfer_quiet.
  rewrite (timer_start_frame _spi) by reflexivity.
  apply (timer_reset_frame _spi). reflexivity.
Qed.

(** A polling loop whose first byte is the awaited one. *)
Lemma poll_line_hit hit ms n d :
  hit (incoming d 0) = true ->
  fst (poll_line hit ms (S n) d) = true /\
  xfer d (snd (poll_line hit ms (S n) d)) [0xFF].
Proof.
  intros Hhit. cbn [poll_line]. rewrite bind_unfold.
  pose proof (spi_write_result SPI_FILL_CHAR d) as Hr.
  pose proof (xfer_spi_write SPI_FILL_CHAR d) as Hx.
  destruct (spi_write SPI_FILL_CHAR d) as [r d1]. cbn [fst snd] in *.
  rewrite Hr, Hhit. split; [reflexivity|].
  change [0xFF] with ([u8 SPI_FILL_CHAR] ++ []).
  eapply xfer_trans; [exact Hx|]. apply xfer_quiet. reflexivity.
Qed.

Lemma wait_ready_hit ms d :
  incoming d 0 = 0xFF ->
  fst (_wait_ready ms d) = true /\ xfer d (snd (_wait_ready ms d)) [0xFF].
Proof.
  intros H0. unfold _wait_ready. rewrite !bind_unfold.
  unfold get at 1 2, patience. cbn [fst snd].
  pose proof (xfer_stopwatch d) as Hx.
  set (d1 := snd (timer_start (snd (timer_reset d)))) in *.
  destruct (poll_line_hit (fun response => response =? 0xFF) ms
              (length (miso (_spi d1)) + Z.to_nat ms) d1) as [Hr Hp].
  { destruct Hx as (_ & _ & Hi). cbv beta. rewrite Hi. cbn [length Nat.add]. rewrite H0. reflexivity. }
  split; [exact Hr|].
  change [0xFF] with ([] ++ [0xFF]). eapply xfer_trans; eassumption.
Qed.

Lemma wait_token_hit token d :
  incoming d 0 = token ->
  fst (_wait_token token d) = true /\ xfer d (snd (_wait_token token d)) [0xFF].
Proof.
  intros H0. unfold _wait_token. rewrite !bind_unfold.
  unfold get at 1 2, patience. cbn [fst snd].
  pose proof (xfer_stopwatch d) as Hx.
  set (d1 := snd (timer_start (snd (timer_reset d)))) in *.
  destruct (poll_line_hit (Z.eqb token) 300
              (length (miso (_spi d1)) + Z.to_nat 300) d1) as [Hr Hp].
  { destruct Hx as (_ & _ & Hi). rewrite Hi. cbn [length Nat.add]. rewrite H0. apply Z.eqb_refl. }
  split; [exact Hr|].
  change [0xFF] with ([] ++ [0xFF]). eapply xfer_trans; eassumption.
Qed.

Lemma xfer_spi_send bytes : forall d,
  xfer d (snd (spi_send bytes d)) (map u8 bytes).
Proof.
  induction bytes as [|b bs IH]; intros d.
  - apply xfer_quiet. reflexivity.
  - cbn [spi_send map]. rewrite bind_unfold.
    change (u8 b :: map u8 bs) with ([u8 b] ++ map u8 bs).
    eapply xfer_trans; [apply xfer_spi_write | apply IH].
Qed.

(** A command that is not CMD12 and is answered at once. *)
Lemma cmd_spi_hit cmd arg d :
  cmd <> 12 ->
  Z.land (incoming d 6) 0x80 = 0 ->
  fst (_cmd_spi cmd arg d) = incoming d 6 /\
  xfer d (snd (_cmd_spi cmd arg d)) (packet cmd arg ++ [0xFF]).
Proof.
  intros Hcmd Hr. unfold _cmd_spi. rewrite !bind_unfold.
  pose proof (xfer_spi_send (cmdPacket cmd arg) d) as Hs.
  rewrite cmdPacket_bytes in Hs. fold (packet cmd arg) in Hs.
  set (d1 := snd (spi_send (cmdPacket cmd arg) d)) in *.
  unfold CMD12_STOP_TRANSMISSION.
  destruct (Z.eqb_spec 12 cmd) as [E|_]; [congruence|].
  cbn [ret snd r1_poll]. rewrite bind_unfold.
  pose proof (spi_write_result SPI_FILL_CHAR d1) as Hres.
  pose proof (xfer_spi_write SPI_FILL_CHAR d1) as Hx.
  destruct (spi_write SPI_FILL_CHAR d1) as [r d2]. cbn [fst snd] in *.
  assert (Hr6 : r = incoming d 6).
  { rewrite Hres. destruct Hs as (_ & _ & Hi). rewrite Hi. reflexivity. }
  unfold R1_RESPONSE_RECV. rewrite Hr6, Hr. cbn [Z.eqb ret fst snd].
  split; [reflexivity|]. eapply xfer_trans; eassumption.
Qed.

(** CMD12: one byte is dropped before the response is looked for. *)
Lemma cmd12_spi_hit arg d :
  Z.land (incoming d 7) 0x80 = 0 ->
  fst (_cmd_spi 12 arg d) = incoming d 7 /\
  xfer d (snd (_cmd_spi 12 arg d)) (packet 12 arg ++ [0xFF; 0xFF]).
Proof.
  intros Hr. unfold _cmd_spi. rewrite !bind_unfold.
  pose proof (xfer_spi_send (cmdPacket 12 arg) d) as Hs.
  rewrite cmdPacket_bytes in Hs. fold (packet 12 arg) in Hs.
  set (d1 := snd (spi_send (cmdPacket 12 arg) d)) in *.
  change (CMD12_STOP_TRANSMISSION =? 12) with true. cbv iota.
  rewrite bind_unfold. cbn [ret snd r1_poll].
  pose proof (xfer_spi_write SPI_FILL_CHAR d1) as Hx1.
  set (d2 := snd (spi_write SPI_FILL_CHAR d1)) in *.
  rewrite bind_unfold.
  pose proof (spi_write_result SPI_FILL_CHAR d2) as Hres.
  pose proof (xfer_spi_write SPI_FILL_CHAR d2) as Hx2.
  destruct (spi_write SPI_FILL_CHAR d2) as [r d3]. cbn [fst snd] in *.
  pose proof (xfer_trans _ _ _ _ _ Hs Hx1) as H12.
  assert (Hr7 : r = incoming d 7).
  { rewrite Hres. destruct H12 as (_ & _ & Hi). rewrite Hi. reflexivity. }
  unfold R1_RESPONSE_RECV. rewrite Hr7, Hr. cbn [Z.eqb ret fst snd].
  split; [reflexivity|].
  pose proof (xfer_trans _ _ _ _ _ H12 Hx2) as H. rewrite <- app_assoc in H.
  exact H.
Qed.

Lemma xfer_select d : xfer d (snd (_select d)) [].
Proof. apply xfer_quiet. reflexivity. Qed.

Lemma xfer_incoming d d' tx i :
  xfer d d' tx -> incoming d' i = incoming d (length tx + i).
Proof. intros (_ & _ & H). apply H. Qed.

Lemma xfer_incoming_n d d' tx n i :
  xfer d d' tx -> length tx = n -> incoming d' i = incoming d (n + i).
Proof. intros (_ & _ & H) <-. apply H. Qed.

(** The first stretch of [_cmd] when the card is ready at once and
    answers 0 at once. *)
Lemma cmd_retry_hit cmd arg d :
  cmd <> 12 ->
  incoming d 0 = 0xFF ->
  incoming d 7 = 0 ->
  let m := _select ;;; _wait_ready SD_COMMAND_TIMEOUT ;;;
           cmd_retry 3 cmd arg false 0 in
  fst (m d) = 0 /\ xfer d (snd (m d)) ([0xFF] ++ packet cmd arg ++ [0xFF]).
Proof.
  intros Hcmd H0 H7 m. subst m. rewrite !bind_unfold.
  pose proof (xfer_select d) as Hsel.
  set (d1 := snd (_select d)) in *.
  destruct (wait_ready_hit SD_COMMAND_TIMEOUT d1) as [_ Hw].
  { rewrite (xfer_incoming _ _ _ _ Hsel). exact H0. }
  set (d2 := snd (_wait_ready SD_COMMAND_TIMEOUT d1)) in *.
  pose proof (xfer_trans _ _ _ _ _ Hsel Hw) as H2. cbn [app] in H2.
  cbn [cmd_retry]. rewrite !bind_unfold. cbn [ret fst snd].
  destruct (cmd_spi_hit cmd arg d2 Hcmd) as [Hr Hx].
  { rewrite (xfer_incoming _ _ _ _ H2). cbn [length Nat.add]. now rewrite H7. }
  rewrite (xfer_incoming _ _ _ _ H2) in Hr. cbn [length Nat.add] in Hr.
  rewrite H7 in Hr. rewrite Hr. cbn [Z.eqb R1_NO_RESPONSE ret fst snd].
  change (R1_NO_RESPONSE =? 0) with false. cbv iota. cbn [ret fst snd].
  split; [reflexivity|].
  eapply xfer_trans; eassumption.
Qed.

Lemma cmd_plain_ok cmd arg d :
  ~ In cmd [8; 12; 13; 38; 58] ->
  incoming d 0 = 0xFF ->
  incoming d 7 = 0 ->
  fst (_cmd cmd arg false d) = (0, 0) /\
  xfer d (snd (_cmd cmd arg false d)) ([0xFF] ++ packet cmd arg ++ [0xFF]).
Proof.
  intros Hcmd H0 H7.
  destruct (cmd_retry_hit cmd arg d) as [Hr Hx]; auto.
  { intro E. apply Hcmd. subst. cbn. tauto. }
  unfold _cmd. rewrite bind_unfold. rewrite bind_unfold.
  rewrite !bind_unfold in Hr, Hx.
  set (d3 := snd (cmd_retry 3 cmd arg false 0 _)) in *.
  rewrite bind_unfold. rewrite Hr.
  change (R1_NO_RESPONSE =? 0) with false.
  change (bit_set 0 R1_COM_CRC_ERROR) with false.
  change (bit_set 0 R1_ILLEGAL_COMMAND) with false.
  change (bit_set 0 R1_ERASE_RESET) with false.
  change (bit_set 0 R1_ERASE_SEQUENCE_ERROR) with false.
  change (bit_set 0 R1_ADDRESS_ERROR) with false.
  change (bit_set 0 R1_PARAMETER_ERROR) with false.
  cbv iota. cbn [orb].
  unfold CMD8_SEND_IF_COND, CMD58_READ_OCR, CMD12_STOP_TRANSMISSION,
    CMD38_ERASE, ACMD13_SD_STATUS.
  destruct (Z.eqb_spec cmd 8); [exfalso; apply Hcmd; subst; cbn; tauto|].
  destruct (Z.eqb_spec cmd 58); [exfalso; apply Hcmd; subst; cbn; tauto|].
  destruct (Z.eqb_spec cmd 12); [exfalso; apply Hcmd; subst; cbn; tauto|].
  destruct (Z.eqb_spec cmd 38); [exfalso; apply Hcmd; subst; cbn; tauto|].
  destruct (Z.eqb_spec cmd 13); [exfalso; apply Hcmd; subst; cbn; tauto|].
  cbn [orb]. rewrite !bind_unfold. cbn [ret fst snd _deselect modify].
  split; [reflexivity|].
  rewrite <- (app_nil_r (_ ++ _ ++ _)).
  eapply xfer_trans; [exact Hx|]. apply xfer_quiet. reflexivity.
Qed.

Lemma cmd12_ok arg d :
  incoming d 0 = 0xFF ->
  incoming d 8 = 0 ->
  incoming d 9 = 0xFF ->
  fst (_cmd 12 arg false d) = (0, 0) /\
  xfer d (snd (_cmd 12 arg false d))
       ([0xFF] ++ packet 12 arg ++ [0xFF; 0xFF] ++ [0xFF]).
Proof.
  intros H0 H8 H9. unfold _cmd. rewrite !bind_unfold.
  pose proof (xfer_select d) as Hsel.
  set (d1 := snd (_select d)) in *.
  destruct (wait_ready_hit SD_COMMAND_TIMEOUT d1) as [_ Hw].
  { rewrite (xfer_incoming _ _ _ _ Hsel). exact H0. }
  set (d2 := snd (_wait_ready SD_COMMAND_TIMEOUT d1)) in *.
  pose proof (xfer_trans _ _ _ _ _ Hsel Hw) as H2. cbn [app] in H2.
  cbn [cmd_retry]. rewrite !bind_unfold. cbn [ret fst snd].
  destruct (cmd12_spi_hit arg d2) as [Hr Hx].
  { rewrite (xfer_incoming _ _ _ _ H2). cbn [length Nat.add]. now rewrite H8. }
  rewrite (xfer_incoming _ _ _ _ H2) in Hr. cbn [length Nat.add] in Hr.
  rewrite H8 in Hr. rewrite Hr.
  pose proof (xfer_trans _ _ _ _ _ H2 Hx) as H3.
  set (d3 := snd (_cmd_spi 12 arg d2)) in *.
  change (R1_NO_RESPONSE =? 0) with false. cbv iota. cbn [ret fst snd].
  change (R1_NO_RESPONSE =? 0) with false. cbv iota.
  change (bit_set 0 R1_COM_CRC_ERROR) with false.
  change (bit_set 0 R1_ILLEGAL_COMMAND) with false.
  change (bit_set 0 R1_ERASE_RESET) with false.
  change (bit_set 0 R1_ERASE_SEQUENCE_ERROR) with false.
  change (bit_set 0 R1_ADDRESS_ERROR) with false.
  change (bit_set 0 R1_PARAMETER_ERROR) with false.
  cbv iota. cbn [orb].
  change (12 =? CMD8_SEND_IF_COND) with false.
  change (12 =? CMD58_READ_OCR) with false.
  change (12 =? CMD12_STOP_TRANSMISSION) with true.
  cbv iota. cbn [orb]. rewrite ?bind_unfold.
  cbn [ret fst snd _deselect modify].
  destruct (wait_ready_hit SD_COMMAND_TIMEOUT d3) as [_ Hw3].
  { rewrite (xfer_incoming_n _ _ _ 9%nat _ H3 eq_refl). exact H9. }
  split; [reflexivity|].
  pose proof (xfer_trans _ _ _ _ _ H3 Hw3) as H4.
  rewrite <- !app_assoc in H4.
  rewrite <- (app_nil_r [0xFF]) at 3. rewrite !app_assoc.
  eapply xfer_trans; [|apply xfer_quiet; reflexivity].
  rewrite <- !app_assoc. exact H4.
Qed.

(** [SPI::write] with buffers: what is read and what is sent. *)
Lemma exchanges_xfer : forall n tx d,
  fst (spi_exchanges n tx d) = map (incoming d) (seq 0 n) /\
  xfer d (snd (spi_exchanges n tx d))
       (map u8 (firstn n tx)
        ++ repeat (u8 (spi_fill (_spi d))) (n - length tx)).
Proof.
  induction n as [|n IH]; intros tx d.
  - split; [reflexivity|]. apply xfer_quiet. reflexivity.
  - cbn [spi_exchanges]. rewrite !bind_unfold.
    set (out := match tx with [] => get _ | t :: _ => ret t end).
    assert (Hout : snd (out d) = d /\
                   [u8 (fst (out d))]
                   = map u8 (firstn 1 tx)
                     ++ repeat (u8 (spi_fill (_spi d))) (1 - length tx)).
    { subst out. destruct tx; split; reflexivity. }
    destruct Hout as [Hd Ho]. rewrite Hd.
    pose proof (spi_write_result (fst (out d)) d) as Hr.
    pose proof (xfer_spi_write (fst (out d)) d) as Hx.
    set (d1 := snd (spi_write (fst (out d)) d)) in *.
    destruct (IH (tl tx) d1) as [Hbs Hx1].
    cbn [ret fst snd]. split.
    + rewrite Hr, Hbs. cbn [seq map]. f_equal.
      rewrite <- seq_shift, map_map. apply map_ext. intro i.
      apply (xfer_incoming _ _ _ _ Hx).
    + pose proof (xfer_trans _ _ _ _ _ Hx Hx1) as H.
      destruct Hx as (_ & Hf & _). rewrite Hf in H.
      replace (map u8 (firstn (S n) tx)
               ++ repeat (u8 (spi_fill (_spi d))) (S n - length tx))
        with ([u8 (fst (out d))]
              ++ map u8 (firstn n (tl tx))
              ++ repeat (u8 (spi_fill (_spi d))) (n - length (tl tx)));
        [exact H|].
      subst out. destruct tx as [|t tx]; cbn [fst ret get tl firstn map length].
      * rewrite firstn_nil. cbn [map app length Nat.sub]. 
        rewrite Nat.sub_0_r. reflexivity.
      * reflexivity.
Qed.

(** [_read] when the start token is the first byte it meets. *)
Lemma read_block_ok n d :
  incoming d 0 = 0xFE ->
  fst (_read n d) = (0, map (incoming d) (seq 1 n)) /\
  forall i, incoming (snd (_read n d)) i = incoming d (n + 3 + i).
Proof.
  intros H0. unfold _read. rewrite !bind_unfold.
  pose proof (xfer_select d) as Hsel.
  set (d1 := snd (_select d)) in *.
  destruct (wait_token_hit SPI_START_BLOCK d1) as [Hok Hw].
  { rewrite (xfer_incoming _ _ _ _ Hsel). exact H0. }
  rewrite Hok. cbn [negb]. rewrite !bind_unfold.
  pose proof (xfer_trans _ _ _ _ _ Hsel Hw) as H2. cbn [app] in H2.
  set (d2 := snd (_wait_token SPI_START_BLOCK d1)) in *.
  unfold spi_write_block. rewrite !bind_unfold. cbn [ret fst snd Nat.max].
  destruct (exchanges_xfer n (firstn 0 []) d2) as [Hbs Hx].
  pose proof (xfer_trans _ _ _ _ _ H2 Hx) as H3.
  set (d3 := snd (spi_exchanges n (firstn 0 []) d2)) in *.
  pose proof (xfer_spi_write SPI_FILL_CHAR d3) as Hx4.
  pose proof (xfer_trans _ _ _ _ _ H3 Hx4) as H4.
  set (d4 := snd (spi_write SPI_FILL_CHAR d3)) in *.
  pose proof (xfer_spi_write SPI_FILL_CHAR d4) as Hx5.
  pose proof (xfer_trans _ _ _ _ _ H4 Hx5) as H5.
  set (d5 := snd (spi_write SPI_FILL_CHAR d4)) in *.
  cbn [_deselect modify snd fst]. split.
  - f_equal. rewrite Hbs, firstn_all2 by (rewrite length_map, length_seq; lia).
    rewrite <- seq_shift, map_map. apply map_ext. intro i.
    apply (xfer_incoming _ _ _ _ H2).
  - intro i. change (incoming (set_cs 1 d5) i) with (incoming d5 i).
    rewrite (xfer_incoming _ _ _ _ H5). f_equal.
    cbn [firstn]. rewrite firstn_nil.
    rewrite !length_app, repeat_length. cbn [map length]. lia.
Qed.

Lemma payloads_S d s n :
  payloads d s (S n)
  = map (incoming d) (seq (s + 1) 512) ++ payloads d (s + 515) n.
Proof.
  unfold payloads. rewrite <- cons_seq. cbn [flat_map]. f_equal.
  - do 2 f_equal. lia.
  - rewrite <- seq_shift, flat_map_concat_map, map_map,
      <- flat_map_concat_map.
    apply flat_map_ext. intro j. do 2 f_equal. lia.
Qed.

Lemma incoming_shift d d' k n :
  (forall i, incoming d' i = incoming d (k + i)) ->
  forall a, map (incoming d') (seq a n) = map (incoming d) (seq (k + a) n).
Proof.
  intros H. induction n as [|n IH]; intros a; [reflexivity|].
  cbn [seq map]. rewrite H, IH, Nat.add_succ_r. reflexivity.
Qed.

Lemma payloads_shift d d' k s n :
  (forall i, incoming d' i = incoming d (k + i)) ->
  payloads d' s n = payloads d (k + s) n.
Proof.
  intros H. unfold payloads. apply flat_map_ext. intro j.
  rewrite (incoming_shift d d' k 512 H). do 2 f_equal. lia.
Qed.

Lemma payloads_length d s n : length (payloads d s n) = (512 * n)%nat.
Proof.
  revert s. induction n as [|n IH]; intros s; [reflexivity|].
  rewrite payloads_S, length_app, length_map, length_seq, IH. lia.
Qed.

(** The second loop of [read] over [m] packets that follow one another
    without a gap. *)
Lemma read_rest_ok status : forall m d,
  (forall j, (j < m)%nat -> incoming d (515 * j) = 0xFE) ->
  fst (read_rest m 512 status d) = (status, payloads d 0 m) /\
  forall i, incoming (snd (read_rest m 512 status d)) i
            = incoming d (515 * m + i).
Proof.
  induction m as [|m IH]; intros d Htok.
  - split; [reflexivity|]. intro i. reflexivity.
  - cbn [read_rest]. rewrite bind_unfold.
    destruct (read_block_ok 512 d) as [Hr Hi].
    { apply (Htok 0%nat). lia. }
    set (d1 := snd (_read 512 d)) in *. rewrite Hr. cbv iota beta.
    cbn [Z.eqb negb]. rewrite bind_unfold.
    destruct (IH d1) as [Hr1 Hi1].
    { intros j Hj. rewrite Hi.
      replace (512 + 3 + 515 * j)%nat with (515 * S j)%nat by lia.
      apply Htok. lia. }
    rewrite Hr1. cbv iota beta. cbn [ret fst snd]. split.
    + f_equal. rewrite payloads_S. f_equal.
      rewrite (payloads_shift d d1 515 0 m); [reflexivity|].
      intro i. rewrite Hi. f_equal.
    + intro i. rewrite Hi1, Hi. f_equal. lia.
Qed.

Lemma size_u64 d : 0 <= size d < 2 ^ 64.
Proof. unfold size, u64. apply Z.mod_pos_bound. reflexivity. Qed.

(** X17.  A card that is ready at once, accepts the read command at once and
    sends the blocks without a gap (and, for several blocks, accepts
    CMD12 at once): [read] returns 0 and the payloads of the [n]
    packets. *)
Theorem read_returns_payloads (n : nat) addr d :
  (1 <= n)%nat ->
  0 <= addr ->
  _is_initialized d = true ->
  _block_size d = 512 ->
  is_valid_read addr (512 * Z.of_nat n) d = true ->
  incoming d 0 = 0xFF ->
  incoming d 7 = 0 ->
  (forall j, (j < n)%nat -> incoming d (8 + 515 * j) = 0xFE) ->
  ((1 < n)%nat ->
   incoming d (8 + 515 * n) = 0xFF /\
   incoming d (16 + 515 * n) = 0 /\
   incoming d (17 + 515 * n) = 0xFF) ->
  fst (read addr (512 * Z.of_nat n) d) = (0, payloads d 8 n) /\
  length (payloads d 8 n) = (512 * n)%nat.
Proof.
  intros Hn Haddr Hinit Hbs Hvalid H0 H7 Htok Hstop.
  split; [|apply payloads_length].
  assert (Hsmall : Z.of_nat n < 2 ^ 64).
  { unfold is_valid_read in Hvalid.
    apply andb_prop in Hvalid. destruct Hvalid as [_ Hle].
    apply Z.leb_le in Hle. pose proof (size_u64 d). lia. }
  unfold read. rewrite bind_unfold. cbn [get fst snd].
  rewrite Hvalid. cbn [negb]. rewrite bind_unfold. cbn [get fst snd].
  rewrite Hinit. cbn [negb]. rewrite 2 bind_unfold. cbn [get fst snd].
  rewrite Hbs.
  replace (512 * Z.of_nat n / 512) with (Z.of_nat n)
    by (rewrite Z.mul_comm, Z.div_mul; lia).
  set (a := if SDCARD_V2HC =? _card_type d then addr / 512 else addr).
  change (Z.to_nat 512) with 512%nat.
  cbn [read_first]. rewrite !bind_unfold.
  set (op := if 1 <? Z.of_nat n then CMD18_READ_MULTIPLE_BLOCK
             else CMD17_READ_SINGLE_BLOCK).
  destruct (cmd_plain_ok op (u32 a) d) as [Hc Hx]; auto.
  { subst op. unfold CMD18_READ_MULTIPLE_BLOCK, CMD17_READ_SINGLE_BLOCK.
    destruct (1 <? Z.of_nat n); cbn; lia. }
  set (d1 := snd (_cmd op (u32 a) false d)) in *.
  rewrite Hc. cbv iota beta. change (negb (BD_ERROR_OK =? 0)) with false.
  cbv iota. rewrite !bind_unfold.
  assert (Hi1 : forall i, incoming d1 i = incoming d (8 + i)).
  { intro i. apply (xfer_incoming_n _ _ _ 8%nat _ Hx eq_refl). }
  destruct (read_block_ok 512 d1) as [Hr Hi2].
  { rewrite Hi1. rewrite <- (Htok 0%nat) by lia. f_equal. }
  set (d2 := snd (_read 512 d1)) in *.
  rewrite Hr. cbv iota beta.
  change (SD_BLOCK_DEVICE_ERROR_NO_RESPONSE =? 0) with false. cbv iota.
  cbn [ret fst snd].
  replace (Z.to_nat (u64 (Z.of_nat n - 1))) with (n - 1)%nat
    by (unfold u64; rewrite Z.mod_small by lia; lia).
  rewrite bind_unfold.
  assert (Hi2' : forall i, incoming d2 i = incoming d (523 + i)).
  { intro i. rewrite Hi2, Hi1. f_equal. }
  destruct (read_rest_ok 0 (n - 1) d2) as [Hrest Hi3].
  { intros j Hj. rewrite Hi2'.
    replace (523 + 515 * j)%nat with (8 + 515 * S j)%nat by lia.
    apply Htok. lia. }
  change BD_ERROR_OK with 0 in *.
  set (d3 := snd (read_rest (n - 1) 512 0 d2)) in *.
  rewrite Hrest. cbv iota beta.
  assert (Hdata : map (incoming d1) (seq 1 512) ++ payloads d2 0 (n - 1)
                  = payloads d 8 n).
  { replace n with (S (n - 1)) at 2 by lia. rewrite payloads_S. f_equal.
    - apply (incoming_shift d d1 8 512 Hi1 1%nat).
    - apply (payloads_shift d d2 523 0 (n - 1) Hi2'). }
  rewrite Hdata.
  destruct (Z.ltb_spec 512 (512 * Z.of_nat n)) as [Hmany|Hone].
  - rewrite bind_unfold.
    destruct (Hstop ltac:(lia)) as (S0 & S8 & S9).
    assert (Hi3' : forall i, incoming d3 i = incoming d (8 + 515 * n + i)).
    { intro i. rewrite Hi3, Hi2'. f_equal. lia. }
    destruct (cmd12_ok 0 d3) as [Hc12 _].
    + rewrite Hi3', Nat.add_0_r. exact S0.
    + rewrite Hi3'. rewrite <- S8. f_equal. lia.
    + rewrite Hi3'. rewrite <- S9. f_equal. lia.
    + change CMD12_STOP_TRANSMISSION with 12. rewrite Hc12. reflexivity.
  - reflexivity.
Qed.

Lemma cmd13_ok arg d :
  incoming d 0 = 0xFF ->
  incoming d 7 = 0 ->
  fst (_cmd 13 arg false d) = (0, incoming d 8) /\
  xfer d (snd (_cmd 13 arg false d))
       ([0xFF] ++ packet 13 arg ++ [0xFF] ++ [0xFF]).
Proof.
  intros H0 H7.
  destruct (cmd_retry_hit 13 arg d) as [Hr Hx]; auto; [lia|].
  unfold _cmd. rewrite bind_unfold. rewrite bind_unfold.
  rewrite !bind_unfold in Hr, Hx.
  set (d3 := snd (cmd_retry 3 13 arg false 0 _)) in *.
  rewrite bind_unfold. rewrite Hr.
  change (R1_NO_RESPONSE =? 0) with false.
  change (bit_set 0 R1_COM_CRC_ERROR) with false.
  change (bit_set 0 R1_ILLEGAL_COMMAND) with false.
  change (bit_set 0 R1_ERASE_RESET) with false.
  change (bit_set 0 R1_ERASE_SEQUENCE_ERROR) with false.
  change (bit_set 0 R1_ADDRESS_ERROR) with false.
  change (bit_set 0 R1_PARAMETER_ERROR) with false.
  cbv iota. cbn [orb].
  change (13 =? CMD8_SEND_IF_COND) with false.
  change (13 =? CMD58_READ_OCR) with false.
  change (13 =? CMD12_STOP_TRANSMISSION) with false.
  change (13 =? CMD38_ERASE) with false.
  change (13 =? ACMD13_SD_STATUS) with true.
  cbv iota. cbn [orb]. rewrite !bind_unfold.
  cbn [ret fst snd _deselect modify]. fold d3.
  pose proof (spi_write_result SPI_FILL_CHAR d3) as Hres.
  pose proof (xfer_spi_write SPI_FILL_CHAR d3) as Hx4.
  pose proof (xfer_trans _ _ _ _ _ Hx Hx4) as H4.
  set (d4 := snd (spi_write SPI_FILL_CHAR d3)) in *.
  split.
  - rewrite Hres, (xfer_incoming_n _ _ _ 8%nat _ Hx eq_refl). reflexivity.
  - rewrite <- !app_assoc in H4.
    rewrite <- (app_nil_r [0xFF]) at 3. rewrite !app_assoc.
    eapply xfer_trans; [|apply xfer_quiet; reflexivity].
    rewrite <- !app_assoc. exact H4.
Qed.

(** [_write] to a card that is ready at once. *)
Lemma write_block_ok buffer token n d :
  length buffer = n ->
  incoming d 0 = 0xFF ->
  fst (_write buffer token n d) = Z.land (incoming d (n + 4)) 0x1F /\
  xfer d (snd (_write buffer token n d))
       ([0xFF] ++ [u8 token] ++ map u8 buffer ++ [0xFF; 0xFF] ++ [0xFF]).
Proof.
  intros Hlen H0. unfold _write. rewrite !bind_unfold.
  pose proof (xfer_select d) as Hsel.
  set (d1 := snd (_select d)) in *.
  destruct (wait_ready_hit SD_COMMAND_TIMEOUT d1) as [_ Hw].
  { rewrite (xfer_incoming _ _ _ _ Hsel). exact H0. }
  pose proof (xfer_trans _ _ _ _ _ Hsel Hw) as H2. cbn [app] in H2.
  set (d2 := snd (_wait_ready SD_COMMAND_TIMEOUT d1)) in *.
  pose proof (xfer_trans _ _ _ _ _ H2 (xfer_spi_write token d2)) as H3.
  set (d3 := snd (spi_write token d2)) in *.
  unfold spi_write_block. rewrite !bind_unfold. cbn [ret fst snd].
  assert (Hfb : firstn n buffer = buffer) by (apply firstn_all2; lia).
  rewrite Hfb, Nat.max_0_r.
  destruct (exchanges_xfer n buffer d3) as [_ Hx].
  rewrite Hfb, Hlen, Nat.sub_diag in Hx. cbn [repeat] in Hx.
  rewrite app_nil_r in Hx.
  pose proof (xfer_trans _ _ _ _ _ H3 Hx) as H4.
  set (d4 := snd (spi_exchanges n buffer d3)) in *.
  pose proof (xfer_trans _ _ _ _ _ H4
                (xfer_spi_write (Z.shiftr 0xFFFF 8) d4)) as H5.
  set (d5 := snd (spi_write (Z.shiftr 0xFFFF 8) d4)) in *.
  pose proof (xfer_trans _ _ _ _ _ H5 (xfer_spi_write 0xFFFF d5)) as H6.
  set (d6 := snd (spi_write 0xFFFF d5)) in *.
  pose proof (spi_write_result SPI_FILL_CHAR d6) as Hres.
  pose proof (xfer_trans _ _ _ _ _ H6 (xfer_spi_write SPI_FILL_CHAR d6)) as H7.
  set (d7 := snd (spi_write SPI_FILL_CHAR d6)) in *.
  cbn [_deselect modify snd fst]. split.
  - rewrite Hres, (xfer_incoming _ _ _ _ H6).
    unfold SPI_DATA_RESPONSE_MASK. do 2 f_equal.
    rewrite !length_app, length_map. cbn [length]. lia.
  - change (u8 (Z.shiftr 0xFFFF 8)) with 0xFF in H7.
    change (u8 0xFFFF) with 0xFF in H7.
    change (u8 SPI_FILL_CHAR) with 0xFF in H7.
    rewrite <- !app_assoc in H7. cbn [app] in H7 |- *.
    destruct H7 as (Hm & Hf & Hi). repeat split.
    + exact Hm.
    + exact Hf.
    + exact Hi.
Qed.

(** X18.  A single block program on a card that is ready at once and accepts
    CMD24 and CMD13 at once: what goes out on the wire, and the
    result. *)
Theorem program_block_on_the_wire b addr d :
  length b = 512%nat ->
  _is_initialized d = true ->
  _block_size d = 512 ->
  is_valid_program addr 512 d = true ->
  incoming d 0 = 0xFF ->
  incoming d 7 = 0 ->
  incoming d 8 = 0xFF ->
  incoming d 525 = 0xFF ->
  incoming d 532 = 0 ->
  let a := u32 (if SDCARD_V2HC =? _card_type d then addr / 512 else addr) in
  fst (program b addr 512 d) = 0 /\
  mosi (_spi (snd (program b addr 512 d)))
  = mosi (_spi d)
    ++ [0xFF] ++ packet 24 a ++ [0xFF]
    ++ [0xFF; 0xFE] ++ map u8 b ++ [0xFF; 0xFF] ++ [0xFF]
    ++ [0xFF] ++ packet 13 0 ++ [0xFF; 0xFF].
Proof.
  intros Hlen Hinit Hbs Hvalid H0 H7 H8 H525 H532 a.
  unfold program. rewrite bind_unfold. cbn [get fst snd].
  rewrite Hvalid. cbn [negb]. rewrite bind_unfold. cbn [get fst snd].
  rewrite Hinit. cbn [negb]. rewrite 2 bind_unfold. cbn [get fst snd].
  rewrite Hbs. fold a.
  change (512 / 512 =? 1) with true. cbv iota.
  change (Z.to_nat 512) with 512%nat.
  rewrite bind_unfold.
  destruct (cmd_plain_ok 24 a d) as [Hc Hx]; auto.
  { cbn. lia. }
  change CMD24_WRITE_BLOCK with 24.
  set (d1 := snd (_cmd 24 a false d)) in *.
  rewrite Hc. cbv iota beta. change (negb (BD_ERROR_OK =? 0)) with false.
  cbv iota. rewrite bind_unfold.
  destruct (write_block_ok b SPI_START_BLOCK 512 d1 Hlen) as [_ Hw].
  { rewrite (xfer_incoming_n _ _ _ 8%nat _ Hx eq_refl). exact H8. }
  pose proof (xfer_trans _ _ _ _ _ Hx Hw) as H2.
  set (d2 := snd (_write b SPI_START_BLOCK 512 d1)) in *.
  rewrite bind_unfold.
  assert (Hi2 : forall i, incoming d2 i = incoming d (525 + i)).
  { intro i. apply (xfer_incoming_n _ _ _ _ _ H2).
    rewrite !length_app, length_map, Hlen. reflexivity. }
  destruct (cmd13_ok 0 d2) as [Hc13 Hx13].
  { rewrite Hi2. exact H525. }
  { rewrite Hi2. exact H532. }
  change CMD13_SEND_STATUS with 13.
  pose proof (xfer_trans _ _ _ _ _ H2 Hx13) as H3.
  set (d3 := snd (_cmd 13 0 false d2)) in *.
  rewrite Hc13. cbv iota beta. cbn [ret fst snd]. split; [reflexivity|].
  destruct H3 as (Hm & _). rewrite Hm. f_equal.
  change (u8 SPI_START_BLOCK) with 0xFE.
  rewrite <- !app_assoc. reflexivity.
Qed.

Lemma cmd38_ok arg d :
  incoming d 0 = 0xFF ->
  incoming d 7 = 0 ->
  incoming d 8 = 0xFF ->
  fst (_cmd 38 arg false d) = (0, 0) /\
  xfer d (snd (_cmd 38 arg false d))
       ([0xFF] ++ packet 38 arg ++ [0xFF] ++ [0xFF]).
Proof.
  intros H0 H7 H8.
  destruct (cmd_retry_hit 38 arg d) as [Hr Hx]; auto; [lia|].
  unfold _cmd. rewrite bind_unfold. rewrite bind_unfold.
  rewrite !bind_unfold in Hr, Hx.
  set (d3 := snd (cmd_retry 3 38 arg false 0 _)) in *.
  rewrite bind_unfold. rewrite Hr.
  change (R1_NO_RESPONSE =? 0) with false.
  change (bit_set 0 R1_COM_CRC_ERROR) with false.
  change (bit_set 0 R1_ILLEGAL_COMMAND) with false.
  change (bit_set 0 R1_ERASE_RESET) with false.
  change (bit_set 0 R1_ERASE_SEQUENCE_ERROR) with false.
  change (bit_set 0 R1_ADDRESS_ERROR) with false.
  change (bit_set 0 R1_PARAMETER_ERROR) with false.
  cbv iota. cbn [orb].
  change (38 =? CMD8_SEND_IF_COND) with false.
  change (38 =? CMD58_READ_OCR) with false.
  change (38 =? CMD12_STOP_TRANSMISSION) with false.
  change (38 =? CMD38_ERASE) with true.
  cbv iota. cbn [orb]. rewrite !bind_unfold.
  cbn [ret fst snd _deselect modify]. fold d3.
  destruct (wait_ready_hit SD_COMMAND_TIMEOUT d3) as [_ Hw3].
  { rewrite (xfer_incoming_n _ _ _ 8%nat _ Hx eq_refl). exact H8. }
  split; [reflexivity|].
  pose proof (xfer_trans _ _ _ _ _ Hx Hw3) as H4.
  rewrite <- !app_assoc in H4.
  rewrite <- (app_nil_r [0xFF]) at 3. rewrite !app_assoc.
  eapply xfer_trans; [|apply xfer_quiet; reflexivity].
  rewrite <- !app_assoc. exact H4.
Qed.

(** X19.  [erase] on a card that is ready at once and accepts the three
    commands at once: CMD32 carries the first block of the range, CMD33
    the last one, then CMD38 goes out. *)
Theorem erase_range_on_the_wire addr sz d :
  0 <= addr ->
  512 <= sz ->
  _is_initialized d = true ->
  _block_size d = 512 ->
  is_valid_erase addr sz d = true ->
  incoming d 0 = 0xFF -> incoming d 7 = 0 ->
  incoming d 8 = 0xFF -> incoming d 15 = 0 ->
  incoming d 16 = 0xFF -> incoming d 23 = 0 -> incoming d 24 = 0xFF ->
  let hc := SDCARD_V2HC =? _card_type d in
  let first := u32 (if hc then addr / 512 else addr) in
  let last := u32 (if hc then (addr + sz) / 512 - 1 else addr + sz - 512) in
  fst (erase addr sz d) = 0 /\
  mosi (_spi (snd (erase addr sz d)))
  = mosi (_spi d)
    ++ [0xFF] ++ packet 32 first ++ [0xFF]
    ++ [0xFF] ++ packet 33 last ++ [0xFF]
    ++ [0xFF] ++ packet 38 0 ++ [0xFF; 0xFF].
Proof.
  intros Haddr Hsz Hinit Hbs Hvalid H0 H7 H8 H15 H16 H23 H24 hc first last.
  assert (Hv := Hvalid). unfold is_valid_erase in Hv.
  apply andb_prop in Hv. destruct Hv as [Hv Hle].
  apply andb_prop in Hv. destruct Hv as [Ha Hs].
  apply Z.eqb_eq in Ha, Hs. apply Z.leb_le in Hle.
  pose proof (size_u64 d) as Hsize.
  unfold erase. rewrite bind_unfold. cbn [get fst snd].
  rewrite Hvalid. cbn [negb]. rewrite bind_unfold. cbn [get fst snd].
  rewrite Hinit. cbn [negb]. rewrite 2 bind_unfold. cbn [get fst snd].
  rewrite Hbs. fold hc. fold first.
  assert (Hlast : u32 ((if hc then addr / 512 else addr)
                       + (if hc then u64 (sz - 512) / 512
                          else u64 (sz - 512))) = last).
  { subst last. unfold u64. rewrite (Z.mod_small (sz - 512)) by lia.
    f_equal. destruct hc; [|lia].
    apply Z.div_exact in Ha, Hs; try lia.
    assert (E1 : (addr + sz) / 512 = addr / 512 + sz / 512)
      by (symmetry; apply (Z.div_unique _ _ _ 0); lia).
    assert (E2 : (sz - 512) / 512 = sz / 512 - 1)
      by (symmetry; apply (Z.div_unique _ _ _ 0); lia).
    lia. }
  rewrite Hlast.
  change CMD32_ERASE_WR_BLK_START_ADDR with 32.
  change CMD33_ERASE_WR_BLK_END_ADDR with 33.
  change CMD38_ERASE with 38.
  rewrite bind_unfold.
  destruct (cmd_plain_ok 32 first d) as [Hc1 Hx1]; auto.
  { cbn. lia. }
  set (d1 := snd (_cmd 32 first false d)) in *.
  rewrite Hc1. cbv iota beta. change (negb (BD_ERROR_OK =? 0)) with false.
  cbv iota. rewrite bind_unfold.
  assert (Hi1 : forall i, incoming d1 i = incoming d (8 + i)).
  { intro i. apply (xfer_incoming_n _ _ _ 8%nat _ Hx1 eq_refl). }
  destruct (cmd_plain_ok 33 last d1) as [Hc2 Hx2].
  { cbn. lia. }
  { rewrite Hi1. exact H8. }
  { rewrite Hi1. exact H15. }
  pose proof (xfer_trans _ _ _ _ _ Hx1 Hx2) as H2.
  set (d2 := snd (_cmd 33 last false d1)) in *.
  rewrite Hc2. cbv iota beta. change (negb (BD_ERROR_OK =? 0)) with false.
  cbv iota. rewrite bind_unfold.
  assert (Hi2 : forall i, incoming d2 i = incoming d (16 + i)).
  { intro i. apply (xfer_incoming_n _ _ _ 16%nat _ H2 eq_refl). }
  destruct (cmd38_ok 0 d2) as [Hc3 Hx3].
  { rewrite Hi2. exact H16. }
  { rewrite Hi2. exact H23. }
  { rewrite Hi2. exact H24. }
  pose proof (xfer_trans _ _ _ _ _ H2 Hx3) as H3.
  set (d3 := snd (_cmd 38 0 false d2)) in *.
  rewrite Hc3. cbv iota beta. cbn [ret fst snd]. split; [reflexivity|].
  destruct H3 as (Hm & _). rewrite Hm. f_equal.
Qed.

(** ** The opening of [init], refused operations, and examples *)

Lemma sends_spi_frequency hz : sends (spi_frequency hz).
Proof. apply sends_quiet. intro d. reflexivity. Qed.
Lemma sends_spi_default v : sends (spi_set_default_write_value v).
Proof. apply sends_quiet. intro d. reflexivity. Qed.
Lemma sends_wait_ms ms : sends (wait_ms ms).
Proof. apply sends_quiet. intro d. reflexivity. Qed.
#[global] Hint Resolve sends_spi_frequency sends_spi_default sends_wait_ms
  : sends.

Lemma sends_spi_wait n : sends (_spi_wait n).
Proof. induction n; cbn [_spi_wait]; sends_all. Qed.
Lemma sends_cmd8 : sends _cmd8.
Proof. unfold _cmd8. sends_all. Qed.
Lemma sends_go_idle_loop n : forall r, sends (go_idle_loop n r).
Proof. induction n; intros r; cbn [go_idle_loop]; sends_all. Qed.
Lemma sends_acmd41_loop n arg : sends (acmd41_loop n arg).
Proof. induction n; cbn [acmd41_loop]; sends_all. Qed.
Lemma sends_sd_sectors : sends _sd_sectors.
Proof. unfold _sd_sectors. sends_all. Qed.
Lemma sends_freq : sends _freq.
Proof. unfold _freq. sends_all. Qed.
#[global] Hint Resolve sends_spi_wait sends_cmd8 sends_go_idle_loop
  sends_acmd41_loop sends_sd_sectors sends_freq : sends.

Lemma spi_wait_mosi : forall n d,
  mosi (_spi (snd (_spi_wait n d))) = mosi (_spi d) ++ repeat 0xFF n.
Proof.
  induction n as [|n IH]; intros d.
  - cbn. now rewrite app_nil_r.
  - cbn [_spi_wait repeat]. rewrite bind_unfold, IH, spi_write_mosi.
    rewrite <- app_assoc. reflexivity.
Qed.

Lemma spi_init_mosi d :
  mosi (_spi (snd (_spi_init d))) = mosi (_spi d) ++ repeat 0xFF 10.
Proof.
  unfold _spi_init. rewrite 4 bind_unfold. rewrite spi_wait_mosi.
  reflexivity.
Qed.

(** X15.  [init] opens with ten fill bytes -- eighty clocks for the card to
    wake up -- and after the fill bytes of the ready check the first
    packet is CMD0, with its CRC byte 0x95. *)
Theorem init_opens_with_cmd0 fuel d :
  exists k,
    starts (init fuel) d
           (repeat 0xFF 10 ++ repeat 0xFF (S k)
            ++ [0x40; 0x00; 0x00; 0x00; 0x00; 0x95]).
Proof.
  destruct (cmd_starts 0 0 false (snd (_spi_init (set_dbg false d))))
    as [k Hk].
  exists k.
  unfold init. apply starts_bind_l; [|intros; sends_all].
  unfold _initialise_card. apply starts_skip; [reflexivity|].
  cbn [modify fst snd].
  change (negb ((if SD_DBG =? 0 then 0 else SD_CMD_TRACE) =? 0)) with false.
  apply starts_bind_r; [apply spi_init_mosi|].
  apply starts_bind_l; [|intros; sends_all].
  unfold _go_idle_state.
  change SD_CMD0_GO_IDLE_STATE_RETRIES with 5%nat. cbn [go_idle_loop].
  apply starts_bind_l; [exact Hk|intros; sends_all].
Qed.


(** X3.  [program] answers with the parameter error, no-init or one of the
    statuses of [_cmd]; the write error is not among them. *)
Theorem program_result_codes b addr sz d :
  In (fst (program b addr sz d)) io_results
  /\ fst (program b addr sz d) <> SD_BLOCK_DEVICE_ERROR_WRITE.
Proof.
  pose proof (program_status b addr sz d) as H. split; [exact H|].
  intro E. rewrite E in H. vm_compute in H.
  repeat (destruct H as [H|H]; [discriminate|]). exact H.
Qed.

Lemma block_io_leaves_cs_high_witness :
  _cs (snd (read 0 512 (ready two_blocks))) = 1
  /\ _cs (snd (program [] 0 512 (ready two_blocks))) = 1
  /\ _cs (snd (erase 0 512 (ready two_blocks))) = 1.
Proof.
  apply (block_io_leaves_cs_high [] 0 512 (ready two_blocks)).
  vm_compute. reflexivity.
Defined.

Lemma init_success_size_and_clock_witness :
  size (ready []) = 512 * _sectors (ready [])
  /\ 512 <= size (ready []) < 2 ^ 41
  /\ size (ready []) mod 512 = 0
  /\ spi_hz (_spi (ready [])) = _transfer_sck (ready [])
  /\ _transfer_sck (ready []) <= 25000000.
Proof.
  apply (init_success_size_and_clock 8 (fresh (quick v2hc_init ++ []))
           (ready [])).
  - reflexivity.
  - vm_compute. reflexivity.
Defined.

Lemma block_commands_carry_address_witness :
  exists k, starts (read 1024 512) (ready two_blocks)
                   (repeat 0xFF (S k) ++ packet 17 2).
Proof.
  destruct (block_commands_carry_address [] 1024 512 (ready two_blocks))
    as [H _].
  - vm_compute. reflexivity.
  - vm_compute. reflexivity.
  - apply H. vm_compute. reflexivity.
Defined.

Lemma read_returns_payloads_witness :
  fst (read 0 (512 * Z.of_nat 2) (ready two_blocks))
  = (0, payloads (ready two_blocks) 8 2)
  /\ length (payloads (ready two_blocks) 8 2) = (512 * 2)%nat.
Proof.
  apply (read_returns_payloads 2 0 (ready two_blocks)).
  - lia.
  - lia.
  - vm_compute. reflexivity.
  - vm_compute. reflexivity.
  - vm_compute. reflexivity.
  - vm_compute. reflexivity.
  - vm_compute. reflexivity.
  - intros j Hj. destruct j as [|[|j]]; [vm_compute; reflexivity ..|lia].
  - intros _. vm_compute. auto.
Defined.

Lemma program_block_on_the_wire_witness :
  fst (program (repeat 0x5A 512) 0 512 (ready write_accepted)) = 0.
Proof.
  apply (program_block_on_the_wire (repeat 0x5A 512) 0
           (ready write_accepted)); vm_compute; reflexivity.
Defined.

Lemma erase_range_on_the_wire_witness :
  fst (erase 512 1024 (ready erase_accepted)) = 0.
Proof.
  apply (erase_range_on_the_wire 512 1024 (ready erase_accepted));
    try (vm_compute; reflexivity); vm_compute; discriminate.
Defined.
